(** * Sales, purchases and stock consistency of the commercial-management
      application: a shallow embedding of [utils/validators.py],
      [utils/error_handler.py] and [database/database.py].

    Conventions of the embedding.

    - Python numbers (ints and floats read from spin boxes) are exact
      rationals [Q]; rounding of IEEE doubles and the 64-bit range of
      SQLite integers are not modelled.  [None] is [None] of [option].
    - Python strings are [string]: a character is a code point below 256.
    - A primary key handed out by AUTOINCREMENT is a [positive]; an
      identifier received from a caller is an [option Z].
    - The database file is a record of five tables (lists of rows, in
      insertion order) and the AUTOINCREMENT counters; a file without the
      schema is [None].
    - A data-access function is a computation in the monad [M]: it
      threads the [world] (the file, the uncommitted view of the
      connection in use, the number of open connections) and either
      returns a value or raises an exception. *)

From Stdlib Require Import List ZArith QArith String Ascii Bool Lia.
From Stdlib Require Import DecimalString.
Import ListNotations.

Local Open Scope string_scope.
Local Open Scope Z_scope.

(* ================================================================== *)
(** * Exceptions and outcomes ([utils/error_handler.py]) *)
(* ================================================================== *)

(** The exception classes that travel through the data-access layer:
    the two classes of the application and the classes of [sqlite3]. *)
Inductive exn : Type :=
| ValidationError (msg : string)
| DatabaseError (msg : string)
| IntegrityError (msg : string)     (* sqlite3.IntegrityError *)
| OperationalError (msg : string)   (* any other sqlite3.Error *)
| KeyError (msg : string).

(** [str(e)]. *)
Definition exn_str (e : exn) : string :=
  match e with
  | ValidationError m | DatabaseError m | IntegrityError m
  | OperationalError m | KeyError m => m
  end.

(** [isinstance(e, sqlite3.Error)]. *)
Definition is_sqlite_error (e : exn) : bool :=
  match e with
  | IntegrityError _ | OperationalError _ => true
  | _ => false
  end.

Definition is_validation_failure (e : exn) : bool :=
  match e with ValidationError _ => true | _ => false end.

Definition is_persistence_failure (e : exn) : bool :=
  match e with DatabaseError _ => true | _ => false end.

(** What a call produces: a returned value or a raised exception. *)
Inductive outcome (A : Type) : Type :=
| Returned (a : A)
| Raised (e : exn).
Arguments Returned {A} a.
Arguments Raised {A} e.

Definition obind {A B} (o : outcome A) (k : A -> outcome B) : outcome B :=
  match o with
  | Returned a => k a
  | Raised e => Raised e
  end.

Declare Scope outcome_scope.
Delimit Scope outcome_scope with outcome.
Notation "x <~ c ; k" := (obind c (fun x => k))
  (at level 61, c at next level, right associativity) : outcome_scope.

Definition returned {A} (o : outcome A) : bool :=
  match o with Returned _ => true | Raised _ => false end.

Definition raised_validation {A} (o : outcome A) : bool :=
  match o with Raised e => is_validation_failure e | Returned _ => false end.

Definition raised_persistence {A} (o : outcome A) : bool :=
  match o with Raised e => is_persistence_failure e | Returned _ => false end.

(* ================================================================== *)
(** * Strings *)
(* ================================================================== *)

(** [str(n)] for an integer. *)
Definition str_of_Z (z : Z) : string := NilZero.string_of_int (Z.to_int z).

(** [needle in haystack]. *)
Fixpoint contains (needle haystack : string) : bool :=
  String.prefix needle haystack ||
  match haystack with
  | EmptyString => false
  | String _ rest => contains needle rest
  end.

(** [c.isspace()], which is also the class [\s] of [re] on [str]:
    TAB..CR, FS..US, space, NEL and NBSP among the code points below 256. *)
Definition is_space (c : ascii) : bool :=
  let n := nat_of_ascii c in
  ((9 <=? n) && (n <=? 13) || (28 <=? n) && (n <=? 32)
   || (n =? 133) || (n =? 160))%nat.

Definition is_digit (c : ascii) : bool :=
  let n := nat_of_ascii c in ((48 <=? n) && (n <=? 57))%nat.

Definition is_upper (c : ascii) : bool :=
  let n := nat_of_ascii c in ((65 <=? n) && (n <=? 90))%nat.

Definition is_lower (c : ascii) : bool :=
  let n := nat_of_ascii c in ((97 <=? n) && (n <=? 122))%nat.

Definition is_char (d c : ascii) : bool := Ascii.eqb d c.

Fixpoint lstrip (s : string) : string :=
  match s with
  | EmptyString => EmptyString
  | String c rest => if is_space c then lstrip rest else s
  end.

Fixpoint rstrip (s : string) : string :=
  match s with
  | EmptyString => EmptyString
  | String c rest =>
      match rstrip rest with
      | EmptyString => if is_space c then EmptyString else String c EmptyString
      | r => String c r
      end
  end.

(** [s.strip()]. *)
Definition strip (s : string) : string := rstrip (lstrip s).

Fixpoint str_filter (keep : ascii -> bool) (s : string) : string :=
  match s with
  | EmptyString => EmptyString
  | String c rest =>
      if keep c then String c (str_filter keep rest) else str_filter keep rest
  end.

Fixpoint str_forall (p : ascii -> bool) (s : string) : bool :=
  match s with
  | EmptyString => true
  | String c rest => p c && str_forall p rest
  end.

(* ------------------------------------------------------------------ *)
(** ** Anchored patterns of [re]

    The two patterns of the validators have the shape
    [^ c1{l1,h1} c2{l2,h2} ... $]: a sequence of character classes, each
    repeated between a lower and an optional upper bound. *)

Record atom : Type := Atom {
  cls : ascii -> bool;
  lo : nat;
  hi : option nat
}.

Definition pattern : Type := list atom.

Definition below (n : nat) (bound : option nat) : bool :=
  match bound with
  | None => true
  | Some h => (n <? h)%nat
  end.

(** [$]: the end of the string, or just before a newline that ends it. *)
Definition at_end (s : string) : bool :=
  match s with
  | EmptyString => true
  | String c EmptyString => is_char "010" c
  | _ => false
  end.

(** The repetition [c{lo,hi}] followed by the rest of the pattern [k]:
    [n] characters of the class are already consumed. *)
Fixpoint rep (a : atom) (k : string -> bool) (n : nat) (s : string) : bool :=
  ((lo a <=? n)%nat && k s) ||
  match s with
  | EmptyString => false
  | String c rest => below n (hi a) && cls a c && rep a k (S n) rest
  end.

(** [re.compile(p).match(s)] as a truth value: some way of splitting [s]
    among the atoms exists. *)
Fixpoint re_match (p : pattern) (s : string) : bool :=
  match p with
  | [] => at_end s
  | a :: p' => rep a (re_match p') 0%nat s
  end.

(* ================================================================== *)
(** * The validation layer ([utils/validators.py]) *)
(* ================================================================== *)

(** Python's truth value of an argument, and the test
    [isinstance(value, str) and value.strip() == ""]. *)
Class PyValue (A : Type) : Type := {
  py_not : A -> bool;
  py_blank : A -> bool
}.

#[export] Instance PyValue_Z : PyValue Z :=
  {| py_not := fun z => z =? 0; py_blank := fun _ => false |}.

#[export] Instance PyValue_string : PyValue string :=
  {| py_not := fun s => String.eqb s "";
     py_blank := fun s => String.eqb (strip s) "" |}.

#[export] Instance PyValue_list {A} : PyValue (list A) :=
  {| py_not := fun l => match l with [] => true | _ :: _ => false end;
     py_blank := fun _ => false |}.

#[export] Instance PyValue_option {A} `{PyValue A} : PyValue (option A) :=
  {| py_not := fun o => match o with None => true | Some a => py_not a end;
     py_blank := fun o => match o with None => false | Some a => py_blank a end |}.

Definition validate_required {A} `{PyValue A} (value : A) (field_name : string)
  : outcome A :=
  if py_not value || py_blank value
  then Raised (ValidationError (field_name ++ " est requis."))
  else Returned value.

(** [float(value)]: [None] raises [TypeError], which the validators turn
    into their own failure. *)
Definition py_float (value : option Q) : option Q := value.

(** [int(x)] of a float: truncation towards zero. *)
Definition py_int (x : Q) : Z := Z.quot (Qnum x) (Z.pos (Qden x)).

Definition Qlt_bool (x y : Q) : bool := negb (Qle_bool y x).

Definition validate_numeric (value : option Q) (field_name : string)
    (min_value max_value : option Z) : outcome Q :=
  match py_float value with
  | None => Raised (ValidationError (field_name ++ " doit être une valeur numérique."))
  | Some num_value =>
      if match min_value with
         | Some m => Qlt_bool num_value (inject_Z m)
         | None => false
         end
      then Raised (ValidationError
             (field_name ++ " doit être supérieur ou égal à "
              ++ str_of_Z (match min_value with Some m => m | None => 0 end) ++ "."))
      else if match max_value with
              | Some x => Qlt_bool (inject_Z x) num_value
              | None => false
              end
      then Raised (ValidationError
             (field_name ++ " doit être inférieur ou égal à "
              ++ str_of_Z (match max_value with Some x => x | None => 0 end) ++ "."))
      else Returned num_value
  end.

Definition validate_integer (value : option Q) (field_name : string)
    (min_value max_value : option Z) : outcome Z :=
  match py_float value with
  | None => Raised (ValidationError (field_name ++ " doit être un nombre entier."))
  | Some float_value =>
      let int_value := py_int float_value in
      if negb (Qeq_bool float_value (inject_Z int_value))
      then Raised (ValidationError (field_name ++ " doit être un nombre entier."))
      else if match min_value with Some m => int_value <? m | None => false end
      then Raised (ValidationError
             (field_name ++ " doit être supérieur ou égal à "
              ++ str_of_Z (match min_value with Some m => m | None => 0 end) ++ "."))
      else if match max_value with Some x => x <? int_value | None => false end
      then Raised (ValidationError
             (field_name ++ " doit être inférieur ou égal à "
              ++ str_of_Z (match max_value with Some x => x | None => 0 end) ++ "."))
      else Returned int_value
  end.

(** [[a-zA-Z0-9._%+-]], [[a-zA-Z0-9.-]] and [[a-zA-Z]]. *)
Definition is_alnum (c : ascii) : bool := is_lower c || is_upper c || is_digit c.
Definition is_email_local (c : ascii) : bool :=
  is_alnum c || is_char "." c || is_char "_" c || is_char "%" c
  || is_char "+" c || is_char "-" c.
Definition is_email_domain (c : ascii) : bool :=
  is_alnum c || is_char "." c || is_char "-" c.
Definition is_alpha (c : ascii) : bool := is_lower c || is_upper c.

(** [^[a-zA-Z0-9._%+-]+@[a-zA-Z0-9.-]+\.[a-zA-Z]{2,}$] *)
Definition email_pattern : pattern :=
  [ Atom is_email_local 1 None; Atom (is_char "@") 1 (Some 1%nat);
    Atom is_email_domain 1 None; Atom (is_char ".") 1 (Some 1%nat);
    Atom is_alpha 2 None ].

Definition validate_email (email : option string) : outcome (option string) :=
  match email with
  | None => Returned email
  | Some e =>
      if py_not e || String.eqb (strip e) "" then Returned email
      else if negb (re_match email_pattern e)
      then Raised (ValidationError "Format d'email invalide.")
      else Returned email
  end.

(** The class [[\s\-\(\)]] of the separators that [re.sub] removes. *)
Definition is_separator (c : ascii) : bool :=
  is_space c || is_char "-" c || is_char "(" c || is_char ")" c.

(** [re.sub(r"[\s\-\(\)]", "", phone)] *)
Definition clean_phone (phone : string) : string :=
  str_filter (fun c => negb (is_separator c)) phone.

(** [^\+?[0-9]{8,15}$] *)
Definition phone_pattern : pattern :=
  [ Atom (is_char "+") 0 (Some 1%nat); Atom is_digit 8 (Some 15%nat) ].

Definition validate_phone (phone : option string) : outcome (option string) :=
  match phone with
  | None => Returned phone
  | Some p =>
      if py_not p || String.eqb (strip p) "" then Returned phone
      else if negb (re_match phone_pattern (clean_phone p))
      then Raised (ValidationError "Format de numéro de téléphone invalide.")
      else Returned phone
  end.

Definition validate_product_data (name : option string)
    (purchase_price selling_price : option Q) (quantity : option Q)
  : outcome (option string * Q * Q * option Z) :=
  (_ <~ validate_required name "Nom du produit" ;
   purchase_price <~ validate_numeric purchase_price "Prix d'achat" (Some 0) None ;
   selling_price <~ validate_numeric selling_price "Prix de vente" (Some 0) None ;
   match quantity with
   | Some _ =>
       quantity <~ validate_integer quantity "Quantité" (Some 0) None ;
       Returned (name, purchase_price, selling_price, Some quantity)
   | None => Returned (name, purchase_price, selling_price, None)
   end)%outcome.

Definition validate_customer_data (name phone email : option string)
  : outcome (option string * option string * option string) :=
  (_ <~ validate_required name "Nom du client" ;
   phone <~ (if py_not phone then Returned phone else validate_phone phone) ;
   email <~ (if py_not email then Returned email else validate_email email) ;
   Returned (name, phone, email))%outcome.

(* ================================================================== *)
(** * Schema ([initialize_database]) *)
(* ================================================================== *)

Record customer : Type := {
  cust_id : positive;
  cust_name : string;                 (* TEXT NOT NULL *)
  cust_address : option string;
  cust_phone : option string;         (* TEXT UNIQUE *)
  cust_email : option string          (* TEXT UNIQUE *)
}.

Record product : Type := {
  prod_id : positive;
  prod_name : string;                 (* TEXT NOT NULL UNIQUE *)
  prod_description : option string;
  prod_category : option string;
  purchase_price : Q;                 (* CHECK(purchase_price >= 0) *)
  selling_price : Q;                  (* CHECK(selling_price >= 0) *)
  quantity_in_stock : Q               (* CHECK(quantity_in_stock >= 0) *)
}.

Record purchase : Type := {
  pur_id : positive;
  pur_product_id : positive;          (* REFERENCES Products(id) ON DELETE CASCADE *)
  pur_quantity : Q;                   (* CHECK(quantity > 0) *)
  purchase_date : string;
  cost_per_unit : Q;                  (* CHECK(cost_per_unit >= 0) *)
  supplier : option string
}.

Record sale : Type := {
  sale_id : positive;
  sale_customer_id : option positive; (* REFERENCES Customers(id) ON DELETE SET NULL *)
  sale_date : string;
  total_amount : Q                    (* CHECK(total_amount >= 0) *)
}.

Record sale_item : Type := {
  item_id : positive;
  item_sale_id : positive;            (* REFERENCES Sales(id) ON DELETE CASCADE *)
  item_product_id : positive;         (* REFERENCES Products(id) ON DELETE RESTRICT *)
  item_quantity : Q;                  (* CHECK(quantity > 0) *)
  item_price_at_sale : Q              (* CHECK(price_at_sale >= 0) *)
}.

(** The five tables and, for AUTOINCREMENT, the largest key each table
    has handed out ([sqlite_sequence]). *)
Record database : Type := {
  Customers : list customer;
  Products : list product;
  Purchases : list purchase;
  Sales : list sale;
  SaleItems : list sale_item;
  seq_Customers : N;
  seq_Products : N;
  seq_Purchases : N;
  seq_Sales : N;
  seq_SaleItems : N
}.

(** The database right after [initialize_database] on a fresh file. *)
Definition empty_database : database :=
  {| Customers := []; Products := []; Purchases := []; Sales := [];
     SaleItems := []; seq_Customers := 0; seq_Products := 0;
     seq_Purchases := 0; seq_Sales := 0; seq_SaleItems := 0 |}.

(** [WHERE id = ?] with the parameter [z]. *)
Definition key_is (z : Z) (k : positive) : bool := Z.pos k =? z.

Definition key_of (z : Z) : option positive :=
  match z with Z.pos k => Some k | _ => None end.

Definition has_customer (db : database) (k : positive) : bool :=
  existsb (fun c => Pos.eqb (cust_id c) k) (Customers db).

Definition has_product (db : database) (k : positive) : bool :=
  existsb (fun p => Pos.eqb (prod_id p) k) (Products db).

Definition has_sale (db : database) (k : positive) : bool :=
  existsb (fun s => Pos.eqb (sale_id s) k) (Sales db).

Definition find_product (db : database) (k : positive) : option product :=
  find (fun p => Pos.eqb (prod_id p) k) (Products db).

(** The stock of the product [k], when the product exists. *)
Definition stock_of (db : database) (k : positive) : option Q :=
  option_map quantity_in_stock (find_product db k).

Definition opt_eqb (a b : option string) : bool :=
  match a, b with
  | Some x, Some y => String.eqb x y
  | _, _ => false                     (* NULL is distinct from everything *)
  end.

Definition FOREIGN_KEY_failed : exn := IntegrityError "FOREIGN KEY constraint failed".
Definition CHECK_failed (what : string) : exn :=
  IntegrityError ("CHECK constraint failed: " ++ what).
Definition UNIQUE_failed (what : string) : exn :=
  IntegrityError ("UNIQUE constraint failed: " ++ what).
Definition NOT_NULL_failed (what : string) : exn :=
  IntegrityError ("NOT NULL constraint failed: " ++ what).

Definition check (b : bool) (e : exn) : outcome unit :=
  if b then Returned tt else Raised e.

(** [UPDATE t SET ... WHERE ...] on the rows of one table. *)
Definition set_where {R} (sel : R -> bool) (f : R -> R) (rows : list R) : list R :=
  map (fun r => if sel r then f r else r) rows.

(** [cursor.rowcount] of an UPDATE or a DELETE. *)
Definition rowcount {R} (sel : R -> bool) (rows : list R) : nat :=
  List.length (filter sel rows).

Definition with_Products (db : database) (ps : list product) : database :=
  {| Customers := Customers db; Products := ps; Purchases := Purchases db;
     Sales := Sales db; SaleItems := SaleItems db;
     seq_Customers := seq_Customers db; seq_Products := seq_Products db;
     seq_Purchases := seq_Purchases db; seq_Sales := seq_Sales db;
     seq_SaleItems := seq_SaleItems db |}.

Definition add_stock (delta : Q) (p : product) : product :=
  {| prod_id := prod_id p; prod_name := prod_name p;
     prod_description := prod_description p; prod_category := prod_category p;
     purchase_price := purchase_price p; selling_price := selling_price p;
     quantity_in_stock := quantity_in_stock p + delta |}.

(** [UPDATE Products SET quantity_in_stock = quantity_in_stock + delta
    WHERE id = k], the body of both triggers, under the constraint
    [CHECK(quantity_in_stock >= 0)] of the updated rows. *)
Definition adjust_stock (k : positive) (delta : Q) (db : database)
  : outcome database :=
  let sel := fun p => Pos.eqb (prod_id p) k in
  let rows := set_where sel (add_stock delta) (Products db) in
  (_ <~ check (forallb (fun p => negb (sel p) || Qle_bool 0 (quantity_in_stock p)) rows)
              (CHECK_failed "quantity_in_stock >= 0") ;
   Returned (with_Products db rows))%outcome.

(** Trigger [increase_stock_on_purchase], AFTER INSERT ON Purchases. *)
Definition increase_stock_on_purchase (NEW : purchase) (db : database)
  : outcome database :=
  adjust_stock (pur_product_id NEW) (pur_quantity NEW) db.

(** Trigger [decrease_stock_on_sale], AFTER INSERT ON SaleItems. *)
Definition decrease_stock_on_sale (NEW : sale_item) (db : database)
  : outcome database :=
  adjust_stock (item_product_id NEW) (- item_quantity NEW) db.

(* ================================================================== *)
(** * The SQL statements of [database.py]

    A statement maps the database to a result and a new database, or
    raises the [sqlite3.IntegrityError] of the first violated constraint;
    a statement that raises changes nothing.  Constraints of the new row
    come first, then the AFTER INSERT trigger, then the foreign keys. *)
(* ================================================================== *)

Local Open Scope outcome_scope.

Definition statement (A : Type) : Type := database -> outcome (A * database).

(** [INSERT INTO Customers (name, address, phone, email) VALUES (?, ?, ?, ?)] *)
Definition INSERT_Customers (name address phone email : option string)
  : statement positive := fun db =>
  match name with
  | None => Raised (NOT_NULL_failed "Customers.name")
  | Some n =>
      _ <~ check (negb (existsb (fun c => opt_eqb (cust_phone c) phone) (Customers db)))
                 (UNIQUE_failed "Customers.phone") ;
      _ <~ check (negb (existsb (fun c => opt_eqb (cust_email c) email) (Customers db)))
                 (UNIQUE_failed "Customers.email") ;
      let id := N.succ_pos (seq_Customers db) in
      let NEW := {| cust_id := id; cust_name := n; cust_address := address;
                    cust_phone := phone; cust_email := email |} in
      Returned (id,
        {| Customers := Customers db ++ [NEW]; Products := Products db;
           Purchases := Purchases db; Sales := Sales db;
           SaleItems := SaleItems db;
           seq_Customers := N.pos id; seq_Products := seq_Products db;
           seq_Purchases := seq_Purchases db; seq_Sales := seq_Sales db;
           seq_SaleItems := seq_SaleItems db |})
  end.

(** [UPDATE Customers SET name = ?, address = ?, phone = ?, email = ?
    WHERE id = ?] *)
Definition UPDATE_Customers (name address phone email : option string)
    (customer_id : option Z) : statement nat := fun db =>
  let sel := fun c =>
    match customer_id with Some z => key_is z (cust_id c) | None => false end in
  let others_have := fun (col : customer -> option string) (rows : list customer) =>
    existsb (fun r => sel r &&
      existsb (fun o => negb (Pos.eqb (cust_id o) (cust_id r)) && opt_eqb (col o) (col r))
              rows) rows in
  match rowcount sel (Customers db) with
  | O => Returned (O, db)
  | S _ as count =>
      match name with
      | None => Raised (NOT_NULL_failed "Customers.name")
      | Some n =>
          let rows := set_where sel (fun c =>
            {| cust_id := cust_id c; cust_name := n; cust_address := address;
               cust_phone := phone; cust_email := email |}) (Customers db) in
          _ <~ check (negb (others_have cust_phone rows)) (UNIQUE_failed "Customers.phone") ;
          _ <~ check (negb (others_have cust_email rows)) (UNIQUE_failed "Customers.email") ;
          Returned (count,
            {| Customers := rows; Products := Products db;
               Purchases := Purchases db; Sales := Sales db;
               SaleItems := SaleItems db;
               seq_Customers := seq_Customers db; seq_Products := seq_Products db;
               seq_Purchases := seq_Purchases db; seq_Sales := seq_Sales db;
               seq_SaleItems := seq_SaleItems db |})
      end
  end.

(** [DELETE FROM Customers WHERE id = ?]; the sales of a deleted customer
    keep their rows and lose the reference (ON DELETE SET NULL). *)
Definition DELETE_Customers (customer_id : option Z) : statement nat := fun db =>
  let sel := fun c =>
    match customer_id with Some z => key_is z (cust_id c) | None => false end in
  let gone := fun k => existsb (fun c => sel c && Pos.eqb (cust_id c) k) (Customers db) in
  Returned (rowcount sel (Customers db),
    {| Customers := filter (fun c => negb (sel c)) (Customers db);
       Products := Products db; Purchases := Purchases db;
       Sales := map (fun s =>
         match sale_customer_id s with
         | Some k =>
             if gone k
             then {| sale_id := sale_id s; sale_customer_id := None;
                     sale_date := sale_date s; total_amount := total_amount s |}
             else s
         | None => s
         end) (Sales db);
       SaleItems := SaleItems db;
       seq_Customers := seq_Customers db; seq_Products := seq_Products db;
       seq_Purchases := seq_Purchases db; seq_Sales := seq_Sales db;
       seq_SaleItems := seq_SaleItems db |}).

(** [INSERT INTO Products (name, description, category, purchase_price,
    selling_price, quantity_in_stock) VALUES (?, ?, ?, ?, ?, ?)] *)
Definition INSERT_Products (name description category : option string)
    (purchase_price selling_price : Q) (initial_stock : option Z)
  : statement positive := fun db =>
  match name, initial_stock with
  | None, _ => Raised (NOT_NULL_failed "Products.name")
  | _, None => Raised (NOT_NULL_failed "Products.quantity_in_stock")
  | Some n, Some stock =>
      let quantity_in_stock := inject_Z stock in
      _ <~ check (Qle_bool 0 purchase_price) (CHECK_failed "purchase_price >= 0") ;
      _ <~ check (Qle_bool 0 selling_price) (CHECK_failed "selling_price >= 0") ;
      _ <~ check (Qle_bool 0 quantity_in_stock) (CHECK_failed "quantity_in_stock >= 0") ;
      _ <~ check (negb (existsb (fun p => String.eqb (prod_name p) n) (Products db)))
                 (UNIQUE_failed "Products.name") ;
      let id := N.succ_pos (seq_Products db) in
      let NEW := {| prod_id := id; prod_name := n; prod_description := description;
                    prod_category := category; purchase_price := purchase_price;
                    selling_price := selling_price;
                    quantity_in_stock := quantity_in_stock |} in
      Returned (id,
        {| Customers := Customers db; Products := Products db ++ [NEW];
           Purchases := Purchases db; Sales := Sales db;
           SaleItems := SaleItems db;
           seq_Customers := seq_Customers db; seq_Products := N.pos id;
           seq_Purchases := seq_Purchases db; seq_Sales := seq_Sales db;
           seq_SaleItems := seq_SaleItems db |})
  end.

(** The assignment of [UPDATE Products SET name = ?, description = ?,
    category = ?, purchase_price = ?, selling_price = ?]: the key and the
    stock of the row are not assigned. *)
Definition set_product_details (n : string) (description category : option string)
    (purchase_price selling_price : Q) (p : product) : product :=
  {| prod_id := prod_id p; prod_name := n; prod_description := description;
     prod_category := category; purchase_price := purchase_price;
     selling_price := selling_price;
     quantity_in_stock := quantity_in_stock p |}.

(** [UPDATE Products SET name = ?, description = ?, category = ?,
    purchase_price = ?, selling_price = ? WHERE id = ?] *)
Definition UPDATE_Products (name description category : option string)
    (purchase_price selling_price : Q) (product_id : option Z)
  : statement nat := fun db =>
  let sel := fun p =>
    match product_id with Some z => key_is z (prod_id p) | None => false end in
  match rowcount sel (Products db) with
  | O => Returned (O, db)
  | S _ as count =>
      match name with
      | None => Raised (NOT_NULL_failed "Products.name")
      | Some n =>
          let rows := set_where sel
            (set_product_details n description category purchase_price selling_price)
            (Products db) in
          _ <~ check (Qle_bool 0 purchase_price) (CHECK_failed "purchase_price >= 0") ;
          _ <~ check (Qle_bool 0 selling_price) (CHECK_failed "selling_price >= 0") ;
          _ <~ check (negb (existsb (fun r => sel r &&
                        existsb (fun o => negb (Pos.eqb (prod_id o) (prod_id r))
                                          && String.eqb (prod_name o) (prod_name r))
                                rows) rows))
                     (UNIQUE_failed "Products.name") ;
          Returned (count, with_Products db rows)
      end
  end.

(** [DELETE FROM Products WHERE id = ?]: refused while a sale item
    references the product (ON DELETE RESTRICT); the purchases of the
    product go with it (ON DELETE CASCADE). *)
Definition DELETE_Products (product_id : option Z) : statement nat := fun db =>
  let sel := fun p =>
    match product_id with Some z => key_is z (prod_id p) | None => false end in
  let gone := fun k => existsb (fun p => sel p && Pos.eqb (prod_id p) k) (Products db) in
  _ <~ check (negb (existsb (fun i => gone (item_product_id i)) (SaleItems db)))
             FOREIGN_KEY_failed ;
  Returned (rowcount sel (Products db),
    {| Customers := Customers db;
       Products := filter (fun p => negb (sel p)) (Products db);
       Purchases := filter (fun u => negb (gone (pur_product_id u))) (Purchases db);
       Sales := Sales db; SaleItems := SaleItems db;
       seq_Customers := seq_Customers db; seq_Products := seq_Products db;
       seq_Purchases := seq_Purchases db; seq_Sales := seq_Sales db;
       seq_SaleItems := seq_SaleItems db |}).

(** [SELECT * FROM Products WHERE id = ?], [fetchone()]. *)
Definition SELECT_Products (product_id : option Z) : statement (option product) :=
  fun db =>
  Returned (find (fun p =>
              match product_id with Some z => key_is z (prod_id p) | None => false end)
              (Products db), db).

(** [INSERT INTO Purchases (product_id, quantity, purchase_date,
    cost_per_unit, supplier) VALUES (?, ?, ?, ?, ?)] *)
Definition INSERT_Purchases (product_id : option Z) (quantity : Q)
    (purchase_date : string) (cost_per_unit : Q) (supplier : option string)
  : statement positive := fun db =>
  match product_id with
  | None => Raised (NOT_NULL_failed "Purchases.product_id")
  | Some z =>
      _ <~ check (Qlt_bool 0 quantity) (CHECK_failed "quantity > 0") ;
      _ <~ check (Qle_bool 0 cost_per_unit) (CHECK_failed "cost_per_unit >= 0") ;
      match key_of z with
      | None => Raised FOREIGN_KEY_failed
      | Some k =>
          let id := N.succ_pos (seq_Purchases db) in
          let NEW := {| pur_id := id; pur_product_id := k; pur_quantity := quantity;
                        purchase_date := purchase_date;
                        cost_per_unit := cost_per_unit; supplier := supplier |} in
          db' <~ increase_stock_on_purchase NEW
            {| Customers := Customers db; Products := Products db;
               Purchases := Purchases db ++ [NEW]; Sales := Sales db;
               SaleItems := SaleItems db;
               seq_Customers := seq_Customers db; seq_Products := seq_Products db;
               seq_Purchases := N.pos id; seq_Sales := seq_Sales db;
               seq_SaleItems := seq_SaleItems db |} ;
          _ <~ check (has_product db' k) FOREIGN_KEY_failed ;
          Returned (id, db')
      end
  end.

(** [INSERT INTO Sales (customer_id, sale_date, total_amount) VALUES (?, ?, ?)] *)
Definition INSERT_Sales (customer_id : option Z) (sale_date : string)
    (total_amount : Q) : statement positive := fun db =>
  _ <~ check (Qle_bool 0 total_amount) (CHECK_failed "total_amount >= 0") ;
  customer <~ match customer_id with
              | None => Returned None
              | Some z =>
                  match key_of z with
                  | Some k => _ <~ check (has_customer db k) FOREIGN_KEY_failed ;
                              Returned (Some k)
                  | None => Raised FOREIGN_KEY_failed
                  end
              end ;
  let id := N.succ_pos (seq_Sales db) in
  let NEW := {| sale_id := id; sale_customer_id := customer;
                sale_date := sale_date; total_amount := total_amount |} in
  Returned (id,
    {| Customers := Customers db; Products := Products db;
       Purchases := Purchases db; Sales := Sales db ++ [NEW];
       SaleItems := SaleItems db;
       seq_Customers := seq_Customers db; seq_Products := seq_Products db;
       seq_Purchases := seq_Purchases db; seq_Sales := N.pos id;
       seq_SaleItems := seq_SaleItems db |}).

(** [INSERT INTO SaleItems (sale_id, product_id, quantity, price_at_sale)
    VALUES (?, ?, ?, ?)] *)
Definition INSERT_SaleItems (sale : positive) (product_id : option Z)
    (quantity price_at_sale : option Q) : statement positive := fun db =>
  match product_id, quantity, price_at_sale with
  | Some z, Some q, Some price =>
      _ <~ check (Qlt_bool 0 q) (CHECK_failed "quantity > 0") ;
      _ <~ check (Qle_bool 0 price) (CHECK_failed "price_at_sale >= 0") ;
      match key_of z with
      | None => Raised FOREIGN_KEY_failed
      | Some k =>
          let id := N.succ_pos (seq_SaleItems db) in
          let NEW := {| item_id := id; item_sale_id := sale; item_product_id := k;
                        item_quantity := q; item_price_at_sale := price |} in
          db' <~ decrease_stock_on_sale NEW
            {| Customers := Customers db; Products := Products db;
               Purchases := Purchases db; Sales := Sales db;
               SaleItems := SaleItems db ++ [NEW];
               seq_Customers := seq_Customers db; seq_Products := seq_Products db;
               seq_Purchases := seq_Purchases db; seq_Sales := seq_Sales db;
               seq_SaleItems := N.pos id |} ;
          _ <~ check (has_sale db' sale) FOREIGN_KEY_failed ;
          _ <~ check (has_product db' k) FOREIGN_KEY_failed ;
          Returned (id, db')
      end
  | None, _, _ => Raised (NOT_NULL_failed "SaleItems.product_id")
  | _, None, _ => Raised (NOT_NULL_failed "SaleItems.quantity")
  | _, _, None => Raised (NOT_NULL_failed "SaleItems.price_at_sale")
  end.

(* ================================================================== *)
(** * Connections and transactions *)
(* ================================================================== *)

(** The state a data-access call runs in.
    - [disk]: the committed content of the database file; [None] is a
      file that holds no schema (absent, or created empty by a bare
      [sqlite3.connect]).
    - [work]: what the connection in use sees, uncommitted writes
      included.
    - [open_conns]: connections opened and not closed so far. *)
Record world : Type := World {
  disk : option database;
  work : option database;
  open_conns : nat
}.

(** A computation of the data-access layer. *)
Definition M (A : Type) : Type := world -> outcome A * world.

Definition ret {A} (a : A) : M A := fun w => (Returned a, w).

Definition raise {A} (e : exn) : M A := fun w => (Raised e, w).

Definition bind {A B} (m : M A) (k : A -> M B) : M B := fun w =>
  match m w with
  | (Returned a, w') => k a w'
  | (Raised e, w') => (Raised e, w')
  end.

(** A pure step, such as a validator. *)
Definition lift {A} (o : outcome A) : M A := fun w => (o, w).

Declare Scope db_scope.
Delimit Scope db_scope with db.
Notation "x <- c ;; k" := (bind c (fun x => k))
  (at level 61, c at next level, right associativity) : db_scope.
Notation "' pat <- c ;; k" := (bind c (fun x => match x with pat => k end))
  (at level 61, pat pattern, c at next level, right associativity) : db_scope.
Notation "c ;; k" := (bind c (fun _ => k))
  (at level 61, right associativity) : db_scope.

Local Open Scope db_scope.

(** [try: body finally: final] *)
Definition try_finally {A} (body : M A) (final : M unit) : M A := fun w =>
  let (r, w1) := body w in
  match final w1 with
  | (Returned _, w2) => (r, w2)
  | (Raised e, w2) => (Raised e, w2)
  end.

(** [try: body except Exception as e: handler(e)]; a handler that does
    not apply to [e] raises it again. *)
Definition try_except {A} (body : M A) (handler : exn -> M A) : M A := fun w =>
  match body w with
  | (Returned a, w') => (Returned a, w')
  | (Raised e, w') => handler e w'
  end.

(** [for x in xs: body(x)] *)
Fixpoint for_each {X} (xs : list X) (body : X -> M unit) : M unit :=
  match xs with
  | [] => ret tt
  | x :: rest => body x ;; for_each rest body
  end.

(** [get_db_connection()]: a fresh connection sees the committed file.
    Opening the local file is taken to succeed. *)
Definition get_db_connection : M unit := fun w =>
  (Returned tt, {| disk := disk w; work := disk w; open_conns := S (open_conns w) |}).

(** [conn.close()]: uncommitted writes are dropped with the connection. *)
Definition conn_close : M unit := fun w =>
  (Returned tt, {| disk := disk w; work := work w; open_conns := pred (open_conns w) |}).

(** [conn.commit()] *)
Definition conn_commit : M unit := fun w =>
  (Returned tt, {| disk := work w; work := work w; open_conns := open_conns w |}).

(** [conn.rollback()] *)
Definition conn_rollback : M unit := fun w =>
  (Returned tt, {| disk := disk w; work := disk w; open_conns := open_conns w |}).

(** [conn.execute("BEGIN TRANSACTION;")]: the writes that follow stay
    uncommitted, as all writes of a connection do until [commit]. *)
Definition begin_transaction : M unit := ret tt.

(** [cursor.execute(sql, params)] on the connection in use.  A file
    without the schema has none of the tables. *)
Definition execute {A} (table : string) (stmt : statement A) : M A := fun w =>
  match work w with
  | None => (Raised (OperationalError ("no such table: " ++ table)), w)
  | Some db =>
      match stmt db with
      | Returned (a, db') =>
          (Returned a, {| disk := disk w; work := Some db'; open_conns := open_conns w |})
      | Raised e => (Raised e, w)
      end
  end.

(* ------------------------------------------------------------------ *)
(** ** [handle_db_error] *)

Definition msg_duplicate : string :=
  "Cette entrée existe déjà dans la base de données.".
Definition msg_referenced : string :=
  "Impossible de supprimer cet élément car il est référencé ailleurs.".
Definition msg_constraint : string :=
  "Les valeurs entrées ne respectent pas les contraintes de la base de données.".

(** The decorator of every data-access function. *)
Definition handle_db_error {A} (func : M A) : M A :=
  try_except func (fun e =>
    match e with
    | IntegrityError msg =>
        if contains "UNIQUE constraint failed" msg
        then raise (DatabaseError msg_duplicate)
        else if contains "FOREIGN KEY constraint failed" msg
        then raise (DatabaseError msg_referenced)
        else if contains "CHECK constraint failed" msg
        then raise (DatabaseError msg_constraint)
        else raise (DatabaseError ("Erreur d'intégrité de la base de données: " ++ msg))
    | OperationalError msg =>
        raise (DatabaseError ("Erreur de base de données: " ++ msg))
    | _ => raise e
    end).

(* ================================================================== *)
(** * The data-access functions ([database/database.py]) *)
(* ================================================================== *)

(** [initialize_database()]: every statement is CREATE ... IF NOT EXISTS. *)
Definition CREATE_IF_NOT_EXISTS : M unit := fun w =>
  (Returned tt,
   {| disk := disk w;
      work := Some match work w with Some db => db | None => empty_database end;
      open_conns := open_conns w |}).

Definition initialize_database : M unit :=
  get_db_connection ;;
  try_finally
    (try_except
       (CREATE_IF_NOT_EXISTS ;;
        conn_commit)
       (fun e =>
          if is_sqlite_error e
          then conn_rollback ;;
               raise (DatabaseError ("Database initialization failed: " ++ exn_str e))
          else raise e))
    conn_close.

Definition add_customer (name phone email address : option string) : M positive :=
  handle_db_error (
    '(name, phone, email) <- lift (validate_customer_data name phone email) ;;
    get_db_connection ;;
    try_finally
      (customer_id <- execute "Customers" (INSERT_Customers name address phone email) ;;
       conn_commit ;;
       ret customer_id)
      conn_close).

(** [str(x)] of an identifier inside an f-string. *)
Definition str_of_id (x : option Z) : string :=
  match x with Some z => str_of_Z z | None => "None" end.

Definition update_customer (customer_id : option Z)
    (name phone email address : option string) : M bool :=
  handle_db_error (
    lift (validate_required customer_id "Customer ID") ;;
    '(name, phone, email) <- lift (validate_customer_data name phone email) ;;
    get_db_connection ;;
    try_finally
      (count <- execute "Customers"
                  (UPDATE_Customers name address phone email customer_id) ;;
       conn_commit ;;
       if (count =? 0)%nat
       then raise (DatabaseError
              ("Customer with ID " ++ str_of_id customer_id ++ " not found for update."))
       else ret true)
      conn_close).

Definition delete_customer (customer_id : option Z) : M bool :=
  handle_db_error (
    lift (validate_required customer_id "Customer ID") ;;
    get_db_connection ;;
    try_finally
      (count <- execute "Customers" (DELETE_Customers customer_id) ;;
       conn_commit ;;
       if (count =? 0)%nat then ret false else ret true)
      conn_close).

Definition add_product (name description category : option string)
    (purchase_price selling_price initial_stock : option Q) : M positive :=
  handle_db_error (
    '(name, purchase_price, selling_price, initial_stock) <-
       lift (validate_product_data name purchase_price selling_price initial_stock) ;;
    lift (validate_required category "Product category") ;;
    get_db_connection ;;
    try_finally
      (product_id <- execute "Products"
                       (INSERT_Products name description category
                          purchase_price selling_price initial_stock) ;;
       conn_commit ;;
       ret product_id)
      conn_close).

Definition get_product_by_id (product_id : option Z) : M (option product) :=
  handle_db_error (
    lift (validate_required product_id "Product ID") ;;
    get_db_connection ;;
    try_finally
      (execute "Products" (SELECT_Products product_id))
      conn_close).

Definition update_product (product_id : option Z)
    (name description category : option string)
    (purchase_price selling_price : option Q) : M bool :=
  handle_db_error (
    lift (validate_required product_id "Product ID") ;;
    '(name, purchase_price, selling_price, _) <-
       lift (validate_product_data name purchase_price selling_price None) ;;
    lift (validate_required category "Product category") ;;
    get_db_connection ;;
    try_finally
      (count <- execute "Products"
                  (UPDATE_Products name description category
                     purchase_price selling_price product_id) ;;
       conn_commit ;;
       if (count =? 0)%nat
       then raise (DatabaseError
              ("Product with ID " ++ str_of_id product_id ++ " not found for update."))
       else ret true)
      conn_close).

Definition delete_product (product_id : option Z) : M bool :=
  handle_db_error (
    lift (validate_required product_id "Product ID") ;;
    get_db_connection ;;
    try_finally
      (count <- execute "Products" (DELETE_Products product_id) ;;
       conn_commit ;;
       if (count =? 0)%nat then ret false else ret true)
      conn_close).

(** [now] is the reading of the clock, [datetime.datetime.now()]
    formatted, that stands in for an omitted date. *)
Definition add_purchase (product_id : option Z) (quantity cost_per_unit : option Q)
    (supplier purchase_date_str : option string) (now : string) : M positive :=
  handle_db_error (
    lift (validate_required product_id "Product ID for purchase") ;;
    quantity <- lift (validate_numeric quantity "Purchase quantity" (Some 1) None) ;;
    cost_per_unit <- lift (validate_numeric cost_per_unit "Cost per unit" (Some 0) None) ;;
    let purchase_date_str :=
      match purchase_date_str with None => now | Some d => d end in
    get_db_connection ;;
    try_finally
      (purchase_id <- execute "Purchases"
                        (INSERT_Purchases product_id quantity purchase_date_str
                           cost_per_unit supplier) ;;
       conn_commit ;;
       ret purchase_id)
      conn_close).

(** A line of a sale as the caller passes it: the dict
    [{product_id, quantity, price_at_sale}]; [None] is an absent key. *)
Record sale_line : Type := {
  product_id : option Z;
  quantity : option Q;
  price_at_sale : option Q
}.

(** The first loop of [add_sale]: every line is validated and the total
    is accumulated from the validated quantity and price of each line. *)
Fixpoint validate_lines (sale_items : list sale_line) (total_amount : Q)
  : outcome Q :=
  match sale_items with
  | [] => Returned total_amount
  | item :: rest =>
      (_ <~ validate_required (product_id item) "Product ID in sale item" ;
       item_qty <~ validate_numeric (quantity item) "Quantity in sale item" (Some 1) None ;
       item_price <~ validate_numeric (price_at_sale item) "Price in sale item" (Some 0) None ;
       validate_lines rest (total_amount + item_qty * item_price)%Q)%outcome
  end.

Definition add_sale (sale_items : list sale_line) (customer_id : option Z)
    (sale_date_str : option string) (now : string) : M positive :=
  handle_db_error (
    if py_not sale_items
    then raise (ValidationError "Cannot record a sale with no items.")
    else
      let sale_date_str := match sale_date_str with None => now | Some d => d end in
      total_amount <- lift (validate_lines sale_items 0%Q) ;;
      lift (validate_numeric (Some total_amount) "Total sale amount" (Some 0) None) ;;
      get_db_connection ;;
      try_finally
        (try_except
           (begin_transaction ;;
            sale_id <- execute "Sales" (INSERT_Sales customer_id sale_date_str total_amount) ;;
            (if py_not (Z.pos sale_id)
             then raise (DatabaseError "Failed to get sale_id after Sales insert.")
             else ret tt) ;;
            for_each sale_items (fun item =>
              execute "SaleItems"
                (INSERT_SaleItems sale_id (product_id item) (quantity item)
                   (price_at_sale item)) ;;
              ret tt) ;;
            conn_commit ;;
            ret sale_id)
           (fun e =>
              conn_rollback ;;
              match e with
              | ValidationError _ | DatabaseError _ => raise e
              | _ => raise (DatabaseError ("Sale recording failed: " ++ exn_str e))
              end))
        conn_close).

(** [get_product_details_for_sale]: the dict [{name, price, stock}]. *)
Definition get_product_details_for_sale (product_id : option Z)
  : M (option (string * Q * Q)) :=
  handle_db_error (
    try_except
      (get_db_connection ;;
       result <- execute "Products" (SELECT_Products product_id) ;;
       conn_close ;;
       match result with
       | Some p => ret (Some (prod_name p, selling_price p, quantity_in_stock p))
       | None => ret None
       end)
      (fun e => if is_sqlite_error e then ret None else raise e)).

(** [os.remove(DATABASE_PATH)]; the file exists at this point, since
    [sqlite3.connect] has just created it if it was absent. *)
Definition os_remove_database : M unit := fun w =>
  (Returned tt, {| disk := None; work := work w; open_conns := open_conns w |}).

Definition dangerously_delete_all_data : M bool :=
  handle_db_error (
    get_db_connection ;;
    try_except
      (conn_close ;;
       os_remove_database ;;
       initialize_database ;;
       ret true)
      (fun e => raise (DatabaseError ("Failed to delete all data: " ++ exn_str e)))).

(* ================================================================== *)
(** * Notions used to state the properties *)
(* ================================================================== *)

(** The shape of an accepted phone number: an optional leading [+]
    followed by 8 to 15 digits. *)
Definition phone_shape (s : string) : Prop :=
  exists digits : string,
    (s = digits \/ s = String "+" digits) /\
    str_forall is_digit digits = true /\
    (8 <= String.length digits <= 15)%nat.

(** A line that meets the preconditions of [add_sale]: a product
    reference, a quantity of at least 1, a price of at least 0. *)
Definition valid_line (item : sale_line) : Prop :=
  exists (z : Z) (q price : Q),
    product_id item = Some z /\ z <> 0 /\
    quantity item = Some q /\ (1 <= q)%Q /\
    price_at_sale item = Some price /\ (0 <= price)%Q.

(** [quantity * price_at_sale] of a line. *)
Definition line_amount (item : sale_line) : Q :=
  match quantity item, price_at_sale item with
  | Some q, Some price => q * price
  | _, _ => 0
  end.

(** The sum of the line amounts of a sale. *)
Definition lines_total (sale_items : list sale_line) : Q :=
  fold_right (fun item acc => line_amount item + acc)%Q 0%Q sale_items.

(** Does the line refer to the product with key [k]? *)
Definition line_of (k : positive) (item : sale_line) : bool :=
  match product_id item with
  | Some z => key_is z k
  | None => false
  end.

(** The quantity of the product [k] summed across the lines of a sale. *)
Definition quantity_sold (k : positive) (sale_items : list sale_line) : Q :=
  fold_right (fun item acc =>
    if line_of k item
    then (match quantity item with Some q => q | None => 0 end + acc)%Q
    else acc) 0%Q sale_items.

(** The caller's reference to a customer as the key stored in the row. *)
Definition customer_key (customer_id : option Z) : option positive :=
  match customer_id with
  | Some z => key_of z
  | None => None
  end.

(** The second loop of [add_sale] as a function of the database: the
    lines are inserted in order until one fails. *)
Fixpoint insert_lines (sale : positive) (sale_items : list sale_line)
    (db : database) : outcome database :=
  match sale_items with
  | [] => Returned db
  | item :: rest =>
      r <~ INSERT_SaleItems sale (product_id item) (quantity item)
             (price_at_sale item) db ;
      insert_lines sale rest (snd r)
  end.

(** The statements of the transaction of [add_sale], in order. *)
Definition sale_transaction (customer_id : option Z) (sale_date : string)
    (total_amount : Q) (sale_items : list sale_line) (db : database)
  : outcome (positive * database) :=
  r <~ INSERT_Sales customer_id sale_date total_amount db ;
  db' <~ insert_lines (fst r) sale_items (snd r) ;
  Returned (fst r, db').

(** A world whose file holds [db] and in which [n] connections are open. *)
Definition world_of (db : database) (n : nat) : world :=
  {| disk := Some db; work := Some db; open_conns := n |}.

(** A product is referenced by a sale item. *)
Definition referenced (db : database) (k : positive) : Prop :=
  exists i, In i (SaleItems db) /\ item_product_id i = k.

(** No row of the table has the key [id]. *)
Definition no_customer (db : database) (id : option Z) : Prop :=
  forall c, In c (Customers db) ->
    match id with Some z => key_is z (cust_id c) | None => false end = false.

Definition no_product (db : database) (id : option Z) : Prop :=
  forall p, In p (Products db) ->
    match id with Some z => key_is z (prod_id p) | None => false end = false.

(** Two product rows that differ at most in name, description, category,
    purchase price and selling price. *)
Definition same_key_and_stock (p p' : product) : Prop :=
  prod_id p' = prod_id p /\ quantity_in_stock p' = quantity_in_stock p.

(* ------------------------------------------------------------------ *)
(** ** A small shop, used to run the functions on concrete inputs *)

(** One product with 15 units left after a purchase of 20 units and a
    sale of 5 units. *)
Definition widget : product :=
  {| prod_id := 1; prod_name := "Widget"; prod_description := None;
     prod_category := Some "Tools"; purchase_price := 5; selling_price := 10;
     quantity_in_stock := 15 |}.

Definition shop : database :=
  {| Customers := [];
     Products := [widget];
     Purchases := [{| pur_id := 1; pur_product_id := 1; pur_quantity := 20;
                      purchase_date := "2023-01-10 09:00:00"; cost_per_unit := 5;
                      supplier := None |}];
     Sales := [{| sale_id := 1; sale_customer_id := None;
                  sale_date := "2023-01-15 10:00:00"; total_amount := 50 |}];
     SaleItems := [{| item_id := 1; item_sale_id := 1; item_product_id := 1;
                      item_quantity := 5; item_price_at_sale := 10 |}];
     seq_Customers := 0; seq_Products := 1; seq_Purchases := 1;
     seq_Sales := 1; seq_SaleItems := 1 |}.

(** The line [{product_id: p, quantity: q, price_at_sale: price}]. *)
Definition line (p : Z) (q price : Q) : sale_line :=
  {| product_id := Some p; quantity := Some q; price_at_sale := Some price |}.

(** A file that was created but never initialised. *)
Definition bare_file : world := {| disk := None; work := None; open_conns := 0 |}.

(** A computation that leaves as many connections open as it found. *)
Definition releases {A} (m : M A) : Prop :=
  forall w, open_conns (snd (m w)) = open_conns w.

(** No character of the string is a newline. *)
Definition no_newline (s : string) : bool :=
  str_forall (fun c => negb (is_char "010" c)) s.

(* ------------------------------------------------------------------ *)
(** ** Notions for the properties of the calls as a whole *)

(** A property of the committed file, when the file holds the schema. *)
Definition file_satisfies (P : database -> Prop) (w : world) : Prop :=
  forall db, disk w = Some db -> P db.

(** A computation that keeps a property of the committed file. *)
Definition preserves {A} (P : database -> Prop) (m : M A) : Prop :=
  forall w, file_satisfies P w -> file_satisfies P (snd (m w)).

(** A computation whose exceptions all belong to a given class. *)
Definition raises_only {A} (class : exn -> bool) (m : M A) : Prop :=
  forall w e, fst (m w) = Raised e -> class e = true.

(** The two failure kinds of the application. *)
Definition is_application_error (e : exn) : bool :=
  is_validation_failure e || is_persistence_failure e.

(** Everything but [KeyError]: what the decorator knows how to pass on
    as one of the two failure kinds. *)
Definition is_handled (e : exn) : bool :=
  is_application_error e || is_sqlite_error e.

(** [CHECK(quantity_in_stock >= 0)] on every product row. *)
Definition stock_ok (db : database) : Prop :=
  Forall (fun p => (0 <= quantity_in_stock p)%Q) (Products db).

(** The keys of a table are pairwise distinct and none exceeds the
    AUTOINCREMENT counter of the table. *)
Definition table_keys_ok {R} (key : R -> positive) (rows : list R) (seq : N) : Prop :=
  NoDup (map key rows) /\ Forall (fun r => (N.pos (key r) <= seq)%N) rows.

Definition keys_ok (db : database) : Prop :=
  table_keys_ok cust_id (Customers db) (seq_Customers db) /\
  table_keys_ok prod_id (Products db) (seq_Products db) /\
  table_keys_ok pur_id (Purchases db) (seq_Purchases db) /\
  table_keys_ok sale_id (Sales db) (seq_Sales db) /\
  table_keys_ok item_id (SaleItems db) (seq_SaleItems db).

(** Every foreign key points to an existing row. *)
Definition refs_ok (db : database) : Prop :=
  Forall (fun u => has_product db (pur_product_id u) = true) (Purchases db) /\
  Forall (fun i => has_sale db (item_sale_id i) = true /\
                   has_product db (item_product_id i) = true) (SaleItems db) /\
  Forall (fun s => match sale_customer_id s with
                   | Some k => has_customer db k = true
                   | None => True
                   end) (Sales db).

(** A computation whose validation failures come before anything else:
    when it raises a [ValidationError], the world is what it was. *)
Definition validates_first {A} (m : M A) : Prop :=
  forall w e w', m w = (Raised e, w') -> is_validation_failure e = true -> w' = w.

(** Everything but [ValidationError]. *)
Definition is_not_validation (e : exn) : bool := negb (is_validation_failure e).

(** The row of [SaleItems] that stores a line of the sale [sale]. *)
Definition stores_line (sale : positive) (item : sale_line) (row : sale_item) : Prop :=
  item_sale_id row = sale /\
  product_id item = Some (Z.pos (item_product_id row)) /\
  quantity item = Some (item_quantity row) /\
  price_at_sale item = Some (item_price_at_sale row).


(** A computation that leaves the committed file as it was whenever it
    raises. *)
Definition fails_clean {A} (m : M A) : Prop :=
  forall w e w', m w = (Raised e, w') -> disk w' = disk w.

(** Every line names a product of the file, and the file holds at least
    what the lines together sell of it. *)
Definition in_stock (sale_items : list sale_line) (db : database) : Prop :=
  Forall (fun item =>
    exists (k : positive) (s : Q),
      product_id item = Some (Z.pos k) /\ stock_of db k = Some s /\
      (quantity_sold k sale_items <= s)%Q) sale_items.

(** The sale names no customer, or one of the file. *)
Definition known_customer (customer_id : option Z) (db : database) : Prop :=
  match customer_id with
  | None => True
  | Some z => exists k : positive, z = Z.pos k /\ has_customer db k = true
  end.

(** The part of a product row that [get_product_details_for_sale]
    returns: name, selling price, stock. *)
Definition details_of (p : product) : string * Q * Q :=
  (prod_name p, selling_price p, quantity_in_stock p).

(** A value of a UNIQUE column that a row of the table already holds
    (a NULL is never taken). *)
Definition taken {R} (col : R -> option string) (value : option string)
    (rows : list R) : Prop :=
  exists (r : R) (s : string), In r rows /\ col r = Some s /\ value = Some s.

(** The small shop with one customer on file. *)
Definition alice : customer :=
  {| cust_id := 1; cust_name := "Alice"; cust_address := None;
     cust_phone := Some "0555123456"; cust_email := Some "alice@example.com" |}.

Definition shop_with_customer : database :=
  {| Customers := [alice]; Products := Products shop; Purchases := Purchases shop;
     Sales := Sales shop; SaleItems := SaleItems shop;
     seq_Customers := 1; seq_Products := 1; seq_Purchases := 1;
     seq_Sales := 1; seq_SaleItems := 1 |}.

(** Is the sale one of the customer [k]? *)
Definition sold_to (k : positive) (s : sale) : bool :=
  match sale_customer_id s with
  | Some j => Pos.eqb j k
  | None => false
  end.

(** The sale [s'] is the sale [s] without its customer when this is the
    customer [k], and the sale [s] itself otherwise. *)
Definition detached_from (k : positive) (s s' : sale) : Prop :=
  sale_id s' = sale_id s /\ sale_date s' = sale_date s /\
  total_amount s' = total_amount s /\
  sale_customer_id s' = if sold_to k s then None else sale_customer_id s.

(** The small shop with a second product, bought once and never sold. *)
Definition gadget : product :=
  {| prod_id := 2; prod_name := "Gadget"; prod_description := None;
     prod_category := Some "Tools"; purchase_price := 3; selling_price := 7;
     quantity_in_stock := 4 |}.

Definition shop_with_gadget : database :=
  {| Customers := []; Products := [widget; gadget];
     Purchases := (Purchases shop ++
                   [{| pur_id := 2; pur_product_id := 2; pur_quantity := 4;
                       purchase_date := "2023-01-20 09:00:00"; cost_per_unit := 3;
                       supplier := None |}])%list;
     Sales := Sales shop; SaleItems := SaleItems shop;
     seq_Customers := 0; seq_Products := 2; seq_Purchases := 2;
     seq_Sales := 1; seq_SaleItems := 1 |}.

(** The bounds that the numeric validators take: [None] is no bound. *)
Definition at_least (min_value : option Z) (x : Q) : Prop :=
  match min_value with Some m => (inject_Z m <= x)%Q | None => True end.

Definition at_most (max_value : option Z) (x : Q) : Prop :=
  match max_value with Some m => (x <= inject_Z m)%Q | None => True end.

(** The shape of an accepted email address: a local part, [@], a
    domain, a dot and a top-level domain of two letters or more; a
    newline may end the string. *)
Definition email_shape (s : string) : Prop :=
  exists local domain tld ending : string,
    s = (local ++ "@" ++ domain ++ "." ++ tld ++ ending)%string /\
    (ending = EmptyString \/ ending = String "010" EmptyString) /\
    str_forall is_email_local local = true /\ (1 <= String.length local)%nat /\
    str_forall is_email_domain domain = true /\ (1 <= String.length domain)%nat /\
    str_forall is_alpha tld = true /\ (2 <= String.length tld)%nat.

(** A text with a character that is not whitespace. *)
Definition visible (text : option string) : Prop :=
  exists s, text = Some s /\ str_forall is_space s = false.

(** An optional field: absent, blank, or of the shape [shape]. *)
Definition absent_or (shape : string -> Prop) (text : option string) : Prop :=
  match text with
  | None => True
  | Some s => str_forall is_space s = true \/ shape s
  end.

(** A UNIQUE column: rows that agree on a value of the column that is
    not NULL are the same row (they have the same key). *)
Definition unique_column {R} (key : R -> positive) (col : R -> option string)
    (rows : list R) : Prop :=
  forall o r, In o rows -> In r rows -> opt_eqb (col o) (col r) = true ->
              key o = key r.

(** The UNIQUE constraints of the schema: the phone number and the email
    address of a customer, the name of a product. *)
Definition unique_ok (db : database) : Prop :=
  unique_column cust_id cust_phone (Customers db) /\
  unique_column cust_id cust_email (Customers db) /\
  unique_column prod_id (fun p => Some (prod_name p)) (Products db).

(** The customer row [c'] is the row [c] with the four fields that
    [update_customer] writes when [c] has the key [z], and [c] itself
    otherwise. *)
Definition customer_updated (z : Z) (n : string) (address phone email : option string)
    (c c' : customer) : Prop :=
  if key_is z (cust_id c)
  then c' = {| cust_id := cust_id c; cust_name := n; cust_address := address;
               cust_phone := phone; cust_email := email |}
  else c' = c.

(** What the sale items of one sale add up to. *)
Definition items_total (sale : positive) (items : list sale_item) : Q :=
  fold_right (fun i acc =>
    if Pos.eqb (item_sale_id i) sale
    then (item_quantity i * item_price_at_sale i + acc)%Q
    else acc) 0%Q items.

(** Every sale is worth what its items add up to. *)
Definition totals_ok (db : database) : Prop :=
  Forall (fun s => (total_amount s == items_total (sale_id s) (SaleItems db))%Q)
         (Sales db).

(** A consistent file: sound keys, valid references, and sales whose
    totals agree with their items. *)
Definition consistent (db : database) : Prop :=
  keys_ok db /\ refs_ok db /\ totals_ok db.
(* ================================================================== *)
(** * Properties of the validation layer *)
(* ================================================================== *)


Lemma lstrip_empty (s : string) :
  lstrip s = "" <-> str_forall is_space s = true.
Proof.
  induction s as [|c s IH]; simpl.
  - split; reflexivity.
  - destruct (is_space c); simpl.
    + exact IH.
    + split; discriminate.
Qed.

Lemma lstrip_head (s : string) :
  lstrip s = "" \/ exists c rest, lstrip s = String c rest /\ is_space c = false.
Proof.
  induction s as [|c s IH]; simpl.
  - now left.
  - destruct (is_space c) eqn:E.
    + exact IH.
    + right. now exists c, s.
Qed.

Lemma rstrip_head (c : ascii) (s : string) :
  is_space c = false -> rstrip (String c s) <> "".
Proof.
  intros E. simpl. destruct (rstrip s).
  - rewrite E. discriminate.
  - discriminate.
Qed.

(** [s.strip() == ""] holds exactly for the strings of whitespace. *)
Lemma strip_blank (s : string) :
  String.eqb (strip s) "" = str_forall is_space s.
Proof.
  unfold strip.
  destruct (lstrip_head s) as [E | (c & rest & E & Hc)].
  - rewrite E. simpl. symmetry. now apply lstrip_empty.
  - rewrite E.
    destruct (String.eqb_spec (rstrip (String c rest)) "") as [R | R].
    + now apply rstrip_head in R.
    + destruct (str_forall is_space s) eqn:A; [|reflexivity].
      apply lstrip_empty in A. congruence.
Qed.

Lemma py_not_blank (s : string) :
  py_not s || String.eqb (strip s) "" = str_forall is_space s.
Proof.
  rewrite strip_blank. destruct s; reflexivity.
Qed.

Lemma separator_newline (c : ascii) :
  is_separator c = false -> is_char "010" c = false.
Proof.
  intros H. unfold is_char. destruct (Ascii.eqb_spec "010"%char c) as [<- | ?].
  - discriminate H.
  - reflexivity.
Qed.

Lemma clean_phone_no_separator (s : string) :
  str_forall (fun c => negb (is_separator c)) (clean_phone s) = true.
Proof.
  unfold clean_phone. induction s as [|c s IH]; simpl; [reflexivity|].
  destruct (is_separator c) eqn:E; simpl; [exact IH|].
  now rewrite E, IH.
Qed.


Lemma no_separator_no_newline (s : string) :
  str_forall (fun c => negb (is_separator c)) s = true -> no_newline s = true.
Proof.
  unfold no_newline. induction s as [|c s IH]; cbn [str_forall]; [reflexivity|].
  intros H. apply andb_true_iff in H as [Hc Hs].
  apply negb_true_iff in Hc. rewrite (separator_newline c Hc). cbn [negb andb]. auto.
Qed.

Lemma at_end_no_newline (c : ascii) (s : string) :
  no_newline (String c s) = true -> at_end (String c s) = false.
Proof.
  unfold no_newline. cbn [str_forall at_end]. intros H.
  apply andb_true_iff in H as [Hc _].
  apply negb_true_iff in Hc. rewrite Hc. now destruct s.
Qed.

(** [[0-9]{8,15}$] after [n] digits, on a string without newline. *)
Lemma rep_digits (n : nat) (s : string) :
  (n <= 15)%nat -> no_newline s = true ->
  rep (Atom is_digit 8 (Some 15%nat)) at_end n s = true <->
  str_forall is_digit s = true /\ (8 <= n + String.length s <= 15)%nat.
Proof.
  revert n. induction s as [|c s IH]; intros n Hn Hs.
  - cbn [rep lo hi cls str_forall String.length at_end].
    rewrite orb_false_r, andb_true_r, Nat.leb_le. split.
    + intros H. split; [reflexivity | lia].
    + intros [_ H]. lia.
  - cbn [rep lo hi cls below].
    rewrite (at_end_no_newline c s Hs), andb_false_r. cbn [orb str_forall String.length].
    assert (Hs' : no_newline s = true).
    { unfold no_newline in *. cbn [str_forall] in Hs. now apply andb_true_iff in Hs. }
    rewrite !andb_true_iff, Nat.ltb_lt. split.
    + intros [[Hlt Hc] Hr]. apply IH in Hr; [|lia|assumption].
      destruct Hr as [Hd Hl]. split; [now rewrite Hc, Hd | lia].
    + intros [[Hc Hd] Hl]. split; [split; [lia|assumption]|].
      apply IH; [lia | assumption | split; [assumption | lia]].
Qed.

Lemma re_match_cons (a : atom) (p : pattern) (s : string) :
  re_match (a :: p) s = rep a (re_match p) 0 s.
Proof. reflexivity. Qed.

(** [c?] followed by [k]. *)
Lemma rep_optional (d : ascii) (k : string -> bool) (s : string) :
  rep (Atom (is_char d) 0 (Some 1%nat)) k 0 s =
  k s || match s with
         | String c rest => is_char d c && k rest
         | EmptyString => false
         end.
Proof.
  destruct s as [|c [|c' s]]; cbn [rep lo hi cls below Nat.leb Nat.ltb andb orb];
    rewrite ?andb_false_r, ?orb_false_r; reflexivity.
Qed.

Lemma re_match_digits (s : string) :
  no_newline s = true ->
  re_match [Atom is_digit 8 (Some 15%nat)] s = true <->
  str_forall is_digit s = true /\ (8 <= String.length s <= 15)%nat.
Proof.
  intros Hs. rewrite re_match_cons. change (re_match []) with at_end.
  rewrite (rep_digits 0 s); [reflexivity | lia | assumption].
Qed.

(** [^\+?[0-9]{8,15}$] on a string without newline. *)
Lemma re_match_phone (s : string) :
  no_newline s = true ->
  re_match phone_pattern s = true <-> phone_shape s.
Proof.
  intros Hs. unfold phone_pattern, phone_shape.
  rewrite re_match_cons, rep_optional, orb_true_iff. split.
  - intros [H | H].
    + exists s. split; [now left | now apply re_match_digits].
    + destruct s as [|c rest]; [discriminate H|].
      apply andb_true_iff in H as [Hc H].
      apply Ascii.eqb_eq in Hc. subst c.
      exists rest. split; [now right|]. apply re_match_digits; [|exact H].
      unfold no_newline in *. cbn [str_forall] in Hs. now apply andb_true_iff in Hs.
  - intros (d & [E | E] & H); subst s.
    + left. now apply re_match_digits.
    + right. unfold is_char at 1. rewrite Ascii.eqb_refl. cbn [andb].
      apply re_match_digits; [|exact H].
      unfold no_newline in *. cbn [str_forall] in Hs. now apply andb_true_iff in Hs.
Qed.

(** C7.  [validate_phone] accepts [None] and every string made of
    whitespace only (the empty string included).  For any other string it
    removes the separators (whitespace, hyphens, parentheses) and accepts
    exactly when what is left is an optional leading [+] followed by 8 to
    15 digits; every other input raises a validation failure.  In
    particular ["123-456-7890"] is accepted and ["abc"] is rejected. *)
Theorem validate_phone_spec :
  validate_phone None = Returned None /\
  (forall s, str_forall is_space s = true ->
     validate_phone (Some s) = Returned (Some s)) /\
  (forall s, str_forall is_space s = false ->
     (phone_shape (clean_phone s) -> validate_phone (Some s) = Returned (Some s)) /\
     (~ phone_shape (clean_phone s) ->
        validate_phone (Some s) =
        Raised (ValidationError "Format de numéro de téléphone invalide."))) /\
  validate_phone (Some "123-456-7890") = Returned (Some "123-456-7890") /\
  raised_validation (validate_phone (Some "abc")) = true.
Proof.
  split; [reflexivity|]. split; [|split; [|split; reflexivity]].
  - intros s Hs. unfold validate_phone. now rewrite py_not_blank, Hs.
  - intros s Hs. unfold validate_phone. rewrite py_not_blank, Hs.
    pose proof (re_match_phone (clean_phone s)
                  (no_separator_no_newline _ (clean_phone_no_separator s))) as R.
    destruct (re_match phone_pattern (clean_phone s)); cbn [negb]; split.
    + reflexivity.
    + intros N. exfalso. apply N, R. reflexivity.
    + intros P. apply R in P. discriminate P.
    + reflexivity.
Qed.

Lemma validate_phone_spec_witness :
  str_forall is_space "+213 (0) 555-12-34-56" = false /\
  phone_shape (clean_phone "+213 (0) 555-12-34-56") /\
  validate_phone (Some "+213 (0) 555-12-34-56") = Returned (Some "+213 (0) 555-12-34-56").
Proof.
  assert (S : str_forall is_space "+213 (0) 555-12-34-56" = false) by reflexivity.
  assert (P : phone_shape (clean_phone "+213 (0) 555-12-34-56")).
  { exists "2130555123456"%string.
    split; [now right | split; [reflexivity | cbn; lia]]. }
  split; [exact S | split; [exact P|]].
  exact (proj1 (proj1 (proj2 (proj2 validate_phone_spec)) _ S) P).
Defined.

(* ------------------------------------------------------------------ *)
(** ** Numbers and required values *)

Lemma Qlt_bool_false (x y : Q) : Qlt_bool x y = false <-> (y <= x)%Q.
Proof.
  unfold Qlt_bool. rewrite negb_false_iff. apply Qle_bool_iff.
Qed.

Lemma Qlt_bool_true (x y : Q) : Qlt_bool x y = true <-> (x < y)%Q.
Proof.
  unfold Qlt_bool. rewrite negb_true_iff. split.
  - intros H. apply Qnot_le_lt. intros L. apply Qle_bool_iff in L. congruence.
  - intros H. destruct (Qle_bool y x) eqn:E; [|reflexivity].
    apply Qle_bool_iff in E. exfalso. exact (Qlt_not_le _ _ H E).
Qed.

(** [validate_numeric] with a lower bound returns the number it was
    given, and only when the number reaches the bound. *)
Lemma validate_numeric_min (value : option Q) (field_name : string) (m : Z) (x : Q) :
  validate_numeric value field_name (Some m) None = Returned x <->
  value = Some x /\ (inject_Z m <= x)%Q.
Proof.
  unfold validate_numeric, py_float. destruct value as [v|].
  - destruct (Qlt_bool v (inject_Z m)) eqn:E.
    + split; [discriminate|]. intros [[= ->] L].
      apply Qlt_bool_false in L. congruence.
    + apply Qlt_bool_false in E. split.
      * intros [= ->]. now split.
      * now intros [[= ->] _].
  - split; [discriminate | intros [[=] _]].
Qed.

Lemma validate_numeric_raises (value : option Q) (field_name : string)
    (min_value max_value : option Z) (e : exn) :
  validate_numeric value field_name min_value max_value = Raised e ->
  is_validation_failure e = true.
Proof.
  unfold validate_numeric.
  destruct (py_float value); [|now intros [= <-]].
  destruct (match min_value with Some _ => _ | None => _ end); [now intros [= <-]|].
  destruct (match max_value with Some _ => _ | None => _ end); [now intros [= <-]|].
  discriminate.
Qed.

(** A required identifier is accepted exactly when it is a non-zero
    integer. *)
Lemma validate_required_id (id : option Z) (field_name : string) (v : option Z) :
  validate_required id field_name = Returned v <->
  v = id /\ exists z, id = Some z /\ z <> 0.
Proof.
  unfold validate_required. destruct id as [z|]; cbn.
  - rewrite orb_false_r. destruct (Z.eqb_spec z 0) as [-> | N].
    + split; [discriminate|]. intros [_ (z & [= <-] & N)]. now elim N.
    + split.
      * intros [= <-]. split; [reflexivity|]. now exists z.
      * now intros [-> _].
  - split; [discriminate|]. now intros [_ (z & [=] & _)].
Qed.

Lemma validate_required_falsy_id (id : option Z) (field_name : string) :
  id = None \/ id = Some 0 ->
  validate_required id field_name =
  Raised (ValidationError (field_name ++ " est requis.")).
Proof. now intros [-> | ->]. Qed.

Lemma validate_required_raises {A} `{PyValue A} (value : A) (field_name : string)
    (e : exn) :
  validate_required value field_name = Raised e -> is_validation_failure e = true.
Proof.
  unfold validate_required. destruct (py_not value || py_blank value).
  - now intros [= <-].
  - discriminate.
Qed.

(** [validate_integer] rejects every number with a fractional part. *)
Lemma validate_integer_fractional (x : Q) (field_name : string)
    (min_value max_value : option Z) :
  ~ (x == inject_Z (py_int x))%Q ->
  validate_integer (Some x) field_name min_value max_value =
  Raised (ValidationError (field_name ++ " doit être un nombre entier.")).
Proof.
  intros N. unfold validate_integer, py_float.
  destruct (Qeq_bool x (inject_Z (py_int x))) eqn:E.
  - apply Qeq_bool_iff in E. contradiction.
  - reflexivity.
Qed.

(* ------------------------------------------------------------------ *)
(** ** The validation loop of [add_sale] *)

Lemma lines_total_cons (item : sale_line) (rest : list sale_line) :
  lines_total (item :: rest) = (line_amount item + lines_total rest)%Q.
Proof. reflexivity. Qed.

(** The loop succeeds exactly on the lists of valid lines, and then the
    total it returns is the starting value plus the sum of the lines. *)
Lemma validate_lines_returned (sale_items : list sale_line) (acc t : Q) :
  validate_lines sale_items acc = Returned t ->
  Forall valid_line sale_items /\ (t == acc + lines_total sale_items)%Q.
Proof.
  revert acc. induction sale_items as [|item rest IH]; intros acc; cbn [validate_lines].
  - intros [= <-]. split; [constructor|]. unfold lines_total. cbn. ring.
  - destruct (validate_required (product_id item) _) as [v|] eqn:R; [|discriminate].
    apply validate_required_id in R as [_ (z & Ez & Nz)].
    cbn [obind].
    destruct (validate_numeric (quantity item) _ _ _) as [q|] eqn:Vq; [|discriminate].
    apply validate_numeric_min in Vq as [Eq Lq].
    cbn [obind].
    destruct (validate_numeric (price_at_sale item) _ _ _) as [p|] eqn:Vp; [|discriminate].
    apply validate_numeric_min in Vp as [Ep Lp].
    cbn [obind]. intros H. apply IH in H as [F T]. split.
    + constructor; [|exact F]. now exists z, q, p.
    + rewrite T, lines_total_cons. unfold line_amount. rewrite Eq, Ep. ring.
Qed.

Lemma validate_lines_valid (sale_items : list sale_line) (acc : Q) :
  Forall valid_line sale_items ->
  exists t, validate_lines sale_items acc = Returned t.
Proof.
  intros F. revert acc. induction F as [|item rest V F IH]; intros acc.
  - now exists acc.
  - destruct V as (z & q & p & Ez & Nz & Eq & Lq & Ep & Lp).
    cbn [validate_lines].
    assert (R : validate_required (product_id item) "Product ID in sale item"
                = Returned (product_id item)).
    { apply validate_required_id. split; [reflexivity|]. now exists z. }
    rewrite R. cbn [obind].
    rewrite (proj2 (validate_numeric_min (quantity item) _ 1 q) (conj Eq Lq)).
    cbn [obind].
    rewrite (proj2 (validate_numeric_min (price_at_sale item) _ 0 p) (conj Ep Lp)).
    cbn [obind]. apply IH.
Qed.

Lemma line_amount_nonneg (item : sale_line) :
  valid_line item -> (0 <= line_amount item)%Q.
Proof.
  intros (z & q & p & _ & _ & Eq & Lq & Ep & Lp).
  unfold line_amount. rewrite Eq, Ep.
  apply Qmult_le_0_compat; [|exact Lp].
  apply Qle_trans with (y := 1%Q); [discriminate | exact Lq].
Qed.

Lemma lines_total_nonneg (sale_items : list sale_line) :
  Forall valid_line sale_items -> (0 <= lines_total sale_items)%Q.
Proof.
  induction 1 as [|item rest V F IH].
  - unfold lines_total. cbn. apply Qle_refl.
  - rewrite lines_total_cons.
    pose proof (line_amount_nonneg item V) as L.
    change 0%Q with (0 + 0)%Q. now apply Qplus_le_compat.
Qed.

(** The total of a validated list passes the final check of the total. *)
Lemma validate_total (sale_items : list sale_line) (t : Q) :
  validate_lines sale_items 0 = Returned t ->
  validate_numeric (Some t) "Total sale amount" (Some 0) None = Returned t.
Proof.
  intros H. apply validate_lines_returned in H as [F T].
  apply validate_numeric_min. split; [reflexivity|].
  rewrite T. change (inject_Z 0) with 0%Q. rewrite Qplus_0_l.
  now apply lines_total_nonneg.
Qed.

(* ================================================================== *)
(** * Properties of the statements *)
(* ================================================================== *)

Lemma check_returned (b : bool) (e : exn) (u : unit) :
  check b e = Returned u -> b = true.
Proof. unfold check. now destruct b. Qed.

Lemma check_true (e : exn) : check true e = Returned tt.
Proof. reflexivity. Qed.

(** Splitting a successful [x <~ c ; k]. *)
Lemma obind_returned {A B} (c : outcome A) (k : A -> outcome B) (b : B) :
  obind c k = Returned b -> exists a, c = Returned a /\ k a = Returned b.
Proof.
  destruct c as [a|e]; cbn; [|discriminate]. intros H. now exists a.
Qed.

Lemma obind_raised {A B} (c : outcome A) (k : A -> outcome B) (e : exn) :
  obind c k = Raised e ->
  c = Raised e \/ exists a, c = Returned a /\ k a = Raised e.
Proof.
  destruct c as [a|e']; cbn.
  - intros H. right. now exists a.
  - intros [= ->]. now left.
Qed.

Ltac split_obind H :=
  repeat match type of H with
  | obind (check _ _) _ = Returned _ =>
      let u := fresh "u" in
      let C := fresh "C" in
      apply obind_returned in H as (u & C & H); apply check_returned in C
  | obind _ _ = Returned _ =>
      let a := fresh "a" in
      let C := fresh "C" in
      apply obind_returned in H as (a & C & H)
  end.

(* ------------------------------------------------------------------ *)
(** ** Stock adjustment, the body of the two triggers *)

Lemma find_set_where (k j : positive) (f : product -> product)
    (rows : list product) :
  (forall p, prod_id (f p) = prod_id p) ->
  find (fun p => Pos.eqb (prod_id p) j)
       (set_where (fun p => Pos.eqb (prod_id p) k) f rows) =
  if Pos.eqb j k
  then option_map f (find (fun p => Pos.eqb (prod_id p) j) rows)
  else find (fun p => Pos.eqb (prod_id p) j) rows.
Proof.
  intros Hf. unfold set_where. induction rows as [|p rows IH]; cbn [map find].
  - now destruct (Pos.eqb j k).
  - destruct (Pos.eqb_spec (prod_id p) k) as [Ek | Nk].
    + rewrite Hf. destruct (Pos.eqb_spec (prod_id p) j) as [Ej | Nj].
      * subst. now rewrite Pos.eqb_refl.
      * rewrite IH. reflexivity.
    + destruct (Pos.eqb_spec (prod_id p) j) as [Ej | Nj].
      * subst j. destruct (Pos.eqb_spec (prod_id p) k); [contradiction | reflexivity].
      * exact IH.
Qed.

Lemma existsb_set_where (k j : positive) (f : product -> product)
    (rows : list product) :
  (forall p, prod_id (f p) = prod_id p) ->
  existsb (fun p => Pos.eqb (prod_id p) j)
          (set_where (fun p => Pos.eqb (prod_id p) k) f rows) =
  existsb (fun p => Pos.eqb (prod_id p) j) rows.
Proof.
  intros Hf. unfold set_where. induction rows as [|p rows IH]; cbn [map existsb].
  - reflexivity.
  - rewrite IH. destruct (Pos.eqb (prod_id p) k); [now rewrite Hf | reflexivity].
Qed.

Lemma has_product_find (db : database) (k : positive) :
  has_product db k = true -> exists p, find_product db k = Some p.
Proof.
  unfold has_product, find_product. induction (Products db) as [|p rows IH]; cbn.
  - discriminate.
  - destruct (Pos.eqb (prod_id p) k); [now exists p | exact IH].
Qed.

(** What a successful stock adjustment does: the stock of the product
    [k] moves by [delta] and is not negative afterwards, no other stock
    moves, and no other table changes. *)
Lemma adjust_stock_returned (k : positive) (delta : Q) (db db' : database) :
  adjust_stock k delta db = Returned db' ->
  db' = with_Products db
          (set_where (fun p => Pos.eqb (prod_id p) k) (add_stock delta) (Products db)) /\
  (forall j, stock_of db' j =
             if Pos.eqb j k
             then option_map (fun s => s + delta)%Q (stock_of db j)
             else stock_of db j) /\
  (forall s, stock_of db' k = Some s -> (0 <= s)%Q) /\
  (forall j, has_product db' j = has_product db j).
Proof.
  unfold adjust_stock. intros H. split_obind H. injection H as <-.
  split; [reflexivity|]. split; [|split].
  - intros j. unfold stock_of, find_product. cbn [Products with_Products].
    rewrite find_set_where by reflexivity.
    destruct (Pos.eqb j k); [|reflexivity].
    now destruct (find _ (Products db)).
  - intros s. unfold stock_of, find_product. cbn [Products with_Products].
    destruct (find _ _) as [p|] eqn:F; [|discriminate]. intros [= <-].
    apply find_some in F as [I E].
    rewrite forallb_forall in C. specialize (C p I).
    rewrite E in C. cbn in C. now apply Qle_bool_iff.
  - intros j. unfold has_product. cbn [Products with_Products].
    now apply existsb_set_where.
Qed.

Lemma adjust_stock_raises (k : positive) (delta : Q) (db : database) (e : exn) :
  adjust_stock k delta db = Raised e -> is_sqlite_error e = true.
Proof.
  unfold adjust_stock, check. destruct (forallb _ _); cbn; [discriminate|].
  now intros [= <-].
Qed.

Lemma key_of_some (z : Z) (k : positive) : key_of z = Some k -> z = Z.pos k.
Proof. destruct z; cbn; congruence. Qed.

Lemma key_is_pos (k j : positive) : key_is (Z.pos k) j = Pos.eqb j k.
Proof. reflexivity. Qed.

Lemma stock_of_has_product (db : database) (k : positive) :
  has_product db k = true -> exists s, stock_of db k = Some s.
Proof.
  intros H. apply has_product_find in H as [p H].
  exists (quantity_in_stock p). unfold stock_of. now rewrite H.
Qed.

(* ------------------------------------------------------------------ *)
(** ** Inserting a purchase *)

(** A purchase that is inserted names an existing product, whose stock
    grows by the quantity of the purchase; no other stock moves. *)
Lemma INSERT_Purchases_returned (product_id : option Z) (quantity : Q)
    (purchase_date : string) (cost_per_unit : Q) (supplier : option string)
    (db db' : database) (id : positive) :
  INSERT_Purchases product_id quantity purchase_date cost_per_unit supplier db
    = Returned (id, db') ->
  exists (k : positive) (s : Q),
    product_id = Some (Z.pos k) /\
    stock_of db k = Some s /\
    stock_of db' k = Some (s + quantity)%Q /\
    (forall j, j <> k -> stock_of db' j = stock_of db j) /\
    Purchases db' =
      (Purchases db ++
       [{| pur_id := id; pur_product_id := k; pur_quantity := quantity;
           purchase_date := purchase_date; cost_per_unit := cost_per_unit;
           supplier := supplier |}])%list.
Proof.
  unfold INSERT_Purchases. destruct product_id as [z|]; [|discriminate].
  intros H. split_obind H.
  destruct (key_of z) as [k|] eqn:K; [|discriminate].
  apply key_of_some in K. subst z.
  unfold increase_stock_on_purchase in H. cbn [pur_product_id pur_quantity] in H.
  split_obind H. injection H as <- <-.
  apply adjust_stock_returned in C1 as (E & S & _ & P).
  rewrite P in C2. apply stock_of_has_product in C2 as [s Hs].
  assert (S0 : forall j, stock_of
             {| Customers := Customers db; Products := Products db;
                Purchases := Purchases db ++
                  [{| pur_id := N.succ_pos (seq_Purchases db); pur_product_id := k;
                      pur_quantity := quantity; purchase_date := purchase_date;
                      cost_per_unit := cost_per_unit; supplier := supplier |}];
                Sales := Sales db; SaleItems := SaleItems db;
                seq_Customers := seq_Customers db; seq_Products := seq_Products db;
                seq_Purchases := N.pos (N.succ_pos (seq_Purchases db));
                seq_Sales := seq_Sales db; seq_SaleItems := seq_SaleItems db |} j
             = stock_of db j) by reflexivity.
  rewrite S0 in Hs.
  exists k, s. split; [reflexivity|]. split; [exact Hs|]. split; [|split].
  - rewrite S, Pos.eqb_refl, S0, Hs. reflexivity.
  - intros j N. rewrite S, S0. now destruct (Pos.eqb_spec j k).
  - rewrite E. reflexivity.
Qed.

Lemma INSERT_Purchases_raises (product_id : option Z) (quantity : Q)
    (purchase_date : string) (cost_per_unit : Q) (supplier : option string)
    (db : database) (e : exn) :
  INSERT_Purchases product_id quantity purchase_date cost_per_unit supplier db
    = Raised e -> is_sqlite_error e = true.
Proof.
  unfold INSERT_Purchases, check, increase_stock_on_purchase.
  destruct product_id as [z|]; [|now intros [= <-]].
  destruct (Qlt_bool 0 quantity); cbn [obind]; [|now intros [= <-]].
  destruct (Qle_bool 0 cost_per_unit); cbn [obind]; [|now intros [= <-]].
  destruct (key_of z); [|now intros [= <-]].
  destruct (adjust_stock _ _ _) eqn:A; cbn [obind].
  - destruct (has_product a p); cbn [obind]; [discriminate | now intros [= <-]].
  - intros [= <-]. now apply adjust_stock_raises in A.
Qed.

(* ------------------------------------------------------------------ *)
(** ** Inserting a sale and its lines *)

Lemma INSERT_Sales_returned (customer_id : option Z) (sale_date : string)
    (total_amount : Q) (db db' : database) (id : positive) :
  INSERT_Sales customer_id sale_date total_amount db = Returned (id, db') ->
  Sales db' =
    (Sales db ++
     [{| sale_id := id; sale_customer_id := customer_key customer_id;
         sale_date := sale_date; total_amount := total_amount |}])%list /\
  Products db' = Products db /\
  SaleItems db' = SaleItems db /\
  has_sale db' id = true.
Proof.
  unfold INSERT_Sales. intros H. split_obind H. injection H as <- <-.
  assert (E : a = customer_key customer_id).
  { destruct customer_id as [z|]; cbn in *; [|congruence].
    destruct (key_of z); [|discriminate]. split_obind C0. congruence. }
  subst a. repeat split. unfold has_sale. cbn [Sales].
  rewrite existsb_app. cbn. now rewrite Pos.eqb_refl, orb_true_r.
Qed.

Lemma INSERT_Sales_raises (customer_id : option Z) (sale_date : string)
    (total_amount : Q) (db : database) (e : exn) :
  INSERT_Sales customer_id sale_date total_amount db = Raised e ->
  is_sqlite_error e = true.
Proof.
  unfold INSERT_Sales, check.
  destruct (Qle_bool 0 total_amount); cbn [obind]; [|now intros [= <-]].
  destruct customer_id as [z|]; cbn [obind]; [|discriminate].
  destruct (key_of z); cbn [obind]; [|now intros [= <-]].
  destruct (has_customer db p); cbn [obind]; [discriminate | now intros [= <-]].
Qed.

(** A line that is inserted names an existing product, whose stock
    shrinks by the quantity of the line and is not negative afterwards;
    no other stock moves and the sale rows stay as they are. *)
Lemma INSERT_SaleItems_returned (sale : positive) (item : sale_line)
    (db db' : database) (id : positive) :
  INSERT_SaleItems sale (product_id item) (quantity item) (price_at_sale item) db
    = Returned (id, db') ->
  exists (k : positive) (q price : Q),
    product_id item = Some (Z.pos k) /\
    quantity item = Some q /\
    price_at_sale item = Some price /\
    (forall j, stock_of db' j =
               if Pos.eqb j k
               then option_map (fun s => s + - q)%Q (stock_of db j)
               else stock_of db j) /\
    (exists s, stock_of db' k = Some s /\ (0 <= s)%Q) /\
    Sales db' = Sales db /\
    SaleItems db' =
      (SaleItems db ++
       [{| item_id := id; item_sale_id := sale; item_product_id := k;
           item_quantity := q; item_price_at_sale := price |}])%list.
Proof.
  unfold INSERT_SaleItems.
  destruct (product_id item) as [z|]; [|discriminate].
  destruct (quantity item) as [q|]; [|discriminate].
  destruct (price_at_sale item) as [price|]; [|discriminate].
  intros H. split_obind H.
  destruct (key_of z) as [k|] eqn:K; [|discriminate].
  apply key_of_some in K. subst z.
  unfold decrease_stock_on_sale in H. cbn [item_product_id item_quantity] in H.
  split_obind H. injection H as <- <-.
  apply adjust_stock_returned in C1 as (E & S & G & P).
  apply stock_of_has_product in C3 as [s Hs].
  exists k, q, price. repeat split.
  - intros j. rewrite S. reflexivity.
  - exists s. split; [exact Hs | now apply G].
  - rewrite E. reflexivity.
  - rewrite E. reflexivity.
Qed.

Lemma INSERT_SaleItems_raises (sale : positive) (product_id : option Z)
    (quantity price_at_sale : option Q) (db : database) (e : exn) :
  INSERT_SaleItems sale product_id quantity price_at_sale db = Raised e ->
  is_sqlite_error e = true.
Proof.
  unfold INSERT_SaleItems, check, decrease_stock_on_sale.
  destruct product_id as [z|]; [|destruct quantity, price_at_sale; now intros [= <-]].
  destruct quantity as [q|]; [|destruct price_at_sale; now intros [= <-]].
  destruct price_at_sale as [price|]; [|now intros [= <-]].
  destruct (Qlt_bool 0 q); cbn [obind]; [|now intros [= <-]].
  destruct (Qle_bool 0 price); cbn [obind]; [|now intros [= <-]].
  destruct (key_of z); [|now intros [= <-]].
  destruct (adjust_stock _ _ _) eqn:A; cbn [obind].
  - destruct (has_sale a sale); cbn [obind]; [|now intros [= <-]].
    destruct (has_product a p); cbn [obind]; [discriminate | now intros [= <-]].
  - intros [= <-]. now apply adjust_stock_raises in A.
Qed.

Lemma quantity_sold_cons (k : positive) (item : sale_line) (rest : list sale_line) :
  quantity_sold k (item :: rest) =
  if line_of k item
  then (match quantity item with Some q => q | None => 0 end + quantity_sold k rest)%Q
  else quantity_sold k rest.
Proof. reflexivity. Qed.

Lemma quantity_sold_unmentioned (k : positive) (sale_items : list sale_line) :
  existsb (line_of k) sale_items = false -> quantity_sold k sale_items = 0%Q.
Proof.
  induction sale_items as [|item rest IH]; cbn [existsb]; [reflexivity|].
  intros H. apply orb_false_iff in H as [H1 H2].
  rewrite quantity_sold_cons, H1. auto.
Qed.

(** The lines of a sale, once all inserted: the stock of every product
    has gone down by the quantity the lines sell of it, the stock of a
    product that a line names exists and is not negative, and the sale
    rows are untouched. *)
Lemma insert_lines_returned (sale : positive) (sale_items : list sale_line)
    (db db' : database) :
  insert_lines sale sale_items db = Returned db' ->
  (forall k s, stock_of db k = Some s ->
     exists s', stock_of db' k = Some s' /\
                (s' == s - quantity_sold k sale_items)%Q) /\
  (forall k, existsb (line_of k) sale_items = true ->
     (exists s, stock_of db k = Some s) /\
     (exists s', stock_of db' k = Some s' /\ (0 <= s')%Q)) /\
  Sales db' = Sales db.
Proof.
  revert db. induction sale_items as [|item rest IH]; intros db; cbn [insert_lines].
  - intros [= <-]. split; [|split; [|reflexivity]].
    + intros k s Hs. exists s. split; [exact Hs|]. unfold quantity_sold. cbn. ring.
    + intros k H. discriminate H.
  - intros H. apply obind_returned in H as ([id db1] & Step & H). cbn [snd] in H.
    apply INSERT_SaleItems_returned in Step
      as (k0 & q & price & Ek & Eq & _ & S1 & (s0 & Hs0 & Ls0) & Sa & _).
    apply IH in H as (T & G & Sb).
    assert (L : forall k, line_of k item = Pos.eqb k k0).
    { intros k. unfold line_of. now rewrite Ek. }
    split; [|split].
    + intros k s Hs.
      assert (H1 : stock_of db1 k =
                   Some (if Pos.eqb k k0 then s + - q else s)%Q).
      { rewrite S1, Hs. now destruct (Pos.eqb k k0). }
      apply T in H1 as (s' & Hs' & E). exists s'. split; [exact Hs'|].
      rewrite E, quantity_sold_cons, L, Eq.
      destruct (Pos.eqb k k0); ring.
    + intros k M. cbn [existsb] in M.
      assert (B : exists s, stock_of db k = Some s).
      { destruct (existsb (line_of k) rest) eqn:R.
        - destruct (G k R) as [[s Hs] _]. rewrite S1 in Hs.
          destruct (Pos.eqb k k0), (stock_of db k) as [s1|];
            try discriminate; now exists s1.
        - rewrite orb_false_r, L in M. apply Pos.eqb_eq in M. subst k.
          rewrite S1, Pos.eqb_refl in Hs0.
          destruct (stock_of db k0) as [s1|]; [now exists s1 | discriminate]. }
      split; [exact B|].
      destruct (existsb (line_of k) rest) eqn:R.
      * now apply G.
      * rewrite orb_false_r, L in M. apply Pos.eqb_eq in M. subst k.
        destruct (T k0 s0 Hs0) as (s' & Hs' & E).
        exists s'. split; [exact Hs'|].
        rewrite E, (quantity_sold_unmentioned k0 rest R).
        unfold Qminus. rewrite Qplus_0_r. exact Ls0.
    + congruence.
Qed.

Lemma insert_lines_raises (sale : positive) (sale_items : list sale_line)
    (db : database) (e : exn) :
  insert_lines sale sale_items db = Raised e -> is_sqlite_error e = true.
Proof.
  revert db. induction sale_items as [|item rest IH]; intros db; cbn [insert_lines].
  - discriminate.
  - intros H. apply obind_raised in H as [H | ([id db1] & _ & H)].
    + now apply INSERT_SaleItems_raises in H.
    + now apply IH in H.
Qed.

(** The transaction of a sale, when every statement succeeds. *)
Lemma sale_transaction_returned (customer_id : option Z) (sale_date : string)
    (total_amount : Q) (sale_items : list sale_line) (db db' : database)
    (id : positive) :
  sale_transaction customer_id sale_date total_amount sale_items db
    = Returned (id, db') ->
  Sales db' =
    (Sales db ++
     [{| sale_id := id; sale_customer_id := customer_key customer_id;
         sale_date := sale_date; total_amount := total_amount |}])%list /\
  (forall k s, stock_of db k = Some s ->
     exists s', stock_of db' k = Some s' /\
                (s' == s - quantity_sold k sale_items)%Q) /\
  (forall k, existsb (line_of k) sale_items = true ->
     (exists s, stock_of db k = Some s) /\
     (exists s', stock_of db' k = Some s' /\ (0 <= s')%Q)).
Proof.
  unfold sale_transaction. intros H.
  apply obind_returned in H as ([id1 db1] & I & H). cbn [fst snd] in H.
  apply obind_returned in H as (db2 & L & H). injection H as <- <-.
  apply INSERT_Sales_returned in I as (Sa & Pr & _ & _).
  apply insert_lines_returned in L as (T & G & Sb).
  assert (St : forall k, stock_of db1 k = stock_of db k).
  { intros k. unfold stock_of, find_product. now rewrite Pr. }
  split; [congruence|]. split.
  - intros k s Hs. apply T. now rewrite St.
  - intros k M. destruct (G k M) as [B A]. rewrite St in B. now split.
Qed.

Lemma sale_transaction_raises (customer_id : option Z) (sale_date : string)
    (total_amount : Q) (sale_items : list sale_line) (db : database) (e : exn) :
  sale_transaction customer_id sale_date total_amount sale_items db = Raised e ->
  is_sqlite_error e = true.
Proof.
  unfold sale_transaction. intros H.
  apply obind_raised in H as [H | ([id1 db1] & _ & H)].
  - now apply INSERT_Sales_raises in H.
  - cbn [fst snd] in H. apply obind_raised in H as [H | (db2 & _ & H)].
    + now apply insert_lines_raises in H.
    + discriminate H.
Qed.

(* ================================================================== *)
(** * Running the data-access functions *)
(* ================================================================== *)

Lemma world_eta (w : world) :
  w = {| disk := disk w; work := work w; open_conns := open_conns w |}.
Proof. now destruct w. Qed.

(** The second loop of [add_sale] on the connection in use: it follows
    [insert_lines] on the uncommitted view and touches nothing else. *)
Lemma for_each_insert_lines (sale : positive) (sale_items : list sale_line)
    (w : world) (db : database) :
  work w = Some db ->
  match insert_lines sale sale_items db with
  | Returned db' =>
      for_each sale_items (fun item =>
        execute "SaleItems"
          (INSERT_SaleItems sale (product_id item) (quantity item)
             (price_at_sale item)) ;; ret tt) w
      = (Returned tt,
         {| disk := disk w; work := Some db'; open_conns := open_conns w |})
  | Raised e =>
      exists uncommitted,
      for_each sale_items (fun item =>
        execute "SaleItems"
          (INSERT_SaleItems sale (product_id item) (quantity item)
             (price_at_sale item)) ;; ret tt) w
      = (Raised e,
         {| disk := disk w; work := uncommitted; open_conns := open_conns w |})
  end.
Proof.
  revert w db. induction sale_items as [|item rest IH]; intros w db W.
  - cbn. unfold ret. rewrite <- W. now rewrite <- world_eta.
  - cbn [insert_lines].
    set (body := fun item : sale_line => _).
    assert (Step : for_each (item :: rest) body w =
              match INSERT_SaleItems sale (product_id item) (quantity item)
                      (price_at_sale item) db with
              | Returned (_, db1) =>
                  for_each rest body
                    {| disk := disk w; work := Some db1; open_conns := open_conns w |}
              | Raised e => (Raised e, w)
              end).
    { cbn [for_each]. unfold bind at 1. unfold body at 1.
      unfold bind at 1, execute at 1. rewrite W.
      now destruct (INSERT_SaleItems _ _ _ _ db) as [[id db1]|e]. }
    rewrite Step. clear Step.
    destruct (INSERT_SaleItems _ _ _ _ db) as [[id db1]|e] eqn:I; cbn [obind snd].
    + exact (IH {| disk := disk w; work := Some db1; open_conns := open_conns w |}
                db1 eq_refl).
    + exists (work w). now rewrite <- world_eta.
Qed.

(** [add_sale] on an initialised file, once validation has passed: the
    transaction is committed as a whole, or the file is left as it was
    and the failure is reported as a [DatabaseError]. *)
Lemma add_sale_run (sale_items : list sale_line) (customer_id : option Z)
    (sale_date_str : option string) (now : string) (w : world) (db : database)
    (t : Q) :
  disk w = Some db ->
  sale_items <> [] ->
  validate_lines sale_items 0 = Returned t ->
  add_sale sale_items customer_id sale_date_str now w =
  match sale_transaction customer_id
          (match sale_date_str with None => now | Some d => d end) t sale_items db with
  | Returned (id, db') => (Returned id, world_of db' (open_conns w))
  | Raised e =>
      (Raised (DatabaseError ("Sale recording failed: " ++ exn_str e)),
       world_of db (open_conns w))
  end.
Proof.
  intros D N V. unfold add_sale.
  destruct sale_items as [|item0 rest0] eqn:Items; [now elim N|].
  rewrite <- Items in *. replace (py_not sale_items) with false by now rewrite Items.
  unfold handle_db_error, try_except at 1.
  unfold bind at 1, lift at 1. rewrite V.
  unfold bind at 1, lift at 1. rewrite (validate_total _ _ V).
  unfold bind at 1, get_db_connection at 1.
  unfold try_finally, try_except, begin_transaction.
  unfold bind at 1, ret at 1. unfold bind at 1, execute at 1.
  cbn [work disk open_conns]. rewrite D.
  pose proof (sale_transaction_raises customer_id
                (match sale_date_str with None => now | Some d => d end)
                t sale_items db) as R.
  unfold sale_transaction in *.
  destruct (INSERT_Sales _ _ _ db) as [[id db1]|e] eqn:I; cbn [obind fst snd] in *.
  - unfold bind at 1. cbn [py_not PyValue_Z Z.eqb]. unfold ret at 1.
    unfold bind at 1.
    pose proof (for_each_insert_lines id sale_items
                  {| disk := Some db; work := Some db1; open_conns := S (open_conns w) |}
                  db1 eq_refl) as L.
    destruct (insert_lines id sale_items db1) as [db2|e] eqn:IL; cbn [obind] in *.
    + rewrite L. unfold bind, conn_commit, ret, conn_close. reflexivity.
    + destruct L as [u L]. rewrite L.
      specialize (R e eq_refl).
      unfold bind, conn_rollback, conn_close, raise.
      destruct e; try discriminate R; reflexivity.
  - specialize (R e eq_refl).
    unfold bind, conn_rollback, conn_close, raise.
    destruct e; try discriminate R; reflexivity.
Qed.

Lemma validate_lines_raises_validation (sale_items : list sale_line) (acc : Q)
    (e : exn) :
  validate_lines sale_items acc = Raised e -> is_validation_failure e = true.
Proof.
  revert acc. induction sale_items as [|item rest IH]; intros acc; cbn [validate_lines].
  - discriminate.
  - intros H.
    apply obind_raised in H as [H | (v & _ & H)];
      [now apply validate_required_raises in H|].
    apply obind_raised in H as [H | (q & _ & H)];
      [now apply validate_numeric_raises in H|].
    apply obind_raised in H as [H | (p & _ & H)];
      [now apply validate_numeric_raises in H|].
    now apply IH in H.
Qed.

(** [add_sale] returns only after every step has succeeded: the list is
    not empty, the lines are valid, the file holds the schema and the
    whole transaction went through and was committed. *)
Lemma add_sale_returned (sale_items : list sale_line) (customer_id : option Z)
    (sale_date_str : option string) (now : string) (w w' : world) (id : positive) :
  add_sale sale_items customer_id sale_date_str now w = (Returned id, w') ->
  exists (db db' : database) (t : Q),
    disk w = Some db /\
    sale_items <> [] /\
    validate_lines sale_items 0 = Returned t /\
    sale_transaction customer_id
      (match sale_date_str with None => now | Some d => d end) t sale_items db
      = Returned (id, db') /\
    w' = world_of db' (open_conns w).
Proof.
  intros H.
  destruct sale_items as [|item0 rest0] eqn:Items; [discriminate H|].
  rewrite <- Items in *.
  assert (N : sale_items <> []) by now rewrite Items.
  destruct (validate_lines sale_items 0) as [t|e] eqn:V.
  - destruct (disk w) as [db|] eqn:D.
    + rewrite (add_sale_run _ _ _ _ _ db t D N V) in H.
      destruct (sale_transaction _ _ _ _ _) as [[id' db']|e] eqn:T; [|discriminate H].
      injection H as <- <-. now exists db, db', t.
    + exfalso. revert H. unfold add_sale.
      replace (py_not sale_items) with false by now rewrite Items.
      unfold handle_db_error, try_except at 1.
      unfold bind at 1, lift at 1. rewrite V.
      unfold bind at 1, lift at 1. rewrite (validate_total _ _ V).
      unfold bind at 1, get_db_connection at 1.
      unfold try_finally, try_except, begin_transaction.
      unfold bind at 1, ret at 1. unfold bind at 1, execute at 1.
      cbn [work disk open_conns]. rewrite D.
      unfold bind, conn_rollback, conn_close, raise. discriminate.
  - exfalso. revert H. unfold add_sale.
    replace (py_not sale_items) with false by now rewrite Items.
    unfold handle_db_error, try_except at 1.
    unfold bind at 1, lift at 1. rewrite V.
    pose proof (validate_lines_raises_validation sale_items 0 e V) as E.
    destruct e; try discriminate E. unfold raise. discriminate.
Qed.

(** [add_purchase] returns only after the arguments were validated, the
    row was inserted into an initialised file and the insertion was
    committed. *)
Lemma add_purchase_returned (product_id : option Z) (quantity cost_per_unit : option Q)
    (supplier purchase_date_str : option string) (now : string)
    (w w' : world) (id : positive) :
  add_purchase product_id quantity cost_per_unit supplier purchase_date_str now w
    = (Returned id, w') ->
  exists (db db' : database) (qty cost : Q),
    disk w = Some db /\
    quantity = Some qty /\ (1 <= qty)%Q /\
    cost_per_unit = Some cost /\ (0 <= cost)%Q /\
    INSERT_Purchases product_id qty
      (match purchase_date_str with None => now | Some d => d end) cost supplier db
      = Returned (id, db') /\
    w' = world_of db' (open_conns w).
Proof.
  unfold add_purchase, handle_db_error, try_except at 1.
  unfold bind at 1, lift at 1.
  destruct (validate_required product_id _) as [v|e] eqn:R.
  2:{ apply validate_required_raises in R. destruct e; discriminate. }
  unfold bind at 1, lift at 1.
  destruct (validate_numeric quantity _ _ _) as [qty|e] eqn:Vq.
  2:{ apply validate_numeric_raises in Vq. destruct e; discriminate. }
  unfold bind at 1, lift at 1.
  destruct (validate_numeric cost_per_unit _ _ _) as [cost|e] eqn:Vc.
  2:{ apply validate_numeric_raises in Vc. destruct e; discriminate. }
  apply validate_numeric_min in Vq as [Eq Lq].
  apply validate_numeric_min in Vc as [Ec Lc].
  unfold bind at 1, get_db_connection at 1, try_finally.
  unfold bind at 1, execute at 1. cbn [work disk open_conns].
  destruct (disk w) as [db|] eqn:D.
  2:{ unfold conn_close, raise. discriminate. }
  destruct (INSERT_Purchases _ _ _ _ _ db) as [[id' db']|e] eqn:I.
  - unfold bind, conn_commit, ret, conn_close. cbn [work disk open_conns].
    intros [= <- <-]. now exists db, db', qty, cost.
  - apply INSERT_Purchases_raises in I. unfold conn_close, raise.
    destruct e; try discriminate I.
    + destruct (contains _ msg); [discriminate|].
      destruct (contains _ msg); [discriminate|].
      destruct (contains _ msg); discriminate.
    + discriminate.
Qed.

(* ================================================================== *)
(** * Sales *)
(* ================================================================== *)

(** C4.  [add_sale] with an empty list of items raises a validation
    failure before a connection is even opened: the world after the call
    is the world before it, so no sale, no sale item and no stock has
    changed. *)
Theorem add_sale_empty_rejected (customer_id : option Z)
    (sale_date_str : option string) (now : string) (w : world) :
  add_sale [] customer_id sale_date_str now w =
  (Raised (ValidationError "Cannot record a sale with no items."), w).
Proof. reflexivity. Qed.



(** C1.  When the lines pass validation but sell more of some product
    than is in stock, [add_sale] raises a persistence failure and the
    transaction is rolled back as a whole: the file is what it was before
    the call (no sale row, no sale item row, every stock unchanged) and
    the connection has been closed. *)
Theorem add_sale_oversell_rolled_back (sale_items : list sale_line)
    (customer_id : option Z) (sale_date_str : option string) (now : string)
    (w : world) (db : database) (t : Q) (k : positive) (s : Q) :
  disk w = Some db ->
  validate_lines sale_items 0 = Returned t ->
  existsb (line_of k) sale_items = true ->
  stock_of db k = Some s ->
  (s < quantity_sold k sale_items)%Q ->
  exists (msg : string) (w' : world),
    add_sale sale_items customer_id sale_date_str now w
      = (Raised (DatabaseError msg), w') /\
    disk w' = Some db /\
    open_conns w' = open_conns w.
Proof.
  intros D V M S O.
  assert (N : sale_items <> []) by (intros ->; discriminate M).
  rewrite (add_sale_run _ customer_id sale_date_str now _ db t D N V).
  destruct (sale_transaction _ _ _ _ _) as [[id db']|e] eqn:T.
  - exfalso. apply sale_transaction_returned in T as (_ & A & G).
    destruct (A k s S) as (s1 & H1 & E).
    destruct (G k M) as (_ & s2 & H2 & L).
    assert (s2 = s1) by congruence. subst s2.
    rewrite E in L. apply (Qlt_not_le _ _ O).
    apply Qplus_le_l with (z := (- quantity_sold k sale_items)%Q).
    rewrite Qplus_opp_r. exact L.
  - eexists. eexists. split; [reflexivity|]. split; reflexivity.
Qed.

Lemma add_sale_oversell_rolled_back_witness :
  validate_lines [line 1 100 10] 0 = Returned (0 + 100 * 10)%Q /\
  stock_of shop 1 = Some 15%Q /\
  (15 < quantity_sold 1 [line 1 100 10])%Q /\
  exists (msg : string) (w' : world),
    add_sale [line 1 100 10] None None "2023-02-01 08:00:00" (world_of shop 0)
      = (Raised (DatabaseError msg), w') /\
    disk w' = Some shop /\
    open_conns w' = open_conns (world_of shop 0).
Proof.
  assert (V : validate_lines [line 1 100 10] 0 = Returned (0 + 100 * 10)%Q)
    by reflexivity.
  assert (O : (15 < quantity_sold 1 [line 1 100 10])%Q) by reflexivity.
  split; [exact V|]. split; [reflexivity|]. split; [exact O|].
  exact (add_sale_oversell_rolled_back [line 1 100 10] None None
           "2023-02-01 08:00:00" (world_of shop 0) shop _ 1%positive 15%Q
           eq_refl V eq_refl eq_refl O).
Defined.



(** The scenario of a first run: the schema is created on a bare file,
    a product is added with no stock, 20 units are purchased, 5 are sold
    for a total of 50, and a sale of 100 units is refused.  The file then
    holds the [shop]: 15 units in stock, one sale, one sale item. *)
Example first_run_scenario :
  let w1 := snd (initialize_database bare_file) in
  let r2 := add_product (Some "Widget") None (Some "Tools") (Some 5%Q) (Some 10%Q)
              (Some 0%Q) w1 in
  let r3 := add_purchase (Some 1) (Some 20%Q) (Some 5%Q) None
              (Some "2023-01-10 09:00:00") "" (snd r2) in
  let r4 := add_sale [line 1 5 10] None (Some "2023-01-15 10:00:00") "" (snd r3) in
  let r5 := add_sale [line 1 100 10] None (Some "2023-01-16 10:00:00") "" (snd r4) in
  fst r2 = Returned 1%positive /\
  fst r3 = Returned 1%positive /\
  option_map (fun db => stock_of db 1) (disk (snd r3)) = Some (Some 20%Q) /\
  r4 = (Returned 1%positive, world_of shop 0) /\
  raised_persistence (fst r5) = true /\
  disk (snd r5) = Some shop.
Proof. repeat split; vm_compute; reflexivity. Qed.

(* ================================================================== *)
(** * Purchases *)
(* ================================================================== *)

(** [add_purchase] checks its quantity with [validate_numeric]: every
    number of at least 1 passes, whole or not. *)
Lemma add_purchase_quantity_check (q : Q) :
  (1 <= q)%Q ->
  validate_numeric (Some q) "Purchase quantity" (Some 1) None = Returned q.
Proof.
  intros L. apply validate_numeric_min. now split.
Qed.

(** C5.  The quantity [2.5] is not an integer, and [validate_integer]
    (the check that [add_product] applies to a quantity) rejects it;
    [add_purchase] accepts it all the same: the call returns the key of a
    new purchase row, the row is committed with the quantity [2.5], and
    the stock of the product moves from 15 to 17.5. *)
Theorem add_purchase_accepts_fractional_quantity :
  raised_validation (validate_integer (Some (5 # 2)) "Quantité" (Some 0) None) = true /\
  raised_validation
    (fst (add_product (Some "Gadget") None (Some "Tools") (Some 5%Q) (Some 10%Q)
            (Some (5 # 2)) (world_of shop 0))) = true /\
  fst (add_purchase (Some 1) (Some (5 # 2)) (Some 5%Q) None None
         "2023-02-01 08:00:00" (world_of shop 0)) = Returned 2%positive /\
  option_map (fun db => (map pur_quantity (Purchases db), stock_of db 1))
    (disk (snd (add_purchase (Some 1) (Some (5 # 2)) (Some 5%Q) None None
                  "2023-02-01 08:00:00" (world_of shop 0))))
  = Some ([20%Q; 5 # 2], Some (35 # 2)).
Proof. repeat split; vm_compute; reflexivity. Qed.

(* ================================================================== *)
(** * Products *)
(* ================================================================== *)

Lemma validate_required_key (k : positive) (field_name : string) :
  validate_required (Some (Z.pos k)) field_name = Returned (Some (Z.pos k)).
Proof. reflexivity. Qed.

(** The deletion of a product that a sale item references violates the
    foreign key of [SaleItems]. *)
Lemma DELETE_Products_restricted (db : database) (p : product) :
  In p (Products db) ->
  referenced db (prod_id p) ->
  DELETE_Products (Some (Z.pos (prod_id p))) db = Raised FOREIGN_KEY_failed.
Proof.
  intros I (i & Ii & E). unfold DELETE_Products. cbv zeta.
  match goal with
  | |- context [existsb ?f (SaleItems db)] =>
      assert (G : existsb f (SaleItems db) = true)
  end.
  { apply existsb_exists. exists i. split; [exact Ii|].
    apply existsb_exists. exists p. split; [exact I|].
    rewrite E, key_is_pos, !Pos.eqb_refl. reflexivity. }
  rewrite G. reflexivity.
Qed.

(** C6.  Deleting a product that at least one sale item references
    fails with the [DatabaseError] of the referenced-elsewhere category
    (the [sqlite3.IntegrityError] of the foreign key does not reach the
    caller), and the file is what it was before the call, so the product
    row is still there. *)
Theorem delete_referenced_product_refused (w : world) (db : database) (p : product) :
  disk w = Some db ->
  In p (Products db) ->
  referenced db (prod_id p) ->
  exists w' : world,
    delete_product (Some (Z.pos (prod_id p))) w
      = (Raised (DatabaseError msg_referenced), w') /\
    disk w' = Some db /\
    open_conns w' = open_conns w.
Proof.
  intros D I R. unfold delete_product, handle_db_error, try_except.
  unfold bind at 1, lift at 1. rewrite validate_required_key.
  unfold bind at 1, get_db_connection at 1, try_finally.
  unfold bind at 1, execute at 1. cbn [work disk open_conns]. rewrite D.
  rewrite (DELETE_Products_restricted db p I R).
  eexists. split; [reflexivity|]. split; reflexivity.
Qed.

Lemma delete_referenced_product_refused_witness :
  In widget (Products shop) /\
  referenced shop (prod_id widget) /\
  exists w' : world,
    delete_product (Some (Z.pos (prod_id widget))) (world_of shop 0)
      = (Raised (DatabaseError msg_referenced), w') /\
    disk w' = Some shop /\
    open_conns w' = open_conns (world_of shop 0).
Proof.
  assert (I : In widget (Products shop)) by (left; reflexivity).
  assert (R : referenced shop (prod_id widget)).
  { eexists. split; [left; reflexivity | reflexivity]. }
  split; [exact I|]. split; [exact R|].
  exact (delete_referenced_product_refused (world_of shop 0) shop widget eq_refl I R).
Defined.

(* ------------------------------------------------------------------ *)
(** ** [update_product] *)

Lemma find_set_where_any (sel : product -> bool) (f : product -> product)
    (j : positive) (rows : list product) :
  (forall p, prod_id (f p) = prod_id p) ->
  find (fun p => Pos.eqb (prod_id p) j) (set_where sel f rows) =
  option_map (fun p => if sel p then f p else p)
             (find (fun p => Pos.eqb (prod_id p) j) rows).
Proof.
  intros Hf. unfold set_where. induction rows as [|p rows IH]; cbn [map find option_map].
  - reflexivity.
  - assert (E : prod_id (if sel p then f p else p) = prod_id p)
      by (destruct (sel p); [apply Hf | reflexivity]).
    rewrite E. destruct (Pos.eqb (prod_id p) j); [reflexivity | exact IH].
Qed.

Lemma Forall2_set_where {R : Type} (rel : R -> R -> Prop) (sel : R -> bool)
    (f : R -> R) (rows : list R) :
  (forall r, rel r r) -> (forall r, rel r (f r)) ->
  Forall2 rel rows (set_where sel f rows).
Proof.
  intros Hr Hf. unfold set_where. induction rows as [|r rows IH]; cbn [map].
  - constructor.
  - constructor; [now destruct (sel r) | exact IH].
Qed.

(** What the UPDATE of [update_product] does to the database. *)
Lemma UPDATE_Products_returned (name description category : option string)
    (purchase_price selling_price : Q) (product_id : option Z)
    (db db' : database) (count : nat) :
  UPDATE_Products name description category purchase_price selling_price
    product_id db = Returned (count, db') ->
  db' = db \/
  exists (n : string) (sel : product -> bool),
    db' = with_Products db
            (set_where sel
               (set_product_details n description category purchase_price selling_price)
               (Products db)).
Proof.
  unfold UPDATE_Products. destruct (rowcount _ _) as [|c].
  - intros [= <- <-]. now left.
  - destruct name as [n|]; [|discriminate].
    intros H. split_obind H. injection H as <- <-. right. eauto.
Qed.

(** [update_product] returns only after the UPDATE ran on an initialised
    file and was committed. *)
Lemma update_product_returned (product_id : option Z)
    (name description category : option string)
    (purchase_price selling_price : option Q) (w w' : world) (b : bool) :
  update_product product_id name description category purchase_price
    selling_price w = (Returned b, w') ->
  exists (db db' : database) (name' : option string) (pp sp : Q) (count : nat),
    disk w = Some db /\ disk w' = Some db' /\
    UPDATE_Products name' description category pp sp product_id db
      = Returned (count, db').
Proof.
  unfold update_product, handle_db_error, try_except at 1.
  unfold bind at 1, lift at 1.
  destruct (validate_required product_id _) as [v|e] eqn:R.
  2:{ apply validate_required_raises in R. destruct e; discriminate. }
  unfold bind at 1, lift at 1.
  destruct (validate_product_data _ _ _ _) as [[[[name' pp] sp] qty]|e] eqn:V.
  2:{ assert (E : is_validation_failure e = true).
      { revert V. unfold validate_product_data. intros V.
        apply obind_raised in V as [V | (? & _ & V)];
          [now apply validate_required_raises in V|].
        apply obind_raised in V as [V | (? & _ & V)];
          [now apply validate_numeric_raises in V|].
        apply obind_raised in V as [V | (? & _ & V)];
          [now apply validate_numeric_raises in V|].
        discriminate V. }
      destruct e; discriminate. }
  unfold bind at 1, lift at 1.
  destruct (validate_required category _) as [v'|e] eqn:R'.
  2:{ apply validate_required_raises in R'. destruct e; discriminate. }
  unfold bind at 1, get_db_connection at 1, try_finally.
  unfold bind at 1, execute at 1. cbn [work disk open_conns].
  destruct (disk w) as [db|] eqn:D.
  2:{ unfold conn_close, raise. discriminate. }
  destruct (UPDATE_Products _ _ _ _ _ _ db) as [[count db']|e] eqn:U.
  - unfold bind, conn_commit, ret, raise, conn_close. cbn [work disk open_conns].
    destruct (count =? 0)%nat; [discriminate|].
    intros [= <- <-]. cbn [disk]. now exists db, db', name', pp, sp, count.
  - assert (E : is_sqlite_error e = true).
    { revert U. unfold UPDATE_Products, check. destruct (rowcount _ _); [discriminate|].
      destruct name'; [|now intros [= <-]].
      destruct (Qle_bool 0 pp); cbn [obind]; [|now intros [= <-]].
      destruct (Qle_bool 0 sp); cbn [obind]; [|now intros [= <-]].
      destruct (negb _); cbn [obind]; [discriminate | now intros [= <-]]. }
    unfold conn_close, raise. destruct e; try discriminate E.
    + destruct (contains _ msg); [discriminate|].
      destruct (contains _ msg); [discriminate|].
      destruct (contains _ msg); discriminate.
    + discriminate.
Qed.

(** C8.  A successful [update_product] changes no stock.  The product
    rows after the call are the rows before it, one for one, with the
    same key and the same [quantity_in_stock] (only name, description,
    category, purchase price and selling price can differ), and the other
    four tables are untouched. *)
Theorem update_product_keeps_stock (product_id : option Z)
    (name description category : option string)
    (purchase_price selling_price : option Q) (w w' : world) (b : bool) :
  update_product product_id name description category purchase_price
    selling_price w = (Returned b, w') ->
  exists db db' : database,
    disk w = Some db /\ disk w' = Some db' /\
    (forall k, stock_of db' k = stock_of db k) /\
    Forall2 same_key_and_stock (Products db) (Products db') /\
    Customers db' = Customers db /\ Purchases db' = Purchases db /\
    Sales db' = Sales db /\ SaleItems db' = SaleItems db.
Proof.
  intros H.
  apply update_product_returned in H
    as (db & db' & name' & pp & sp & count & D & D' & U).
  exists db, db'. split; [exact D|]. split; [exact D'|].
  apply UPDATE_Products_returned in U as [-> | (n & sel & ->)].
  - repeat split. clear. induction (Products db); constructor; [now split | assumption].
  - cbn [with_Products Products Customers Purchases Sales SaleItems].
    repeat split.
    + intros k. unfold stock_of, find_product. cbn [Products with_Products].
      rewrite find_set_where_any by reflexivity.
      destruct (find _ (Products db)) as [p|]; [|reflexivity].
      cbn [option_map]. now destruct (sel p).
    + apply Forall2_set_where; intros r; now split.
Qed.

Lemma update_product_keeps_stock_witness :
  exists db db' : database,
    disk (world_of shop 0) = Some db /\
    disk (snd (update_product (Some 1) (Some "Widget XL") (Some "Large") (Some "Tools")
                 (Some 6%Q) (Some 12%Q) (world_of shop 0))) = Some db' /\
    (forall k, stock_of db' k = stock_of db k) /\
    Forall2 same_key_and_stock (Products db) (Products db') /\
    Customers db' = Customers db /\ Purchases db' = Purchases db /\
    Sales db' = Sales db /\ SaleItems db' = SaleItems db.
Proof.
  apply (update_product_keeps_stock (Some 1) (Some "Widget XL") (Some "Large")
           (Some "Tools") (Some 6%Q) (Some 12%Q) (world_of shop 0) _ true).
  vm_compute. reflexivity.
Defined.

(* ================================================================== *)
(** * Deleting and updating a row that does not exist *)
(* ================================================================== *)

Lemma filter_none {R : Type} (sel : R -> bool) (rows : list R) :
  (forall r, In r rows -> sel r = false) -> filter sel rows = [].
Proof.
  induction rows as [|r rows IH]; intros H; cbn [filter]; [reflexivity|].
  rewrite (H r (or_introl eq_refl)). apply IH. intros r' I. apply H. now right.
Qed.

Lemma filter_all {R : Type} (sel : R -> bool) (rows : list R) :
  (forall r, In r rows -> sel r = false) ->
  filter (fun r => negb (sel r)) rows = rows.
Proof.
  induction rows as [|r rows IH]; intros H; cbn [filter]; [reflexivity|].
  rewrite (H r (or_introl eq_refl)). cbn [negb]. f_equal.
  apply IH. intros r' I. apply H. now right.
Qed.

Lemma existsb_none {R : Type} (sel : R -> bool) (rows : list R) :
  (forall r, In r rows -> sel r = false) -> existsb sel rows = false.
Proof.
  induction rows as [|r rows IH]; intros H; cbn [existsb]; [reflexivity|].
  rewrite (H r (or_introl eq_refl)). apply IH. intros r' I. apply H. now right.
Qed.

Lemma map_same {R : Type} (f : R -> R) (rows : list R) :
  (forall r, In r rows -> f r = r) -> map f rows = rows.
Proof.
  induction rows as [|r rows IH]; intros H; cbn [map]; [reflexivity|].
  rewrite (H r (or_introl eq_refl)). f_equal. apply IH. intros r' I. apply H. now right.
Qed.

Lemma rowcount_none {R : Type} (sel : R -> bool) (rows : list R) :
  (forall r, In r rows -> sel r = false) -> rowcount sel rows = O.
Proof. intros H. unfold rowcount. now rewrite filter_none. Qed.

(** A DELETE or an UPDATE whose key matches no row reports zero rows and
    leaves the database as it is. *)
Lemma DELETE_Customers_missing (id : option Z) (db : database) :
  no_customer db id -> DELETE_Customers id db = Returned (O, db).
Proof.
  intros H. unfold DELETE_Customers. cbv zeta.
  rewrite rowcount_none, filter_all by exact H.
  rewrite map_same.
  - now destruct db.
  - intros s _. destruct (sale_customer_id s) as [k|]; [|reflexivity].
    rewrite existsb_none; [reflexivity|].
    intros c I. now rewrite (H c I).
Qed.

Lemma DELETE_Products_missing (id : option Z) (db : database) :
  no_product db id -> DELETE_Products id db = Returned (O, db).
Proof.
  intros H. unfold DELETE_Products. cbv zeta.
  assert (G : forall k, existsb (fun p =>
              match id with Some z => key_is z (prod_id p) | None => false end
              && Pos.eqb (prod_id p) k) (Products db) = false).
  { intros k. apply existsb_none. intros p I. now rewrite (H p I). }
  rewrite existsb_none by (intros i _; apply G). cbn [negb check obind].
  rewrite rowcount_none, filter_all by exact H.
  rewrite (filter_all (fun u => existsb _ (Products db))) by (intros u _; apply G).
  now destruct db.
Qed.

Lemma UPDATE_Customers_missing (name address phone email : option string)
    (id : option Z) (db : database) :
  no_customer db id ->
  UPDATE_Customers name address phone email id db = Returned (O, db).
Proof.
  intros H. unfold UPDATE_Customers. cbv zeta. now rewrite rowcount_none by exact H.
Qed.

Lemma UPDATE_Products_missing (name description category : option string)
    (purchase_price selling_price : Q) (id : option Z) (db : database) :
  no_product db id ->
  UPDATE_Products name description category purchase_price selling_price id db
    = Returned (O, db).
Proof.
  intros H. unfold UPDATE_Products. cbv zeta. now rewrite rowcount_none by exact H.
Qed.

Lemma validate_required_nonzero (z : Z) (field_name : string) :
  z <> 0 -> validate_required (Some z) field_name = Returned (Some z).
Proof.
  intros N. apply validate_required_id. split; [reflexivity|]. now exists z.
Qed.

(** The decorator changes what is raised, never the state. *)
Lemma handle_db_error_state {A} (func : M A) (w : world) :
  snd (handle_db_error func w) = snd (func w).
Proof.
  unfold handle_db_error, try_except, raise.
  destruct (func w) as [[a|e] w']; [reflexivity|].
  destruct e; try reflexivity.
  repeat (destruct (contains _ msg); [reflexivity|]). reflexivity.
Qed.

Section NotFound.

Variable w : world.
Variable db : database.
Hypothesis on_disk : disk w = Some db.

(** The four functions on a key that matches no row. *)
Lemma delete_customer_missing (z : Z) :
  z <> 0 -> no_customer db (Some z) ->
  delete_customer (Some z) w = (Returned false, world_of db (open_conns w)).
Proof.
  intros N H. unfold delete_customer, handle_db_error, try_except.
  unfold bind at 1, lift at 1. rewrite (validate_required_nonzero z _ N).
  unfold bind at 1, get_db_connection at 1, try_finally.
  unfold bind at 1, execute at 1. cbn [work disk open_conns]. rewrite on_disk.
  rewrite (DELETE_Customers_missing _ db H). reflexivity.
Qed.

Lemma delete_product_missing (z : Z) :
  z <> 0 -> no_product db (Some z) ->
  delete_product (Some z) w = (Returned false, world_of db (open_conns w)).
Proof.
  intros N H. unfold delete_product, handle_db_error, try_except.
  unfold bind at 1, lift at 1. rewrite (validate_required_nonzero z _ N).
  unfold bind at 1, get_db_connection at 1, try_finally.
  unfold bind at 1, execute at 1. cbn [work disk open_conns]. rewrite on_disk.
  rewrite (DELETE_Products_missing _ db H). reflexivity.
Qed.

Lemma update_customer_missing (z : Z) (name phone email address : option string) :
  z <> 0 -> no_customer db (Some z) ->
  returned (validate_customer_data name phone email) = true ->
  update_customer (Some z) name phone email address w =
  (Raised (DatabaseError
     ("Customer with ID " ++ str_of_Z z ++ " not found for update.")),
   world_of db (open_conns w)).
Proof.
  intros N H V. unfold update_customer, handle_db_error, try_except.
  unfold bind at 1, lift at 1. rewrite (validate_required_nonzero z _ N).
  unfold bind at 1, lift at 1.
  destruct (validate_customer_data name phone email) as [[[n p] e]|]; [|discriminate V].
  unfold bind at 1, get_db_connection at 1, try_finally.
  unfold bind at 1, execute at 1. cbn [work disk open_conns]. rewrite on_disk.
  rewrite (UPDATE_Customers_missing _ _ _ _ _ db H). reflexivity.
Qed.

Lemma update_product_missing (z : Z) (name description category : option string)
    (purchase_price selling_price : option Q) :
  z <> 0 -> no_product db (Some z) ->
  returned (validate_product_data name purchase_price selling_price None) = true ->
  returned (validate_required category "Product category") = true ->
  update_product (Some z) name description category purchase_price selling_price w =
  (Raised (DatabaseError
     ("Product with ID " ++ str_of_Z z ++ " not found for update.")),
   world_of db (open_conns w)).
Proof.
  intros N H V C. unfold update_product, handle_db_error, try_except.
  unfold bind at 1, lift at 1. rewrite (validate_required_nonzero z _ N).
  unfold bind at 1, lift at 1.
  destruct (validate_product_data _ _ _ _) as [[[[n pp] sp] q]|]; [|discriminate V].
  unfold bind at 1, lift at 1.
  destruct (validate_required category _) as [c|]; [|discriminate C].
  unfold bind at 1, get_db_connection at 1, try_finally.
  unfold bind at 1, execute at 1. cbn [work disk open_conns]. rewrite on_disk.
  rewrite (UPDATE_Products_missing _ _ _ _ _ _ db H). reflexivity.
Qed.


End NotFound.



(* ================================================================== *)
(** * Connections *)
(* ================================================================== *)

Lemma releases_ret {A} (a : A) : releases (ret a).
Proof. now intros w. Qed.

Lemma releases_raise {A} (e : exn) : releases (@raise A e).
Proof. now intros w. Qed.

Lemma releases_lift {A} (o : outcome A) : releases (lift o).
Proof. now intros w. Qed.

Lemma releases_bind {A B} (m : M A) (k : A -> M B) :
  releases m -> (forall a, releases (k a)) -> releases (bind m k).
Proof.
  intros Hm Hk w. unfold bind. specialize (Hm w).
  destruct (m w) as [[a|e] w1]; cbn [snd] in *.
  - now rewrite Hk.
  - exact Hm.
Qed.

Lemma releases_try_except {A} (body : M A) (handler : exn -> M A) :
  releases body -> (forall e, releases (handler e)) ->
  releases (try_except body handler).
Proof.
  intros Hb Hh w. unfold try_except. specialize (Hb w).
  destruct (body w) as [[a|e] w1]; cbn [snd] in *.
  - exact Hb.
  - now rewrite Hh.
Qed.

Lemma releases_execute {A} (table : string) (stmt : statement A) :
  releases (execute table stmt).
Proof.
  intros w. unfold execute. destruct (work w) as [db|]; [|reflexivity].
  now destruct (stmt db) as [[a db']|e].
Qed.

Lemma releases_commit : releases conn_commit.
Proof. now intros w. Qed.

Lemma releases_rollback : releases conn_rollback.
Proof. now intros w. Qed.

Lemma releases_for_each {X} (xs : list X) (body : X -> M unit) :
  (forall x, releases (body x)) -> releases (for_each xs body).
Proof.
  intros H. induction xs as [|x xs IH]; cbn [for_each].
  - apply releases_ret.
  - apply releases_bind; [apply H | intros _; exact IH].
Qed.

Lemma releases_handle_db_error {A} (func : M A) :
  releases func -> releases (handle_db_error func).
Proof.
  intros H w. now rewrite handle_db_error_state.
Qed.

(** The idiom of the module: [conn = get_db_connection()] followed by
    [try: ... finally: conn.close()] closes what it opened, whatever the
    body does. *)
Lemma releases_scoped {A} (body : M A) :
  releases body ->
  releases (get_db_connection ;; try_finally body conn_close).
Proof.
  intros H w. unfold bind, get_db_connection, try_finally, conn_close.
  specialize (H {| disk := disk w; work := disk w; open_conns := S (open_conns w) |}).
  destruct (body _) as [r w1]. cbn [snd open_conns] in *. now rewrite H.
Qed.

Create HintDb releases.
#[local] Hint Resolve releases_ret releases_raise releases_lift releases_execute
  releases_commit releases_rollback releases_scoped releases_handle_db_error
  : releases.

Ltac releases_tac :=
  repeat first
    [ progress eauto with releases
    | apply releases_handle_db_error
    | apply releases_scoped
    | apply releases_bind; [|intros ?]
    | apply releases_try_except; [|intros ?]
    | apply releases_for_each; intros ?
    | match goal with
      | |- releases (if ?b then _ else _) => destruct b
      | |- releases (match ?x with _ => _ end) => destruct x
      end ].

(** The functions that follow the idiom release their connection on
    every path, error paths included. *)
Lemma add_sale_releases (sale_items : list sale_line) (customer_id : option Z)
    (sale_date_str : option string) (now : string) :
  releases (add_sale sale_items customer_id sale_date_str now).
Proof. unfold add_sale, begin_transaction. releases_tac. Qed.

Lemma add_purchase_releases (product_id : option Z) (quantity cost_per_unit : option Q)
    (supplier purchase_date_str : option string) (now : string) :
  releases (add_purchase product_id quantity cost_per_unit supplier
              purchase_date_str now).
Proof. unfold add_purchase. releases_tac. Qed.

Lemma get_product_by_id_releases (product_id : option Z) :
  releases (get_product_by_id product_id).
Proof. unfold get_product_by_id. releases_tac. Qed.

Lemma update_product_releases (product_id : option Z)
    (name description category : option string)
    (purchase_price selling_price : option Q) :
  releases (update_product product_id name description category
              purchase_price selling_price).
Proof. unfold update_product. releases_tac. Qed.

Lemma delete_product_releases (product_id : option Z) :
  releases (delete_product product_id).
Proof. unfold delete_product. releases_tac. Qed.

Lemma update_customer_releases (customer_id : option Z)
    (name phone email address : option string) :
  releases (update_customer customer_id name phone email address).
Proof. unfold update_customer. releases_tac. Qed.

Lemma delete_customer_releases (customer_id : option Z) :
  releases (delete_customer customer_id).
Proof. unfold delete_customer. releases_tac. Qed.

Lemma add_customer_releases (name phone email address : option string) :
  releases (add_customer name phone email address).
Proof. unfold add_customer. releases_tac. Qed.

Lemma add_product_releases (name description category : option string)
    (purchase_price selling_price initial_stock : option Q) :
  releases (add_product name description category purchase_price selling_price
              initial_stock).
Proof. unfold add_product. releases_tac. Qed.

Lemma initialize_database_releases : releases initialize_database.
Proof. now intros w. Qed.

(** [dangerously_delete_all_data] closes its connection first thing and
    then runs [initialize_database], which follows the idiom. *)
Lemma dangerously_delete_all_data_releases : releases dangerously_delete_all_data.
Proof. now intros w. Qed.

(** On an initialised file [get_product_details_for_sale] reaches its
    [conn.close()]. *)
Lemma get_product_details_for_sale_releases_on_success (product_id : option Z)
    (w : world) (db : database) :
  disk w = Some db ->
  open_conns (snd (get_product_details_for_sale product_id w)) = open_conns w.
Proof.
  intros D. unfold get_product_details_for_sale. rewrite handle_db_error_state.
  unfold try_except, bind, get_db_connection, execute, SELECT_Products.
  cbn [work disk open_conns]. rewrite D.
  unfold conn_close. now destruct (find _ _).
Qed.

(** Without the schema the query raises, the handler of
    [sqlite3.Error] returns [None], and the connection stays open. *)
Lemma get_product_details_for_sale_without_schema (product_id : option Z)
    (w : world) :
  disk w = None ->
  get_product_details_for_sale product_id w =
  (Returned None,
   {| disk := None; work := None; open_conns := S (open_conns w) |}).
Proof.
  intros D.
  unfold get_product_details_for_sale, handle_db_error, try_except, bind,
    get_db_connection, execute.
  cbn [work disk open_conns]. rewrite D. reflexivity.
Qed.

(** C9.  [get_product_details_for_sale] has no [finally]: when the
    query raises a [sqlite3.Error] (here: the file holds no [Products]
    table), the handler returns [None] and [conn.close()] is never
    reached, so the call leaves one connection open where it found none.
    [get_product_by_id], which runs the same kind of query inside
    [try/finally], raises on the same file and closes its connection. *)
Theorem get_product_details_for_sale_leaks_connection :
  get_product_details_for_sale (Some 1) bare_file =
    (Returned None, {| disk := None; work := None; open_conns := 1 |}) /\
  raised_persistence (fst (get_product_by_id (Some 1) bare_file)) = true /\
  open_conns (snd (get_product_by_id (Some 1) bare_file)) = O.
Proof. repeat split. Qed.

(* ================================================================== *)
(** * One statement inside [try/finally] *)
(* ================================================================== *)

(** Most functions of the module run one statement between
    [get_db_connection()] and [conn.close()], commit it and then compute
    their result without touching the connection.  On an initialised file
    such a call commits what the statement produced, or leaves the file
    as it was when the statement raised. *)
Lemma scoped_statement_run {A B} (table : string) (stmt : statement A)
    (post : A -> M B) (w : world) (db : database) :
  disk w = Some db ->
  (forall x w1, snd (post x w1) = w1) ->
  (get_db_connection ;;
   try_finally (x <- execute table stmt ;; conn_commit ;; post x) conn_close) w =
  match stmt db with
  | Returned (x, db') =>
      (fst (post x {| disk := Some db'; work := Some db';
                      open_conns := S (open_conns w) |}),
       world_of db' (open_conns w))
  | Raised e => (Raised e, world_of db (open_conns w))
  end.
Proof.
  intros D P. unfold bind at 1, get_db_connection at 1, try_finally.
  unfold bind at 1, execute at 1. cbn [work disk open_conns]. rewrite D.
  destruct (stmt db) as [[x db']|e]; [|reflexivity].
  unfold bind at 1, conn_commit at 1. cbn [work disk open_conns].
  specialize (P x {| disk := Some db'; work := Some db';
                     open_conns := S (open_conns w) |}).
  destruct (post x _) as [r w2]. cbn [snd fst] in *. subst w2. reflexivity.
Qed.

(** On a file without the schema the statement cannot run. *)
Lemma scoped_statement_bare {A B} (table : string) (stmt : statement A)
    (post : A -> M B) (w : world) :
  disk w = None ->
  (get_db_connection ;;
   try_finally (x <- execute table stmt ;; conn_commit ;; post x) conn_close) w =
  (Raised (OperationalError ("no such table: " ++ table)),
   {| disk := None; work := None; open_conns := open_conns w |}).
Proof.
  intros D. unfold bind at 1, get_db_connection at 1, try_finally.
  unfold bind at 1, execute at 1. cbn [work disk open_conns]. rewrite D.
  reflexivity.
Qed.

(** The file after such a call. *)
Lemma scoped_statement_disk {A B} (table : string) (stmt : statement A)
    (post : A -> M B) (w : world) :
  (forall x w1, snd (post x w1) = w1) ->
  disk (snd ((get_db_connection ;;
              try_finally (x <- execute table stmt ;; conn_commit ;; post x)
                conn_close) w)) =
  match disk w with
  | Some db =>
      match stmt db with
      | Returned (_, db') => Some db'
      | Raised _ => Some db
      end
  | None => None
  end.
Proof.
  intros P. destruct (disk w) as [db|] eqn:D.
  - rewrite (scoped_statement_run table stmt post w db D P).
    now destruct (stmt db) as [[x db']|e].
  - now rewrite (scoped_statement_bare table stmt post w D).
Qed.

Lemma lift_bind_state {A B} (o : outcome A) (k : A -> M B) (w : world) :
  snd ((x <- lift o ;; k x) w) =
  match o with Returned a => snd (k a w) | Raised _ => w end.
Proof. unfold bind, lift. now destruct o. Qed.

Lemma lift_bind_run {A B} (o : outcome A) (k : A -> M B) (w : world) :
  (x <- lift o ;; k x) w =
  match o with Returned a => k a w | Raised e => (Raised e, w) end.
Proof. unfold bind, lift. now destruct o. Qed.

(** What the decorator does to the outcome. *)
Lemma handle_db_error_returned {A} (func : M A) (w : world) (a : A) :
  fst (func w) = Returned a -> fst (handle_db_error func w) = Returned a.
Proof.
  unfold handle_db_error, try_except.
  destruct (func w) as [[a'|e] w']; cbn [fst]; [auto | discriminate].
Qed.

Lemma handle_db_error_application {A} (func : M A) (w : world) (e : exn) :
  fst (func w) = Raised e -> is_application_error e = true ->
  fst (handle_db_error func w) = Raised e.
Proof.
  unfold handle_db_error, try_except.
  destruct (func w) as [[a'|e'] w']; cbn [fst]; [discriminate|].
  intros [= ->] H. now destruct e.
Qed.

(* ================================================================== *)
(** * What can be raised *)
(* ================================================================== *)

Ltac raises_cases :=
  repeat match goal with
  | |- context [match ?x with _ => _ end] => destruct x
  | |- context [if ?b then _ else _] => destruct b
  end;
  cbn [obind]; first [discriminate | now intros [= <-]].

Lemma validate_integer_raises (value : option Q) (field_name : string)
    (min_value max_value : option Z) (e : exn) :
  validate_integer value field_name min_value max_value = Raised e ->
  is_validation_failure e = true.
Proof. unfold validate_integer. raises_cases. Qed.

Lemma validate_phone_raises (phone : option string) (e : exn) :
  validate_phone phone = Raised e -> is_validation_failure e = true.
Proof. unfold validate_phone. raises_cases. Qed.

Lemma validate_email_raises (email : option string) (e : exn) :
  validate_email email = Raised e -> is_validation_failure e = true.
Proof. unfold validate_email. raises_cases. Qed.

Lemma validate_product_data_raises (name : option string)
    (purchase_price selling_price quantity : option Q) (e : exn) :
  validate_product_data name purchase_price selling_price quantity = Raised e ->
  is_validation_failure e = true.
Proof.
  unfold validate_product_data. intros V.
  apply obind_raised in V as [V | (? & _ & V)];
    [now apply validate_required_raises in V|].
  apply obind_raised in V as [V | (? & _ & V)];
    [now apply validate_numeric_raises in V|].
  apply obind_raised in V as [V | (? & _ & V)];
    [now apply validate_numeric_raises in V|].
  destruct quantity; [|discriminate V].
  apply obind_raised in V as [V | (? & _ & V)];
    [now apply validate_integer_raises in V | discriminate V].
Qed.

Lemma validate_customer_data_raises (name phone email : option string) (e : exn) :
  validate_customer_data name phone email = Raised e ->
  is_validation_failure e = true.
Proof.
  unfold validate_customer_data. intros V.
  apply obind_raised in V as [V | (? & _ & V)];
    [now apply validate_required_raises in V|].
  apply obind_raised in V as [V | (? & _ & V)].
  { destruct (py_not phone); [discriminate V | now apply validate_phone_raises in V]. }
  apply obind_raised in V as [V | (? & _ & V)]; [|discriminate V].
  destruct (py_not email); [discriminate V | now apply validate_email_raises in V].
Qed.

(** A statement raises nothing but the errors of the storage engine. *)
Lemma INSERT_Customers_raises (name address phone email : option string)
    (db : database) (e : exn) :
  INSERT_Customers name address phone email db = Raised e ->
  is_sqlite_error e = true.
Proof. unfold INSERT_Customers, check. raises_cases. Qed.

Lemma UPDATE_Customers_raises (name address phone email : option string)
    (id : option Z) (db : database) (e : exn) :
  UPDATE_Customers name address phone email id db = Raised e ->
  is_sqlite_error e = true.
Proof.
  unfold UPDATE_Customers, check. cbv zeta.
  destruct (rowcount _ _); [discriminate|].
  destruct name; [|now intros [= <-]].
  destruct (negb _); cbn [obind]; [|now intros [= <-]].
  destruct (negb _); cbn [obind]; [discriminate | now intros [= <-]].
Qed.

Lemma DELETE_Customers_raises (id : option Z) (db : database) (e : exn) :
  DELETE_Customers id db = Raised e -> is_sqlite_error e = true.
Proof. unfold DELETE_Customers. discriminate. Qed.

Lemma INSERT_Products_raises (name description category : option string)
    (purchase_price selling_price : Q) (initial_stock : option Z)
    (db : database) (e : exn) :
  INSERT_Products name description category purchase_price selling_price
    initial_stock db = Raised e ->
  is_sqlite_error e = true.
Proof.
  unfold INSERT_Products, check.
  destruct name; [|now intros [= <-]].
  destruct initial_stock; [|now intros [= <-]].
  cbv zeta.
  destruct (Qle_bool 0 purchase_price); cbn [obind]; [|now intros [= <-]].
  destruct (Qle_bool 0 selling_price); cbn [obind]; [|now intros [= <-]].
  destruct (Qle_bool 0 (inject_Z _)); cbn [obind]; [|now intros [= <-]].
  destruct (negb _); cbn [obind]; [discriminate | now intros [= <-]].
Qed.

Lemma UPDATE_Products_raises (name description category : option string)
    (purchase_price selling_price : Q) (id : option Z) (db : database) (e : exn) :
  UPDATE_Products name description category purchase_price selling_price id db
    = Raised e ->
  is_sqlite_error e = true.
Proof.
  unfold UPDATE_Products, check. cbv zeta.
  destruct (rowcount _ _); [discriminate|].
  destruct name; [|now intros [= <-]].
  destruct (Qle_bool 0 purchase_price); cbn [obind]; [|now intros [= <-]].
  destruct (Qle_bool 0 selling_price); cbn [obind]; [|now intros [= <-]].
  destruct (negb _); cbn [obind]; [discriminate | now intros [= <-]].
Qed.

Lemma DELETE_Products_raises (id : option Z) (db : database) (e : exn) :
  DELETE_Products id db = Raised e -> is_sqlite_error e = true.
Proof.
  unfold DELETE_Products, check. cbv zeta.
  destruct (negb _); cbn [obind]; [discriminate | now intros [= <-]].
Qed.

Lemma SELECT_Products_raises (id : option Z) (db : database) (e : exn) :
  SELECT_Products id db = Raised e -> is_sqlite_error e = true.
Proof. unfold SELECT_Products. discriminate. Qed.

(* ------------------------------------------------------------------ *)
(** ** The classes of exceptions of a computation *)

Lemma is_handled_sqlite (e : exn) : is_sqlite_error e = true -> is_handled e = true.
Proof. now destruct e. Qed.

Lemma is_handled_validation (e : exn) :
  is_validation_failure e = true -> is_handled e = true.
Proof. now destruct e. Qed.

Lemma raises_only_ret {A} (class : exn -> bool) (a : A) : raises_only class (ret a).
Proof. intros w e. discriminate. Qed.

Lemma raises_only_raise {A} (class : exn -> bool) (e : exn) :
  class e = true -> raises_only class (@raise A e).
Proof. intros H w e' [= <-]. exact H. Qed.

Lemma raises_only_lift {A} (class : exn -> bool) (o : outcome A) :
  (forall e, o = Raised e -> class e = true) -> raises_only class (lift o).
Proof. intros H w e E. now apply H. Qed.

Lemma raises_only_bind {A B} (class : exn -> bool) (m : M A) (k : A -> M B) :
  raises_only class m -> (forall a, raises_only class (k a)) ->
  raises_only class (bind m k).
Proof.
  intros Hm Hk w e. unfold bind. specialize (Hm w).
  destruct (m w) as [[a|e'] w1]; cbn [fst] in *.
  - apply Hk.
  - intros [= <-]. now apply Hm.
Qed.

Lemma raises_only_execute {A} (class : exn -> bool) (table : string)
    (stmt : statement A) :
  (forall e, is_sqlite_error e = true -> class e = true) ->
  (forall db e, stmt db = Raised e -> is_sqlite_error e = true) ->
  raises_only class (execute table stmt).
Proof.
  intros Hc Hs w e. unfold execute. destruct (work w) as [db|].
  - specialize (Hs db). destruct (stmt db) as [[a db']|e']; cbn [fst].
    + discriminate.
    + intros [= <-]. apply Hc. now apply Hs.
  - cbn [fst]. intros [= <-]. now apply Hc.
Qed.

Lemma raises_only_close (class : exn -> bool) : raises_only class conn_close.
Proof. intros w e. discriminate. Qed.

Lemma raises_only_commit (class : exn -> bool) : raises_only class conn_commit.
Proof. intros w e. discriminate. Qed.

Lemma raises_only_rollback (class : exn -> bool) : raises_only class conn_rollback.
Proof. intros w e. discriminate. Qed.

Lemma raises_only_connect (class : exn -> bool) : raises_only class get_db_connection.
Proof. intros w e. discriminate. Qed.

Lemma raises_only_try_finally {A} (class : exn -> bool) (body : M A) :
  raises_only class body -> raises_only class (try_finally body conn_close).
Proof.
  intros H w e. unfold try_finally, conn_close. specialize (H w).
  destruct (body w) as [r w1]. cbn [fst] in *. apply H.
Qed.

Lemma raises_only_try_except {A} (inner class : exn -> bool) (body : M A)
    (handler : exn -> M A) :
  raises_only inner body ->
  (forall e, inner e = true -> raises_only class (handler e)) ->
  raises_only class (try_except body handler).
Proof.
  intros Hb Hh w e. unfold try_except. specialize (Hb w).
  destruct (body w) as [[a|e'] w1]; cbn [fst] in *.
  - discriminate.
  - apply Hh. now apply Hb.
Qed.

Lemma raises_only_for_each {X} (class : exn -> bool) (xs : list X)
    (body : X -> M unit) :
  (forall x, raises_only class (body x)) -> raises_only class (for_each xs body).
Proof.
  intros H. induction xs as [|x xs IH]; cbn [for_each].
  - apply raises_only_ret.
  - apply raises_only_bind; [apply H | intros _; exact IH].
Qed.

(** The decorator turns the errors of the storage engine into
    [DatabaseError] and passes the two failure kinds of the application
    on as they are. *)
Lemma raises_only_handle_db_error {A} (func : M A) :
  raises_only is_handled func ->
  raises_only is_application_error (handle_db_error func).
Proof.
  intros H. unfold handle_db_error.
  apply (raises_only_try_except is_handled); [exact H|].
  intros e He. destruct e; try discriminate He;
    try (apply raises_only_raise; reflexivity).
  repeat (destruct (contains _ msg); [apply raises_only_raise; reflexivity|]).
  apply raises_only_raise; reflexivity.
Qed.

Ltac validator_raises :=
  first [ apply validate_required_raises
        | apply validate_numeric_raises
        | apply validate_customer_data_raises
        | apply validate_product_data_raises
        | apply validate_lines_raises_validation ].

Ltac statement_raises :=
  first [ apply INSERT_Customers_raises | apply UPDATE_Customers_raises
        | apply DELETE_Customers_raises | apply INSERT_Products_raises
        | apply UPDATE_Products_raises | apply DELETE_Products_raises
        | apply SELECT_Products_raises | apply INSERT_Purchases_raises
        | apply INSERT_Sales_raises | apply INSERT_SaleItems_raises ].

Ltac raises_step :=
  lazymatch goal with
  | |- raises_only _ (bind _ _) => apply raises_only_bind; [|intros ?]
  | |- raises_only _ (ret _) => apply raises_only_ret
  | |- raises_only _ conn_commit => apply raises_only_commit
  | |- raises_only _ conn_rollback => apply raises_only_rollback
  | |- raises_only _ conn_close => apply raises_only_close
  | |- raises_only _ get_db_connection => apply raises_only_connect
  | |- raises_only _ (raise _) => apply raises_only_raise; reflexivity
  | |- raises_only _ (try_finally _ conn_close) => apply raises_only_try_finally
  | |- raises_only _ (for_each _ _) => apply raises_only_for_each; intros ?
  | |- raises_only _ (lift _) =>
      let e := fresh "e" in
      let E := fresh "E" in
      let V := fresh "V" in
      apply raises_only_lift; intros e E;
      assert (V : is_validation_failure e = true) by (revert E; validator_raises);
      destruct e; first [reflexivity | discriminate V]
  | |- raises_only _ (execute _ _) =>
      apply raises_only_execute;
      [ let e := fresh "e" in
        let S := fresh "S" in
        intros e S; destruct e; first [reflexivity | discriminate S]
      | intros ? ?; statement_raises ]
  | |- raises_only _ (if ?b then _ else _) => destruct b
  | |- raises_only _ (match ?x with _ => _ end) => destruct x
  end.

Ltac raises_tac := repeat raises_step.



(* ================================================================== *)
(** * Validation comes before any write *)
(* ================================================================== *)

Lemma validates_first_lift {A B} (o : outcome A) (k : A -> M B) :
  (forall a, validates_first (k a)) -> validates_first (x <- lift o ;; k x).
Proof.
  intros H w e w'. rewrite lift_bind_run. destruct o as [a|e0].
  - apply H.
  - now intros [= _ <-].
Qed.

(** What raises no [ValidationError] at all validates first. *)
Lemma validates_first_never {A} (m : M A) :
  raises_only is_not_validation m -> validates_first m.
Proof.
  intros H w e w' E V. specialize (H w e). rewrite E in H.
  specialize (H eq_refl). unfold is_not_validation in H. rewrite V in H.
  discriminate H.
Qed.

Lemma validates_first_raise {A} (e : exn) : validates_first (@raise A e).
Proof. now intros w e' w' [= _ <-]. Qed.

Lemma validates_first_handle_db_error {A} (func : M A) :
  validates_first func -> validates_first (handle_db_error func).
Proof.
  intros H w e w'. unfold handle_db_error, try_except. specialize (H w).
  destruct (func w) as [[a|e0] w0]; [discriminate|].
  unfold raise. destruct e0;
    try (intros [= <- <-] V; first [now apply (H _ _ eq_refl) | discriminate V]).
  repeat (destruct (contains _ msg); [intros [= <- _] V; discriminate V|]).
  intros [= <- _] V. discriminate V.
Qed.

Ltac validates_tac :=
  repeat lazymatch goal with
  | |- validates_first (handle_db_error _) => apply validates_first_handle_db_error
  | |- validates_first (bind (lift _) _) => apply validates_first_lift; intros ?
  | |- validates_first (raise _) => apply validates_first_raise
  | |- validates_first (if ?b then _ else _) => destruct b
  | |- validates_first (match ?x with _ => _ end) => destruct x
  | |- validates_first _ => apply validates_first_never; raises_tac
  end.

(** X2.  Every function that validates its arguments does so before it
    opens a connection: when the call raises a [ValidationError], the
    world after the call is the world before it (no connection opened,
    nothing written). *)
Theorem validation_failures_leave_no_trace :
  (forall name phone email address,
     validates_first (add_customer name phone email address)) /\
  (forall id name phone email address,
     validates_first (update_customer id name phone email address)) /\
  (forall id, validates_first (delete_customer id)) /\
  (forall name description category purchase_price selling_price initial_stock,
     validates_first
       (add_product name description category purchase_price selling_price
          initial_stock)) /\
  (forall id, validates_first (get_product_by_id id)) /\
  (forall id name description category purchase_price selling_price,
     validates_first
       (update_product id name description category purchase_price selling_price)) /\
  (forall id, validates_first (delete_product id)) /\
  (forall id quantity cost_per_unit supplier purchase_date_str now,
     validates_first
       (add_purchase id quantity cost_per_unit supplier purchase_date_str now)) /\
  (forall sale_items customer_id sale_date_str now,
     validates_first (add_sale sale_items customer_id sale_date_str now)).
Proof.
  repeat split; intros.
  - unfold add_customer. validates_tac.
  - unfold update_customer. validates_tac.
  - unfold delete_customer. validates_tac.
  - unfold add_product. validates_tac.
  - unfold get_product_by_id. validates_tac.
  - unfold update_product. validates_tac.
  - unfold delete_product. validates_tac.
  - unfold add_purchase. validates_tac.
  - unfold add_sale, begin_transaction. validates_tac.
    apply (raises_only_try_except is_not_validation).
    + raises_tac.
    + intros e He. raises_tac. discriminate He.
Qed.

Lemma validation_failures_leave_no_trace_witness :
  add_purchase (Some 1) (Some 0%Q) (Some 5%Q) None None "" (world_of shop 3)
    = (Raised (ValidationError "Purchase quantity doit être supérieur ou égal à 1."),
       world_of shop 3) /\
  world_of shop 3 = world_of shop 3.
Proof.
  assert (R : add_purchase (Some 1) (Some 0%Q) (Some 5%Q) None None ""
                (world_of shop 3)
              = (Raised (ValidationError
                   "Purchase quantity doit être supérieur ou égal à 1."),
                 world_of shop 3)) by reflexivity.
  split; [exact R|].
  destruct validation_failures_leave_no_trace as (_ & _ & _ & _ & _ & _ & _ & P & _).
  exact (P (Some 1) (Some 0%Q) (Some 5%Q) None None ""%string
           (world_of shop 3) _ _ R eq_refl).
Defined.

(* ================================================================== *)
(** * Keeping a property of the file *)
(* ================================================================== *)

Lemma preserves_handle_db_error {A} (P : database -> Prop) (func : M A) :
  preserves P func -> preserves P (handle_db_error func).
Proof. intros H w. rewrite handle_db_error_state. apply H. Qed.

Lemma preserves_lift {A B} (P : database -> Prop) (o : outcome A) (k : A -> M B) :
  (forall a, preserves P (k a)) -> preserves P (x <- lift o ;; k x).
Proof.
  intros H w. rewrite lift_bind_state. destruct o; [apply H | auto].
Qed.

Lemma preserves_raise {A} (P : database -> Prop) (e : exn) : preserves P (@raise A e).
Proof. now intros w. Qed.

Lemma preserves_scoped_statement {A B} (P : database -> Prop) (table : string)
    (stmt : statement A) (post : A -> M B) :
  (forall db x db', stmt db = Returned (x, db') -> P db -> P db') ->
  (forall x w1, snd (post x w1) = w1) ->
  preserves P
    (get_db_connection ;;
     try_finally (x <- execute table stmt ;; conn_commit ;; post x) conn_close).
Proof.
  intros Hs Hp w Hw db'. rewrite (scoped_statement_disk table stmt post w Hp).
  destruct (disk w) as [db|] eqn:D; [|discriminate].
  specialize (Hs db). destruct (stmt db) as [[x db1]|e].
  - intros [= <-]. eapply Hs; [reflexivity | now apply Hw].
  - intros [= <-]. now apply Hw.
Qed.

(** The decorator passes a validation failure on as it is. *)
Lemma handle_db_error_run_validation {A} (func : M A) (w : world) (e : exn) :
  func w = (Raised e, w) -> is_validation_failure e = true ->
  handle_db_error func w = (Raised e, w).
Proof.
  intros E V. unfold handle_db_error, try_except. rewrite E.
  now destruct e.
Qed.

(** [add_sale] leaves the file as it was whenever it raises. *)
Lemma add_sale_raised (sale_items : list sale_line) (customer_id : option Z)
    (sale_date_str : option string) (now : string) (w w' : world) (e : exn) :
  add_sale sale_items customer_id sale_date_str now w = (Raised e, w') ->
  disk w' = disk w /\ open_conns w' = open_conns w.
Proof.
  intros H. split.
  2:{ pose proof (add_sale_releases sale_items customer_id sale_date_str now w) as R.
      now rewrite H in R. }
  destruct sale_items as [|item0 rest0] eqn:Items; [now injection H as _ <-|].
  rewrite <- Items in *.
  assert (N : sale_items <> []) by now rewrite Items.
  destruct (validate_lines sale_items 0) as [t|e0] eqn:V.
  - destruct (disk w) as [db|] eqn:D.
    + rewrite (add_sale_run _ _ _ _ _ db t D N V) in H.
      destruct (sale_transaction _ _ _ _ _) as [[id' db']|e1]; [discriminate H|].
      now injection H as _ <-.
    + revert H. unfold add_sale.
      replace (py_not sale_items) with false by now rewrite Items.
      unfold handle_db_error, try_except at 1.
      unfold bind at 1, lift at 1. rewrite V.
      unfold bind at 1, lift at 1. rewrite (validate_total _ _ V).
      unfold bind at 1, get_db_connection at 1.
      unfold try_finally, try_except, begin_transaction.
      unfold bind at 1, ret at 1. unfold bind at 1, execute at 1.
      cbn [work disk open_conns]. rewrite D.
      unfold bind, conn_rollback, conn_close, raise. now intros [= _ <-].
  - revert H. unfold add_sale.
    replace (py_not sale_items) with false by now rewrite Items.
    rewrite (handle_db_error_run_validation _ w e0).
    + now intros [= _ <-].
    + rewrite lift_bind_run, V. reflexivity.
    + now apply validate_lines_raises_validation in V.
Qed.

(* ================================================================== *)
(** * The sale as a unit *)
(* ================================================================== *)

(** X3.  [add_sale] is all or nothing: whenever it raises, for whatever
    reason (an invalid line, an unknown customer or product, not enough
    stock, a file without the schema), the committed file is what it was
    before the call and the connection has been closed. *)
Theorem add_sale_all_or_nothing (sale_items : list sale_line)
    (customer_id : option Z) (sale_date_str : option string) (now : string)
    (w w' : world) (e : exn) :
  add_sale sale_items customer_id sale_date_str now w = (Raised e, w') ->
  disk w' = disk w /\ open_conns w' = open_conns w.
Proof. apply add_sale_raised. Qed.

Lemma add_sale_all_or_nothing_witness :
  add_sale [line 1 2 10; line 9 1 10] (Some 4) None "" (world_of shop 0)
    = (Raised (DatabaseError "Sale recording failed: FOREIGN KEY constraint failed"),
       world_of shop 0) /\
  disk (world_of shop 0) = disk (world_of shop 0) /\
  open_conns (world_of shop 0) = open_conns (world_of shop 0).
Proof.
  assert (R : add_sale [line 1 2 10; line 9 1 10] (Some 4) None "" (world_of shop 0)
              = (Raised (DatabaseError
                   "Sale recording failed: FOREIGN KEY constraint failed"),
                 world_of shop 0)) by (vm_compute; reflexivity).
  split; [exact R|].
  exact (add_sale_all_or_nothing _ _ _ _ _ _ _ R).
Defined.

(** What a line that is inserted leaves alone. *)
Lemma INSERT_SaleItems_frame (sale : positive) (item : sale_line)
    (db db' : database) (id : positive) :
  INSERT_SaleItems sale (product_id item) (quantity item) (price_at_sale item) db
    = Returned (id, db') ->
  Customers db' = Customers db /\ Purchases db' = Purchases db /\
  Sales db' = Sales db /\
  map prod_id (Products db') = map prod_id (Products db) /\
  exists row, SaleItems db' = (SaleItems db ++ [row])%list /\
              stores_line sale item row /\ item_id row = id.
Proof.
  unfold INSERT_SaleItems.
  destruct (product_id item) as [z|] eqn:Ez; [|discriminate].
  destruct (quantity item) as [q|] eqn:Eq; [|discriminate].
  destruct (price_at_sale item) as [price|] eqn:Ep; [|discriminate].
  intros H. split_obind H.
  destruct (key_of z) as [k|] eqn:K; [|discriminate].
  apply key_of_some in K. subst z.
  unfold decrease_stock_on_sale in H. cbn [item_product_id item_quantity] in H.
  split_obind H. injection H as <- <-.
  apply adjust_stock_returned in C1 as (E & _). subst a.
  cbn [with_Products Customers Purchases Sales SaleItems Products].
  split; [reflexivity|]. split; [reflexivity|]. split; [reflexivity|]. split.
  - unfold set_where. rewrite map_map. apply map_ext. intros p.
    now destruct (Pos.eqb (prod_id p) k).
  - eexists. split; [reflexivity|]. split; [|reflexivity].
    unfold stores_line. cbn. auto.
Qed.

Lemma insert_lines_rows (sale : positive) (sale_items : list sale_line)
    (db db' : database) :
  insert_lines sale sale_items db = Returned db' ->
  Customers db' = Customers db /\ Purchases db' = Purchases db /\
  map prod_id (Products db') = map prod_id (Products db) /\
  exists rows, SaleItems db' = (SaleItems db ++ rows)%list /\
               Forall2 (stores_line sale) sale_items rows.
Proof.
  revert db. induction sale_items as [|item rest IH]; intros db; cbn [insert_lines].
  - intros [= <-]. split; [reflexivity|]. split; [reflexivity|]. split; [reflexivity|].
    exists []. split; [now rewrite app_nil_r | constructor].
  - intros H. apply obind_returned in H as ([id db1] & Step & H). cbn [snd] in H.
    apply INSERT_SaleItems_frame in Step as (C1 & P1 & _ & K1 & row & S1 & L1 & _).
    apply IH in H as (C2 & P2 & K2 & rows & S2 & F).
    split; [congruence|]. split; [congruence|]. split; [congruence|].
    exists (row :: rows). split.
    + rewrite S2, S1, <- app_assoc. reflexivity.
    + now constructor.
Qed.



(* ================================================================== *)
(** * The stock is never negative *)
(* ================================================================== *)

Lemma adjust_stock_stock_ok (k : positive) (delta : Q) (db db' : database) :
  adjust_stock k delta db = Returned db' -> stock_ok db -> stock_ok db'.
Proof.
  unfold adjust_stock, stock_ok. intros H I. split_obind H. injection H as <-.
  cbn [Products with_Products].
  rewrite forallb_forall in C. apply Forall_forall. intros p' Ip'.
  specialize (C p' Ip'). unfold set_where in Ip'.
  apply in_map_iff in Ip' as (p & E & Ip).
  rewrite Forall_forall in I. specialize (I p Ip).
  destruct (Pos.eqb (prod_id p) k) eqn:S; subst p'.
  - cbn [add_stock prod_id] in C. rewrite S in C. now apply Qle_bool_iff.
  - exact I.
Qed.

Lemma INSERT_Products_stock_ok (name description category : option string)
    (purchase_price selling_price : Q) (initial_stock : option Z)
    (db db' : database) (id : positive) :
  INSERT_Products name description category purchase_price selling_price
    initial_stock db = Returned (id, db') ->
  stock_ok db -> stock_ok db'.
Proof.
  unfold INSERT_Products, stock_ok.
  destruct name; [|discriminate]. destruct initial_stock; [|discriminate].
  cbv zeta. intros H I. split_obind H. injection H as <- <-. cbn [Products].
  apply Forall_app. split; [exact I|]. constructor; [|constructor].
  cbn [quantity_in_stock]. now apply Qle_bool_iff.
Qed.

Lemma UPDATE_Products_stock_ok (name description category : option string)
    (purchase_price selling_price : Q) (id : option Z) (db db' : database)
    (count : nat) :
  UPDATE_Products name description category purchase_price selling_price id db
    = Returned (count, db') ->
  stock_ok db -> stock_ok db'.
Proof.
  intros H I. apply UPDATE_Products_returned in H as [-> | (n & sel & ->)];
    [exact I|].
  unfold stock_ok in *. cbn [Products with_Products]. unfold set_where.
  apply Forall_forall. intros p' Ip'. apply in_map_iff in Ip' as (p & <- & Ip).
  rewrite Forall_forall in I. specialize (I p Ip). now destruct (sel p).
Qed.

Lemma DELETE_Products_stock_ok (id : option Z) (db db' : database) (count : nat) :
  DELETE_Products id db = Returned (count, db') -> stock_ok db -> stock_ok db'.
Proof.
  unfold DELETE_Products, stock_ok. cbv zeta. intros H I. split_obind H.
  injection H as _ <-. cbn [Products].
  apply Forall_forall. intros p Ip. apply filter_In in Ip as [Ip _].
  rewrite Forall_forall in I. now apply I.
Qed.

Lemma INSERT_Purchases_stock_ok (product_id : option Z) (quantity : Q)
    (purchase_date : string) (cost_per_unit : Q) (supplier : option string)
    (db db' : database) (id : positive) :
  INSERT_Purchases product_id quantity purchase_date cost_per_unit supplier db
    = Returned (id, db') ->
  stock_ok db -> stock_ok db'.
Proof.
  unfold INSERT_Purchases. destruct product_id as [z|]; [|discriminate].
  intros H I. split_obind H. destruct (key_of z); [|discriminate].
  unfold increase_stock_on_purchase in H. split_obind H. injection H as _ <-.
  eapply adjust_stock_stock_ok; [exact C1 | exact I].
Qed.

Lemma INSERT_SaleItems_stock_ok (sale : positive) (product_id : option Z)
    (quantity price_at_sale : option Q) (db db' : database) (id : positive) :
  INSERT_SaleItems sale product_id quantity price_at_sale db = Returned (id, db') ->
  stock_ok db -> stock_ok db'.
Proof.
  unfold INSERT_SaleItems.
  destruct product_id as [z|]; [|discriminate].
  destruct quantity as [q|]; [|discriminate].
  destruct price_at_sale as [price|]; [|discriminate].
  intros H I. split_obind H. destruct (key_of z); [|discriminate].
  unfold decrease_stock_on_sale in H. split_obind H. injection H as _ <-.
  eapply adjust_stock_stock_ok; [exact C1 | exact I].
Qed.

Lemma INSERT_Sales_Products (customer_id : option Z) (sale_date : string)
    (total_amount : Q) (db db' : database) (id : positive) :
  INSERT_Sales customer_id sale_date total_amount db = Returned (id, db') ->
  Products db' = Products db.
Proof. intros H. now apply INSERT_Sales_returned in H as (_ & P & _). Qed.

Lemma INSERT_Customers_Products (name address phone email : option string)
    (db db' : database) (id : positive) :
  INSERT_Customers name address phone email db = Returned (id, db') ->
  Products db' = Products db.
Proof.
  unfold INSERT_Customers. destruct name; [|discriminate].
  intros H. split_obind H. now injection H as _ <-.
Qed.

Lemma UPDATE_Customers_Products (name address phone email : option string)
    (id : option Z) (db db' : database) (count : nat) :
  UPDATE_Customers name address phone email id db = Returned (count, db') ->
  Products db' = Products db.
Proof.
  unfold UPDATE_Customers. cbv zeta. destruct (rowcount _ _).
  - now intros [= _ <-].
  - destruct name; [|discriminate]. intros H. split_obind H. now injection H as _ <-.
Qed.

Lemma DELETE_Customers_Products (id : option Z) (db db' : database) (count : nat) :
  DELETE_Customers id db = Returned (count, db') -> Products db' = Products db.
Proof. unfold DELETE_Customers. now intros [= _ <-]. Qed.

(** A property kept by the two INSERTs of the sale is kept by the whole
    transaction. *)
Lemma sale_transaction_keeps (P : database -> Prop) (customer_id : option Z)
    (sale_date : string) (total_amount : Q) (sale_items : list sale_line)
    (db db' : database) (id : positive) :
  (forall c d t x y i, INSERT_Sales c d t x = Returned (i, y) -> P x -> P y) ->
  (forall s p q r x y i, INSERT_SaleItems s p q r x = Returned (i, y) -> P x -> P y) ->
  sale_transaction customer_id sale_date total_amount sale_items db
    = Returned (id, db') ->
  P db -> P db'.
Proof.
  intros HS HI T I. unfold sale_transaction in T.
  apply obind_returned in T as ([id1 db1] & S & T). cbn [fst snd] in T.
  apply obind_returned in T as (db2 & L & T). injection T as _ <-.
  apply HS in S; [|exact I]. clear I. revert db1 S L.
  induction sale_items as [|item rest IH]; intros db1 I L; cbn [insert_lines] in L.
  - now injection L as <-.
  - apply obind_returned in L as ([i db3] & Step & L). cbn [snd] in L.
    apply (IH db3); [|exact L]. eapply HI; [exact Step | exact I].
Qed.

Lemma preserves_add_sale (P : database -> Prop) (sale_items : list sale_line)
    (customer_id : option Z) (sale_date_str : option string) (now : string) :
  (forall c d t x y i, INSERT_Sales c d t x = Returned (i, y) -> P x -> P y) ->
  (forall s p q r x y i, INSERT_SaleItems s p q r x = Returned (i, y) -> P x -> P y) ->
  preserves P (add_sale sale_items customer_id sale_date_str now).
Proof.
  intros HS HI w Hw.
  destruct (add_sale sale_items customer_id sale_date_str now w) as [[id|e] w'] eqn:R.
  - apply add_sale_returned in R as (db & db' & t & D & _ & _ & T & ->).
    intros db0 [= <-]. eapply sale_transaction_keeps; eauto.
  - apply add_sale_raised in R as [D _]. cbn [snd]. intros db0 E. apply Hw.
    congruence.
Qed.

Lemma preserves_initialize_database (P : database -> Prop) :
  P empty_database -> preserves P initialize_database.
Proof.
  intros H w Hw db. unfold initialize_database, bind, get_db_connection,
    try_finally, try_except, CREATE_IF_NOT_EXISTS, conn_commit, conn_close.
  cbn [disk work open_conns snd]. destruct (disk w) as [db0|] eqn:D.
  - intros [= <-]. now apply Hw.
  - now intros [= <-].
Qed.

Ltac pure_post :=
  let x := fresh "x" in
  let w1 := fresh "w1" in
  intros x w1;
  repeat match goal with
  | |- context [if ?b then _ else _] => destruct b
  | |- context [match ?y with _ => _ end] => destruct y
  end; reflexivity.

Ltac preserves_step :=
  lazymatch goal with
  | |- preserves _ (handle_db_error _) => apply preserves_handle_db_error
  | |- preserves _ (bind (lift _) _) => apply preserves_lift; intros ?
  | |- preserves _ (raise _) => apply preserves_raise
  | |- preserves _ (if ?b then _ else _) => destruct b
  | |- preserves _ (match ?x with _ => _ end) => destruct x
  | |- preserves _ (bind get_db_connection _) =>
      apply preserves_scoped_statement; [|pure_post]
  end.

(** X5.  No call of the data-access layer ever commits a negative
    stock: if every [quantity_in_stock] of the file is at least 0 before
    a call, the same holds after it, whether the call returns or raises. *)
Theorem stock_never_negative :
  preserves stock_ok initialize_database /\
  (forall name phone email address,
     preserves stock_ok (add_customer name phone email address)) /\
  (forall id name phone email address,
     preserves stock_ok (update_customer id name phone email address)) /\
  (forall id, preserves stock_ok (delete_customer id)) /\
  (forall name description category purchase_price selling_price initial_stock,
     preserves stock_ok
       (add_product name description category purchase_price selling_price
          initial_stock)) /\
  (forall id name description category purchase_price selling_price,
     preserves stock_ok
       (update_product id name description category purchase_price selling_price)) /\
  (forall id, preserves stock_ok (delete_product id)) /\
  (forall id quantity cost_per_unit supplier purchase_date_str now,
     preserves stock_ok
       (add_purchase id quantity cost_per_unit supplier purchase_date_str now)) /\
  (forall sale_items customer_id sale_date_str now,
     preserves stock_ok (add_sale sale_items customer_id sale_date_str now)).
Proof.
  repeat split; intros.
  - apply preserves_initialize_database. constructor.
  - unfold add_customer. repeat preserves_step.
    intros db x db' H. unfold stock_ok.
    now rewrite (INSERT_Customers_Products _ _ _ _ _ _ _ H).
  - unfold update_customer. repeat preserves_step.
    intros db x db' H. unfold stock_ok.
    now rewrite (UPDATE_Customers_Products _ _ _ _ _ _ _ _ H).
  - unfold delete_customer. repeat preserves_step.
    intros db x db' H. unfold stock_ok.
    now rewrite (DELETE_Customers_Products _ _ _ _ H).
  - unfold add_product. repeat preserves_step.
    intros db x db'. apply INSERT_Products_stock_ok.
  - unfold update_product. repeat preserves_step.
    intros db x db'. apply UPDATE_Products_stock_ok.
  - unfold delete_product. repeat preserves_step.
    intros db x db'. apply DELETE_Products_stock_ok.
  - unfold add_purchase. repeat preserves_step.
    intros db x db'. apply INSERT_Purchases_stock_ok.
  - apply preserves_add_sale.
    + intros c d t x y i H. unfold stock_ok.
      now rewrite (INSERT_Sales_Products _ _ _ _ _ _ H).
    + intros s p q r x y i. apply INSERT_SaleItems_stock_ok.
Qed.

Lemma stock_never_negative_witness :
  file_satisfies stock_ok (world_of shop 0) /\
  file_satisfies stock_ok
    (snd (add_sale [line 1 2 10] None None "2023-02-01 08:00:00" (world_of shop 0))).
Proof.
  assert (H : file_satisfies stock_ok (world_of shop 0)).
  { intros db [= <-]. repeat constructor. discriminate. }
  split; [exact H|].
  destruct stock_never_negative as (_ & _ & _ & _ & _ & _ & _ & _ & S).
  exact (S [line 1 2 10] None None "2023-02-01 08:00:00"%string _ H).
Defined.

(* ================================================================== *)
(** * Primary keys *)
(* ================================================================== *)

Lemma table_keys_ok_ext {R} (key : R -> positive) (rows rows' : list R) (seq : N) :
  map key rows' = map key rows ->
  table_keys_ok key rows seq -> table_keys_ok key rows' seq.
Proof.
  unfold table_keys_ok. intros E [D B]. split; [now rewrite E|].
  apply Forall_forall. intros r I.
  assert (Ik : In (key r) (map key rows)) by (rewrite <- E; now apply in_map).
  apply in_map_iff in Ik as (r0 & <- & I0).
  rewrite Forall_forall in B. now apply B.
Qed.

Lemma table_keys_ok_set_where {R} (key : R -> positive) (sel : R -> bool)
    (f : R -> R) (rows : list R) (seq : N) :
  (forall r, key (f r) = key r) ->
  table_keys_ok key rows seq -> table_keys_ok key (set_where sel f rows) seq.
Proof.
  intros Hf. apply table_keys_ok_ext. unfold set_where. rewrite map_map.
  apply map_ext. intros r. now destruct (sel r).
Qed.

Lemma NoDup_map_filter {R K} (key : R -> K) (keep : R -> bool) (rows : list R) :
  NoDup (map key rows) -> NoDup (map key (filter keep rows)).
Proof.
  induction rows as [|r rows IH]; cbn [map filter]; [auto|].
  intros D. inversion D as [|k ks N D']; subst.
  destruct (keep r); cbn [map]; [|auto].
  constructor; [|auto]. intros I. apply N.
  apply in_map_iff in I as (r0 & E & I0). apply filter_In in I0 as [I0 _].
  rewrite <- E. now apply in_map.
Qed.

Lemma table_keys_ok_filter {R} (key : R -> positive) (keep : R -> bool)
    (rows : list R) (seq : N) :
  table_keys_ok key rows seq -> table_keys_ok key (filter keep rows) seq.
Proof.
  unfold table_keys_ok. intros [D B]. split; [now apply NoDup_map_filter|].
  apply Forall_forall. intros r I. apply filter_In in I as [I _].
  rewrite Forall_forall in B. now apply B.
Qed.

(** AUTOINCREMENT hands out a key that no row of the table has. *)
Lemma table_keys_ok_fresh {R} (key : R -> positive) (rows : list R) (seq : N) (r : R) :
  table_keys_ok key rows seq -> In r rows -> key r <> N.succ_pos seq.
Proof.
  intros [_ B] I E. rewrite Forall_forall in B. specialize (B r I).
  rewrite E, N.succ_pos_spec in B. lia.
Qed.

Lemma table_keys_ok_append {R} (key : R -> positive) (rows : list R) (seq : N)
    (new : R) :
  key new = N.succ_pos seq ->
  table_keys_ok key rows seq ->
  table_keys_ok key (rows ++ [new]) (N.pos (N.succ_pos seq)).
Proof.
  intros E H. pose proof (table_keys_ok_fresh key rows seq) as F.
  destruct H as [D B]. split.
  - rewrite map_app. cbn [map].
    rewrite <- (rev_involutive (map key rows ++ [key new])).
    apply NoDup_rev. rewrite rev_app_distr. cbn [rev app].
    constructor.
    + rewrite <- in_rev. intros I. apply in_map_iff in I as (r0 & E0 & I0).
      apply (F r0 (conj D B) I0). congruence.
    + now apply NoDup_rev.
  - apply Forall_app. split.
    + apply Forall_forall. intros r I. rewrite Forall_forall in B.
      specialize (B r I). rewrite N.succ_pos_spec. lia.
    + constructor; [|constructor]. rewrite E. lia.
Qed.

Ltac keys_split :=
  unfold keys_ok in *; cbn [Customers Products Purchases Sales SaleItems
    seq_Customers seq_Products seq_Purchases seq_Sales seq_SaleItems with_Products];
  repeat match goal with H : _ /\ _ |- _ => destruct H end;
  refine (conj _ (conj _ (conj _ (conj _ _)))); try assumption.

Lemma adjust_stock_keys_ok (k : positive) (delta : Q) (db db' : database) :
  adjust_stock k delta db = Returned db' -> keys_ok db -> keys_ok db'.
Proof.
  intros H I. apply adjust_stock_returned in H as (-> & _). keys_split;
    now apply table_keys_ok_set_where.
Qed.

Lemma INSERT_Customers_keys_ok (name address phone email : option string)
    (db db' : database) (id : positive) :
  INSERT_Customers name address phone email db = Returned (id, db') ->
  keys_ok db -> keys_ok db'.
Proof.
  unfold INSERT_Customers. destruct name; [|discriminate].
  intros H I. split_obind H. injection H as _ <-. keys_split;
    now apply table_keys_ok_append.
Qed.

Lemma UPDATE_Customers_keys_ok (name address phone email : option string)
    (id : option Z) (db db' : database) (count : nat) :
  UPDATE_Customers name address phone email id db = Returned (count, db') ->
  keys_ok db -> keys_ok db'.
Proof.
  unfold UPDATE_Customers. cbv zeta. destruct (rowcount _ _).
  - now intros [= _ <-].
  - destruct name; [|discriminate]. intros H I. split_obind H.
    injection H as _ <-. keys_split; now apply table_keys_ok_set_where.
Qed.

Lemma DELETE_Customers_keys_ok (id : option Z) (db db' : database) (count : nat) :
  DELETE_Customers id db = Returned (count, db') -> keys_ok db -> keys_ok db'.
Proof.
  unfold DELETE_Customers. cbv zeta. intros [= _ <-] I. keys_split.
  - now apply table_keys_ok_filter.
  - eapply table_keys_ok_ext; [|eassumption]. rewrite map_map. apply map_ext.
    intros s. destruct (sale_customer_id s); [|reflexivity].
    now destruct (existsb _ _).
Qed.

Lemma INSERT_Products_keys_ok (name description category : option string)
    (purchase_price selling_price : Q) (initial_stock : option Z)
    (db db' : database) (id : positive) :
  INSERT_Products name description category purchase_price selling_price
    initial_stock db = Returned (id, db') ->
  keys_ok db -> keys_ok db'.
Proof.
  unfold INSERT_Products.
  destruct name; [|discriminate]. destruct initial_stock; [|discriminate].
  cbv zeta. intros H I. split_obind H. injection H as _ <-. keys_split;
    now apply table_keys_ok_append.
Qed.

Lemma UPDATE_Products_keys_ok (name description category : option string)
    (purchase_price selling_price : Q) (id : option Z) (db db' : database)
    (count : nat) :
  UPDATE_Products name description category purchase_price selling_price id db
    = Returned (count, db') ->
  keys_ok db -> keys_ok db'.
Proof.
  intros H I. apply UPDATE_Products_returned in H as [-> | (n & sel & ->)];
    [exact I|].
  keys_split; now apply table_keys_ok_set_where.
Qed.

Lemma DELETE_Products_keys_ok (id : option Z) (db db' : database) (count : nat) :
  DELETE_Products id db = Returned (count, db') -> keys_ok db -> keys_ok db'.
Proof.
  unfold DELETE_Products. cbv zeta. intros H I. split_obind H.
  injection H as _ <-. keys_split; now apply table_keys_ok_filter.
Qed.

Lemma INSERT_Purchases_keys_ok (product_id : option Z) (quantity : Q)
    (purchase_date : string) (cost_per_unit : Q) (supplier : option string)
    (db db' : database) (id : positive) :
  INSERT_Purchases product_id quantity purchase_date cost_per_unit supplier db
    = Returned (id, db') ->
  keys_ok db -> keys_ok db'.
Proof.
  unfold INSERT_Purchases. destruct product_id as [z|]; [|discriminate].
  intros H I. split_obind H. destruct (key_of z); [|discriminate].
  unfold increase_stock_on_purchase in H. split_obind H. injection H as _ <-.
  eapply adjust_stock_keys_ok; [exact C1|]. keys_split;
    now apply table_keys_ok_append.
Qed.

Lemma INSERT_Sales_keys_ok (customer_id : option Z) (sale_date : string)
    (total_amount : Q) (db db' : database) (id : positive) :
  INSERT_Sales customer_id sale_date total_amount db = Returned (id, db') ->
  keys_ok db -> keys_ok db'.
Proof.
  unfold INSERT_Sales. intros H I. split_obind H. injection H as _ <-.
  keys_split; now apply table_keys_ok_append.
Qed.

Lemma INSERT_SaleItems_keys_ok (sale : positive) (product_id : option Z)
    (quantity price_at_sale : option Q) (db db' : database) (id : positive) :
  INSERT_SaleItems sale product_id quantity price_at_sale db = Returned (id, db') ->
  keys_ok db -> keys_ok db'.
Proof.
  unfold INSERT_SaleItems.
  destruct product_id as [z|]; [|discriminate].
  destruct quantity as [q|]; [|discriminate].
  destruct price_at_sale as [price|]; [|discriminate].
  intros H I. split_obind H. destruct (key_of z); [|discriminate].
  unfold decrease_stock_on_sale in H. split_obind H. injection H as _ <-.
  eapply adjust_stock_keys_ok; [exact C1|]. keys_split;
    now apply table_keys_ok_append.
Qed.

(** X6.  The primary keys stay sound under every call: if in each table
    the keys are pairwise distinct and bounded by the AUTOINCREMENT
    counter of the table before a call, they are so after it, so that a
    key, once handed out, is never handed out again while its row
    exists. *)
Theorem primary_keys_stay_unique :
  preserves keys_ok initialize_database /\
  (forall name phone email address,
     preserves keys_ok (add_customer name phone email address)) /\
  (forall id name phone email address,
     preserves keys_ok (update_customer id name phone email address)) /\
  (forall id, preserves keys_ok (delete_customer id)) /\
  (forall name description category purchase_price selling_price initial_stock,
     preserves keys_ok
       (add_product name description category purchase_price selling_price
          initial_stock)) /\
  (forall id name description category purchase_price selling_price,
     preserves keys_ok
       (update_product id name description category purchase_price selling_price)) /\
  (forall id, preserves keys_ok (delete_product id)) /\
  (forall id quantity cost_per_unit supplier purchase_date_str now,
     preserves keys_ok
       (add_purchase id quantity cost_per_unit supplier purchase_date_str now)) /\
  (forall sale_items customer_id sale_date_str now,
     preserves keys_ok (add_sale sale_items customer_id sale_date_str now)).
Proof.
  refine (conj _ (conj _ (conj _ (conj _ (conj _ (conj _ (conj _ (conj _ _))))))));
    intros.
  - apply preserves_initialize_database.
    unfold keys_ok, table_keys_ok. cbn. repeat split; constructor.
  - unfold add_customer. repeat preserves_step.
    intros db x db'. apply INSERT_Customers_keys_ok.
  - unfold update_customer. repeat preserves_step.
    intros db x db'. apply UPDATE_Customers_keys_ok.
  - unfold delete_customer. repeat preserves_step.
    intros db x db'. apply DELETE_Customers_keys_ok.
  - unfold add_product. repeat preserves_step.
    intros db x db'. apply INSERT_Products_keys_ok.
  - unfold update_product. repeat preserves_step.
    intros db x db'. apply UPDATE_Products_keys_ok.
  - unfold delete_product. repeat preserves_step.
    intros db x db'. apply DELETE_Products_keys_ok.
  - unfold add_purchase. repeat preserves_step.
    intros db x db'. apply INSERT_Purchases_keys_ok.
  - apply preserves_add_sale.
    + intros c d t x y i. apply INSERT_Sales_keys_ok.
    + intros s p q r x y i. apply INSERT_SaleItems_keys_ok.
Qed.

Lemma primary_keys_stay_unique_witness :
  file_satisfies keys_ok (world_of shop 0) /\
  file_satisfies keys_ok
    (snd (add_purchase (Some 1) (Some 2%Q) (Some 5%Q) None None
            "2023-03-01 08:00:00" (world_of shop 0))).
Proof.
  assert (H : file_satisfies keys_ok (world_of shop 0)).
  { intros db [= <-]. unfold keys_ok, table_keys_ok. cbn.
    repeat split; repeat constructor; try (intros []; fail); try easy. }
  split; [exact H|].
  destruct primary_keys_stay_unique as (_ & _ & _ & _ & _ & _ & _ & P & _).
  exact (P (Some 1) (Some 2%Q) (Some 5%Q) None None "2023-03-01 08:00:00"%string _ H).
Defined.

(* ================================================================== *)
(** * Foreign keys *)
(* ================================================================== *)

Lemma existsb_key_ext {R} (key : R -> positive) (f : R -> R) (k : positive)
    (rows : list R) :
  (forall r, key (f r) = key r) ->
  existsb (fun r => Pos.eqb (key r) k) (map f rows) =
  existsb (fun r => Pos.eqb (key r) k) rows.
Proof.
  intros H. induction rows as [|r rows IH]; cbn [existsb map]; [reflexivity|].
  now rewrite H, IH.
Qed.

Lemma existsb_filter_kept {R} (key : R -> positive) (sel : R -> bool)
    (rows : list R) (k : positive) :
  existsb (fun r => Pos.eqb (key r) k) rows = true ->
  existsb (fun r => sel r && Pos.eqb (key r) k) rows = false ->
  existsb (fun r => Pos.eqb (key r) k) (filter (fun r => negb (sel r)) rows) = true.
Proof.
  intros E G. apply existsb_exists in E as (r & I & E).
  apply existsb_exists. exists r. split; [|exact E].
  apply filter_In. split; [exact I|].
  destruct (sel r) eqn:S; [|reflexivity].
  assert (T : existsb (fun r => sel r && Pos.eqb (key r) k) rows = true).
  { apply existsb_exists. exists r. now rewrite S, E. }
  congruence.
Qed.

(** Rows may be added and existing rows may change, as long as no key
    of a referenced table disappears and the added rows point to
    existing rows. *)
Lemma refs_ok_step (db db' : database) :
  refs_ok db ->
  (forall k, has_product db k = true -> has_product db' k = true) ->
  (forall k, has_sale db k = true -> has_sale db' k = true) ->
  (forall k, has_customer db k = true -> has_customer db' k = true) ->
  (forall u, In u (Purchases db') ->
     In u (Purchases db) \/ has_product db' (pur_product_id u) = true) ->
  (forall i, In i (SaleItems db') ->
     In i (SaleItems db) \/
     (has_sale db' (item_sale_id i) = true /\
      has_product db' (item_product_id i) = true)) ->
  (forall s, In s (Sales db') ->
     In s (Sales db) \/
     match sale_customer_id s with
     | Some k => has_customer db' k = true
     | None => True
     end) ->
  refs_ok db'.
Proof.
  intros (Pu & It & Sa) HP HS HC NPu NIt NSa.
  rewrite Forall_forall in Pu, It, Sa.
  refine (conj _ (conj _ _)); apply Forall_forall.
  - intros u I. destruct (NPu u I) as [O | N]; [|exact N]. apply HP. now apply Pu.
  - intros i I. destruct (NIt i I) as [O | N]; [|exact N].
    destruct (It i O). split; [now apply HS | now apply HP].
  - intros s I. destruct (NSa s I) as [O | N]; [|exact N].
    specialize (Sa s O). destruct (sale_customer_id s); [now apply HC | exact Sa].
Qed.

Lemma existsb_app_left {R} (f : R -> bool) (rows extra : list R) :
  existsb f rows = true -> existsb f (rows ++ extra) = true.
Proof. intros H. rewrite existsb_app, H. reflexivity. Qed.

Lemma adjust_stock_refs_ok (k : positive) (delta : Q) (db db' : database) :
  adjust_stock k delta db = Returned db' -> refs_ok db -> refs_ok db'.
Proof.
  intros H I. apply adjust_stock_returned in H as (E & _ & _ & P).
  apply (refs_ok_step db db' I); subst db'; cbn [with_Products Purchases SaleItems Sales];
    try (intros; now left); try (intros ? ?; assumption).
  intros j Hj. now rewrite P.
Qed.

Lemma INSERT_Customers_refs_ok (name address phone email : option string)
    (db db' : database) (id : positive) :
  INSERT_Customers name address phone email db = Returned (id, db') ->
  refs_ok db -> refs_ok db'.
Proof.
  unfold INSERT_Customers. destruct name; [|discriminate].
  intros H I. split_obind H. injection H as _ <-.
  apply (refs_ok_step db _ I); cbn [Purchases SaleItems Sales];
    try (intros; now left); try (intros ? ?; assumption).
  intros k. unfold has_customer. cbn [Customers]. apply existsb_app_left.
Qed.

Lemma UPDATE_Customers_refs_ok (name address phone email : option string)
    (id : option Z) (db db' : database) (count : nat) :
  UPDATE_Customers name address phone email id db = Returned (count, db') ->
  refs_ok db -> refs_ok db'.
Proof.
  unfold UPDATE_Customers. cbv zeta. destruct (rowcount _ _).
  - now intros [= _ <-].
  - destruct name; [|discriminate]. intros H I. split_obind H.
    injection H as _ <-.
    apply (refs_ok_step db _ I); cbn [Purchases SaleItems Sales];
      try (intros; now left); try (intros ? ?; assumption).
    intros k. unfold has_customer, set_where. cbn [Customers].
    rewrite (existsb_key_ext cust_id); [auto|].
    intros c. now destruct (match id with Some _ => _ | None => _ end).
Qed.

Lemma INSERT_Products_refs_ok (name description category : option string)
    (purchase_price selling_price : Q) (initial_stock : option Z)
    (db db' : database) (id : positive) :
  INSERT_Products name description category purchase_price selling_price
    initial_stock db = Returned (id, db') ->
  refs_ok db -> refs_ok db'.
Proof.
  unfold INSERT_Products.
  destruct name; [|discriminate]. destruct initial_stock; [|discriminate].
  cbv zeta. intros H I. split_obind H. injection H as _ <-.
  apply (refs_ok_step db _ I); cbn [Purchases SaleItems Sales];
    try (intros; now left); try (intros ? ?; assumption).
  intros k. unfold has_product. cbn [Products]. apply existsb_app_left.
Qed.

Lemma UPDATE_Products_refs_ok (name description category : option string)
    (purchase_price selling_price : Q) (id : option Z) (db db' : database)
    (count : nat) :
  UPDATE_Products name description category purchase_price selling_price id db
    = Returned (count, db') ->
  refs_ok db -> refs_ok db'.
Proof.
  intros H I. apply UPDATE_Products_returned in H as [-> | (n & sel & ->)];
    [exact I|].
  apply (refs_ok_step db _ I); cbn [with_Products Purchases SaleItems Sales];
    try (intros; now left); try (intros ? ?; assumption).
  intros k. unfold has_product, set_where. cbn [Products with_Products].
  rewrite (existsb_key_ext prod_id); [auto|].
  intros p. now destruct (sel p).
Qed.

Lemma INSERT_Purchases_refs_ok (product_id : option Z) (quantity : Q)
    (purchase_date : string) (cost_per_unit : Q) (supplier : option string)
    (db db' : database) (id : positive) :
  INSERT_Purchases product_id quantity purchase_date cost_per_unit supplier db
    = Returned (id, db') ->
  refs_ok db -> refs_ok db'.
Proof.
  unfold INSERT_Purchases. destruct product_id as [z|]; [|discriminate].
  intros H I. split_obind H. destruct (key_of z) as [k|]; [|discriminate].
  unfold increase_stock_on_purchase in H. split_obind H. injection H as _ <-.
  apply adjust_stock_returned in C1 as (E & _ & _ & P).
  apply (refs_ok_step db a I); try rewrite E;
    cbn [with_Products Purchases SaleItems Sales];
    try (intros; now left); try (intros ? ?; assumption).
  - intros j Hj. rewrite <- E, P. exact Hj.
  - intros row Ir. apply in_app_or in Ir as [Ir | [<- | []]]; [now left | right].
    cbn [pur_product_id]. subst a. exact C2.
Qed.

Lemma INSERT_Sales_refs_ok (customer_id : option Z) (sale_date : string)
    (total_amount : Q) (db db' : database) (id : positive) :
  INSERT_Sales customer_id sale_date total_amount db = Returned (id, db') ->
  refs_ok db -> refs_ok db'.
Proof.
  unfold INSERT_Sales. intros H I. split_obind H. injection H as _ <-.
  apply (refs_ok_step db _ I); cbn [Purchases SaleItems Sales];
    try (intros; now left); try (intros ? ?; assumption).
  - intros k. unfold has_sale. cbn [Sales]. apply existsb_app_left.
  - intros s Is. apply in_app_or in Is as [Is | [<- | []]]; [now left | right].
    cbn [sale_customer_id]. destruct customer_id as [z|]; cbn in C0.
    + destruct (key_of z) as [k|]; [|discriminate]. split_obind C0.
      injection C0 as <-. exact C1.
    + now injection C0 as <-.
Qed.

Lemma INSERT_SaleItems_refs_ok (sale : positive) (product_id : option Z)
    (quantity price_at_sale : option Q) (db db' : database) (id : positive) :
  INSERT_SaleItems sale product_id quantity price_at_sale db = Returned (id, db') ->
  refs_ok db -> refs_ok db'.
Proof.
  unfold INSERT_SaleItems.
  destruct product_id as [z|]; [|discriminate].
  destruct quantity as [q|]; [|discriminate].
  destruct price_at_sale as [price|]; [|discriminate].
  intros H I. split_obind H. destruct (key_of z) as [k|]; [|discriminate].
  unfold decrease_stock_on_sale in H. split_obind H. injection H as _ <-.
  pose proof C1 as A. apply adjust_stock_returned in A as (E & _ & _ & P).
  apply (refs_ok_step db a I); try rewrite E;
    cbn [with_Products Purchases SaleItems Sales];
    try (intros; now left); try (intros ? ?; assumption).
  - intros j Hj. rewrite <- E, P. exact Hj.
  - intros i Ii. apply in_app_or in Ii as [Ii | [<- | []]]; [now left | right].
    cbn [item_sale_id item_product_id]. subst a. split; [exact C2 | exact C3].
Qed.

Lemma DELETE_Products_refs_ok (id : option Z) (db db' : database) (count : nat) :
  DELETE_Products id db = Returned (count, db') -> refs_ok db -> refs_ok db'.
Proof.
  unfold DELETE_Products. cbv zeta. intros H (Pu & It & Sa). split_obind H.
  injection H as _ <-. apply negb_true_iff in C.
  rewrite Forall_forall in Pu, It, Sa.
  refine (conj _ (conj _ _)); apply Forall_forall; cbn [Purchases SaleItems Sales].
  - intros row Ir. apply filter_In in Ir as [Ir G]. apply negb_true_iff in G.
    unfold has_product. cbn [Products].
    apply existsb_filter_kept; [now apply Pu | exact G].
  - intros i Ii. destruct (It i Ii) as [S P]. split; [exact S|].
    unfold has_product. cbn [Products].
    apply existsb_filter_kept; [exact P|].
    destruct (existsb _ (Products db)) eqn:G; [|reflexivity].
    assert (T : existsb (fun i0 => existsb (fun p =>
                  match id with Some z => key_is z (prod_id p) | None => false end
                  && Pos.eqb (prod_id p) (item_product_id i0)) (Products db))
                  (SaleItems db) = true).
    { apply existsb_exists. now exists i. }
    congruence.
  - intros s Is. specialize (Sa s Is). exact Sa.
Qed.

Lemma DELETE_Customers_refs_ok (id : option Z) (db db' : database) (count : nat) :
  DELETE_Customers id db = Returned (count, db') -> refs_ok db -> refs_ok db'.
Proof.
  unfold DELETE_Customers. cbv zeta. intros [= _ <-] (Pu & It & Sa).
  rewrite Forall_forall in Pu, It, Sa.
  refine (conj _ (conj _ _)); apply Forall_forall; cbn [Purchases SaleItems Sales].
  - intros u Iu. now apply Pu.
  - intros i Ii. destruct (It i Ii) as [S P]. split; [|exact P].
    unfold has_sale in *. cbn [Sales].
    rewrite (existsb_key_ext sale_id); [exact S|].
    intros s. destruct (sale_customer_id s); [|reflexivity].
    destruct (existsb _ (Customers db)); reflexivity.
  - intros s' Is'. apply in_map_iff in Is' as (s & <- & Is).
    specialize (Sa s Is). destruct (sale_customer_id s) as [k|] eqn:K.
    + destruct (existsb _ (Customers db)) eqn:G; cbn [sale_customer_id]; [constructor|].
      rewrite K. unfold has_customer. cbn [Customers].
      apply existsb_filter_kept; [exact Sa | exact G].
    + now rewrite K.
Qed.

(** X7.  Referential integrity is kept by every call: if, before a
    call, every purchase and every sale item points to an existing
    product, every sale item to an existing sale and every sale to an
    existing customer or to none, the same holds after the call. *)
Theorem foreign_keys_stay_valid :
  preserves refs_ok initialize_database /\
  (forall name phone email address,
     preserves refs_ok (add_customer name phone email address)) /\
  (forall id name phone email address,
     preserves refs_ok (update_customer id name phone email address)) /\
  (forall id, preserves refs_ok (delete_customer id)) /\
  (forall name description category purchase_price selling_price initial_stock,
     preserves refs_ok
       (add_product name description category purchase_price selling_price
          initial_stock)) /\
  (forall id name description category purchase_price selling_price,
     preserves refs_ok
       (update_product id name description category purchase_price selling_price)) /\
  (forall id, preserves refs_ok (delete_product id)) /\
  (forall id quantity cost_per_unit supplier purchase_date_str now,
     preserves refs_ok
       (add_purchase id quantity cost_per_unit supplier purchase_date_str now)) /\
  (forall sale_items customer_id sale_date_str now,
     preserves refs_ok (add_sale sale_items customer_id sale_date_str now)).
Proof.
  refine (conj _ (conj _ (conj _ (conj _ (conj _ (conj _ (conj _ (conj _ _))))))));
    intros.
  - apply preserves_initialize_database.
    unfold refs_ok. cbn. repeat split; constructor.
  - unfold add_customer. repeat preserves_step.
    intros db x db'. apply INSERT_Customers_refs_ok.
  - unfold update_customer. repeat preserves_step.
    intros db x db'. apply UPDATE_Customers_refs_ok.
  - unfold delete_customer. repeat preserves_step.
    intros db x db'. apply DELETE_Customers_refs_ok.
  - unfold add_product. repeat preserves_step.
    intros db x db'. apply INSERT_Products_refs_ok.
  - unfold update_product. repeat preserves_step.
    intros db x db'. apply UPDATE_Products_refs_ok.
  - unfold delete_product. repeat preserves_step.
    intros db x db'. apply DELETE_Products_refs_ok.
  - unfold add_purchase. repeat preserves_step.
    intros db x db'. apply INSERT_Purchases_refs_ok.
  - apply preserves_add_sale.
    + intros c d t x y i. apply INSERT_Sales_refs_ok.
    + intros s p q r x y i. apply INSERT_SaleItems_refs_ok.
Qed.

Lemma foreign_keys_stay_valid_witness :
  file_satisfies refs_ok (world_of shop_with_gadget 0) /\
  file_satisfies refs_ok (snd (delete_product (Some 2) (world_of shop_with_gadget 0))).
Proof.
  assert (H : file_satisfies refs_ok (world_of shop_with_gadget 0)).
  { intros db [= <-]. unfold refs_ok. cbn. repeat split; repeat constructor. }
  split; [exact H|].
  destruct foreign_keys_stay_valid as (_ & _ & _ & _ & _ & _ & D & _).
  exact (D (Some 2) _ H).
Defined.

(* ================================================================== *)
(** * A call that fails writes nothing *)
(* ================================================================== *)

Lemma fails_clean_handle_db_error {A} (func : M A) :
  fails_clean func -> fails_clean (handle_db_error func).
Proof.
  intros H w e w' R.
  pose proof (handle_db_error_state func w) as S. rewrite R in S. cbn [snd] in S.
  destruct (func w) as [[a|e0] w0] eqn:F.
  - unfold handle_db_error, try_except in R. rewrite F in R. discriminate R.
  - cbn [snd] in S. subst w0. exact (H w e0 w' F).
Qed.

Lemma fails_clean_lift {A B} (o : outcome A) (k : A -> M B) :
  (forall a, fails_clean (k a)) -> fails_clean (x <- lift o ;; k x).
Proof.
  intros H w e w'. rewrite lift_bind_run. destruct o as [a|e0].
  - apply H.
  - now intros [= _ <-].
Qed.

Lemma fails_clean_raise {A} (e : exn) : fails_clean (@raise A e).
Proof. intros w e' w'. unfold raise. now intros [= _ <-]. Qed.

(** One statement between [get_db_connection] and [close]: the call
    fails because the statement does, or after a statement that changed
    nothing. *)
Lemma fails_clean_scoped_statement {A B} (table : string) (stmt : statement A)
    (post : A -> M B) :
  (forall x w1, snd (post x w1) = w1) ->
  (forall db x db' w1 e,
     stmt db = Returned (x, db') -> fst (post x w1) = Raised e -> db' = db) ->
  fails_clean
    (get_db_connection ;;
     try_finally (x <- execute table stmt ;; conn_commit ;; post x) conn_close).
Proof.
  intros Hp Hs w e w' R. destruct (disk w) as [db|] eqn:D.
  - rewrite (scoped_statement_run table stmt post w db D Hp) in R.
    destruct (stmt db) as [[x db']|e0] eqn:S.
    + injection R as R <-. cbn [world_of disk].
      now rewrite (Hs db x db' _ e S R).
    + now injection R as _ <-.
  - rewrite (scoped_statement_bare table stmt post w D) in R.
    now injection R as _ <-.
Qed.

Lemma UPDATE_Customers_none (name address phone email : option string)
    (id : option Z) (db db' : database) :
  UPDATE_Customers name address phone email id db = Returned (O, db') -> db' = db.
Proof.
  unfold UPDATE_Customers. cbv zeta. destruct (rowcount _ _).
  - now intros [= <-].
  - destruct name; [|discriminate]. intros H. split_obind H. discriminate H.
Qed.

Lemma UPDATE_Products_none (name description category : option string)
    (purchase_price selling_price : Q) (id : option Z) (db db' : database) :
  UPDATE_Products name description category purchase_price selling_price id db
    = Returned (O, db') -> db' = db.
Proof.
  unfold UPDATE_Products. cbv zeta. destruct (rowcount _ _).
  - now intros [= <-].
  - destruct name; [|discriminate]. intros H. split_obind H. discriminate H.
Qed.

Ltac never_raises :=
  intros; exfalso;
  repeat match goal with
  | H : fst ((if ?b then _ else _) _) = Raised _ |- _ => destruct b
  end; discriminate.

Ltac fails_clean_step :=
  lazymatch goal with
  | |- fails_clean (handle_db_error _) => apply fails_clean_handle_db_error
  | |- fails_clean (bind (lift _) _) => apply fails_clean_lift; intros ?
  | |- fails_clean (raise _) => apply fails_clean_raise
  | |- fails_clean (match ?x with _ => _ end) => destruct x
  | |- fails_clean (bind get_db_connection _) =>
      apply fails_clean_scoped_statement; [pure_post|]
  end.

(** X8.  A call that fails writes nothing: whenever [add_customer],
    [update_customer], [delete_customer], [add_product],
    [update_product], [delete_product] or [add_purchase] raises, be it a
    validation failure, a violated constraint, an unknown row or a file
    without the schema, the committed file is what it was before the
    call.  ([update_customer] and [update_product] commit before they
    report an unknown row, but then the statement has changed nothing.) *)
Theorem failed_calls_change_nothing :
  (forall name phone email address,
     fails_clean (add_customer name phone email address)) /\
  (forall id name phone email address,
     fails_clean (update_customer id name phone email address)) /\
  (forall id, fails_clean (delete_customer id)) /\
  (forall name description category purchase_price selling_price initial_stock,
     fails_clean
       (add_product name description category purchase_price selling_price
          initial_stock)) /\
  (forall id name description category purchase_price selling_price,
     fails_clean
       (update_product id name description category purchase_price selling_price)) /\
  (forall id, fails_clean (delete_product id)) /\
  (forall id quantity cost_per_unit supplier purchase_date_str now,
     fails_clean
       (add_purchase id quantity cost_per_unit supplier purchase_date_str now)).
Proof.
  refine (conj _ (conj _ (conj _ (conj _ (conj _ (conj _ _)))))); intros.
  - unfold add_customer. repeat fails_clean_step. never_raises.
  - unfold update_customer. repeat fails_clean_step.
    intros db x db' w1 e S R. destruct x as [|n]; [|discriminate R].
    now apply UPDATE_Customers_none in S.
  - unfold delete_customer. repeat fails_clean_step. never_raises.
  - unfold add_product. repeat fails_clean_step. never_raises.
  - unfold update_product. repeat fails_clean_step.
    intros db x db' w1 e S R. destruct x as [|n]; [|discriminate R].
    now apply UPDATE_Products_none in S.
  - unfold delete_product. repeat fails_clean_step. never_raises.
  - unfold add_purchase. repeat fails_clean_step. never_raises.
Qed.

Lemma failed_calls_change_nothing_witness :
  delete_product (Some 1) {| disk := Some shop; work := None; open_conns := 0 |}
    = (Raised (DatabaseError msg_referenced), world_of shop 0) /\
  disk (world_of shop 0) = Some shop.
Proof.
  assert (R : delete_product (Some 1)
                {| disk := Some shop; work := None; open_conns := 0 |}
              = (Raised (DatabaseError msg_referenced), world_of shop 0))
    by (vm_compute; reflexivity).
  split; [exact R|].
  destruct failed_calls_change_nothing as (_ & _ & _ & _ & _ & H & _).
  exact (H (Some 1) _ _ _ R).
Defined.

(* ================================================================== *)
(** * When a sale goes through *)
(* ================================================================== *)

Lemma quantity_sold_nonneg (k : positive) (sale_items : list sale_line) :
  Forall valid_line sale_items -> (0 <= quantity_sold k sale_items)%Q.
Proof.
  induction 1 as [|item rest V F IH]; [apply Qle_refl|].
  rewrite quantity_sold_cons. destruct (line_of k item); [|exact IH].
  destruct V as (z & q & p & _ & _ & -> & Lq & _).
  change 0%Q with (0 + 0)%Q. apply Qplus_le_compat; [|exact IH].
  apply Qle_trans with (y := 1%Q); [discriminate | exact Lq].
Qed.

Lemma find_product_has_product (db : database) (k : positive) (p : product) :
  find_product db k = Some p -> has_product db k = true.
Proof.
  unfold find_product, has_product. intros F. apply find_some in F as [I E].
  apply existsb_exists. now exists p.
Qed.

(** With distinct keys, the row that [find] returns for a key is the
    only row with the key. *)
Lemma find_unique (rows : list product) (p : product) :
  NoDup (map prod_id rows) -> In p rows ->
  find (fun r => Pos.eqb (prod_id r) (prod_id p)) rows = Some p.
Proof.
  induction rows as [|r rows IH]; cbn [map find In]; [easy|].
  intros N I. apply NoDup_cons_iff in N as [Nr N].
  destruct I as [-> | I]; [now rewrite Pos.eqb_refl|].
  destruct (Pos.eqb_spec (prod_id r) (prod_id p)) as [E | _]; [|now apply IH].
  exfalso. apply Nr. rewrite E. now apply in_map.
Qed.

Lemma INSERT_Sales_succeeds (customer_id : option Z) (sale_date : string)
    (total_amount : Q) (db : database) :
  (0 <= total_amount)%Q -> known_customer customer_id db ->
  exists db', INSERT_Sales customer_id sale_date total_amount db
              = Returned (N.succ_pos (seq_Sales db), db').
Proof.
  intros T K. unfold INSERT_Sales.
  rewrite (proj2 (Qle_bool_iff _ _) T), check_true. cbn [obind].
  destruct customer_id as [z|]; cbn [obind].
  - destruct K as (k & -> & H). cbn [key_of]. rewrite H, check_true. cbn [obind].
    eexists. reflexivity.
  - eexists. reflexivity.
Qed.

(** A line goes in when its sale and its product exist and every row of
    its product holds at least the quantity of the line. *)
Lemma INSERT_SaleItems_succeeds (sale k : positive) (q price : Q) (db : database) :
  (0 < q)%Q -> (0 <= price)%Q ->
  has_sale db sale = true -> has_product db k = true ->
  (forall p, In p (Products db) -> prod_id p = k -> (q <= quantity_in_stock p)%Q) ->
  exists id db',
    INSERT_SaleItems sale (Some (Z.pos k)) (Some q) (Some price) db
      = Returned (id, db') /\
    Sales db' = Sales db /\
    Products db' =
      set_where (fun p => Pos.eqb (prod_id p) k) (add_stock (- q)) (Products db).
Proof.
  intros Hq Hp Hs Hk Hst. unfold INSERT_SaleItems. cbn [key_of].
  rewrite (proj2 (Qlt_bool_true _ _) Hq), check_true. cbn [obind].
  rewrite (proj2 (Qle_bool_iff _ _) Hp), check_true. cbn [obind]. cbv zeta.
  unfold decrease_stock_on_sale, adjust_stock.
  cbn [item_product_id item_quantity Products]. cbv zeta.
  assert (C : forallb (fun p => negb (Pos.eqb (prod_id p) k)
                                || Qle_bool 0 (quantity_in_stock p))
                (set_where (fun p => Pos.eqb (prod_id p) k) (add_stock (- q))
                   (Products db)) = true).
  { apply forallb_forall. intros p' I. unfold set_where in I.
    apply in_map_iff in I as (p & <- & I).
    destruct (Pos.eqb_spec (prod_id p) k) as [E | N].
    - cbn [add_stock prod_id quantity_in_stock].
      apply orb_true_iff. right. apply Qle_bool_iff.
      specialize (Hst p I E).
      apply Qplus_le_l with (z := q). ring_simplify. exact Hst.
    - apply orb_true_iff. left. apply negb_true_iff. now apply Pos.eqb_neq. }
  rewrite C, check_true. cbn [obind].
  unfold has_sale, has_product in *. cbn [with_Products Sales Products].
  rewrite Hs, check_true. cbn [obind].
  rewrite existsb_set_where by reflexivity. rewrite Hk, check_true. cbn [obind].
  eexists. eexists. split; [reflexivity|]. split; reflexivity.
Qed.

(** The second loop goes through when every product that a line names
    exists and every row of it holds what the lines together sell of
    the product. *)
Lemma insert_lines_succeeds (sale : positive) (sale_items : list sale_line)
    (db : database) :
  Forall valid_line sale_items ->
  has_sale db sale = true ->
  Forall (fun item => exists k, product_id item = Some (Z.pos k) /\
                                has_product db k = true) sale_items ->
  (forall p, In p (Products db) ->
     existsb (line_of (prod_id p)) sale_items = true ->
     (quantity_sold (prod_id p) sale_items <= quantity_in_stock p)%Q) ->
  exists db', insert_lines sale sale_items db = Returned db'.
Proof.
  intros V. revert db. induction V as [|item rest V F IH]; intros db Hs Hk Hst.
  - now exists db.
  - apply Forall_cons_iff in Hk as [(k & Ek & Hk) Hrest].
    pose proof V as (z & q & price & Ez & _ & Eq & Lq & Ep & Lp).
    assert (Pq : (0 < q)%Q) by (apply Qlt_le_trans with (y := 1%Q); easy).
    assert (Mk : line_of k item = true).
    { unfold line_of. rewrite Ek. rewrite key_is_pos. apply Pos.eqb_refl. }
    destruct (INSERT_SaleItems_succeeds sale k q price db Pq Lp Hs Hk)
      as (id & db1 & I & S1 & P1).
    { intros p Ip E. specialize (Hst p Ip). rewrite E in Hst.
      cbn [existsb] in Hst. rewrite Mk in Hst. specialize (Hst eq_refl).
      rewrite quantity_sold_cons, Mk, Eq in Hst.
      apply Qle_trans with (y := (q + quantity_sold k rest)%Q); [|exact Hst].
      rewrite <- (Qplus_0_r q) at 1. apply Qplus_le_r.
      now apply quantity_sold_nonneg. }
    cbn [insert_lines]. rewrite Ek, Eq, Ep, I. cbn [obind snd].
    apply IH.
    + unfold has_sale in *. now rewrite S1.
    + apply Forall_forall. intros it Iit. rewrite Forall_forall in Hrest.
      destruct (Hrest it Iit) as (j & Ej & Hj). exists j. split; [exact Ej|].
      unfold has_product in *. rewrite P1.
      now rewrite existsb_set_where by reflexivity.
    + intros p' Ip' M. rewrite P1 in Ip'. unfold set_where in Ip'.
      apply in_map_iff in Ip' as (p & <- & Ip).
      specialize (Hst p Ip). rewrite quantity_sold_cons in Hst. cbn [existsb] in Hst.
      destruct (Pos.eqb_spec (prod_id p) k) as [E | N].
      * cbn [add_stock prod_id quantity_in_stock] in *. rewrite E in *.
        rewrite Mk, Eq in Hst. specialize (Hst eq_refl).
        apply Qplus_le_l with (z := q). ring_simplify.
        rewrite Qplus_comm. exact Hst.
      * assert (L : line_of (prod_id p) item = false).
        { unfold line_of. rewrite Ek, key_is_pos. now apply Pos.eqb_neq. }
        rewrite L in Hst. now apply Hst.
Qed.



(* ================================================================== *)
(** * Connections *)
(* ================================================================== *)

(** X10.  The functions that open their connection in front of a
    [try/finally], and [dangerously_delete_all_data], which closes its
    own before anything else, give back what they open: after a call of
    any of them there are as many connections open as before, whatever
    the arguments and the state of the file, and whether the call
    returns or raises. *)
Theorem connections_are_released :
  releases initialize_database /\
  (forall name phone email address,
     releases (add_customer name phone email address)) /\
  (forall id name phone email address,
     releases (update_customer id name phone email address)) /\
  (forall id, releases (delete_customer id)) /\
  (forall name description category purchase_price selling_price initial_stock,
     releases
       (add_product name description category purchase_price selling_price
          initial_stock)) /\
  (forall id, releases (get_product_by_id id)) /\
  (forall id name description category purchase_price selling_price,
     releases
       (update_product id name description category purchase_price selling_price)) /\
  (forall id, releases (delete_product id)) /\
  (forall id quantity cost_per_unit supplier purchase_date_str now,
     releases
       (add_purchase id quantity cost_per_unit supplier purchase_date_str now)) /\
  (forall sale_items customer_id sale_date_str now,
     releases (add_sale sale_items customer_id sale_date_str now)) /\
  releases dangerously_delete_all_data.
Proof.
  refine (conj _ (conj _ (conj _ (conj _ (conj _ (conj _ (conj _ (conj _
            (conj _ (conj _ _)))))))))); intros.
  - apply initialize_database_releases.
  - apply add_customer_releases.
  - apply update_customer_releases.
  - apply delete_customer_releases.
  - apply add_product_releases.
  - apply get_product_by_id_releases.
  - apply update_product_releases.
  - apply delete_product_releases.
  - apply add_purchase_releases.
  - apply add_sale_releases.
  - apply dangerously_delete_all_data_releases.
Qed.

(* ================================================================== *)
(** * First run and reset *)
(* ================================================================== *)

Lemma handle_db_error_returns {A} (func : M A) (w w' : world) (a : A) :
  handle_db_error func w = (Returned a, w') -> func w = (Returned a, w').
Proof.
  unfold handle_db_error, try_except, raise.
  destruct (func w) as [[a0|e] w0]; [easy|].
  destruct e; try discriminate.
  repeat (destruct (contains _ msg); [discriminate|]). discriminate.
Qed.

(** What [validate_customer_data] returns is what it was given. *)
Lemma validate_customer_data_returned (name phone email : option string)
    (v : option string * option string * option string) :
  validate_customer_data name phone email = Returned v -> v = (name, phone, email).
Proof.
  unfold validate_customer_data. intros H.
  apply obind_returned in H as (n & _ & H).
  apply obind_returned in H as (p & P & H).
  apply obind_returned in H as (e & E & H). injection H as <-.
  assert (p = phone) as ->.
  { destruct (py_not phone); [congruence|].
    unfold validate_phone in P. destruct phone as [s|]; [|congruence].
    destruct (_ || _); [congruence|]. destruct (negb _); congruence. }
  assert (e = email) as ->.
  { destruct (py_not email); [congruence|].
    unfold validate_email in E. destruct email as [s|]; [|congruence].
    destruct (_ || _); [congruence|]. destruct (negb _); congruence. }
  reflexivity.
Qed.

(** [add_customer] returns only after the data was validated and the
    row was inserted into an initialised file and committed. *)
Lemma add_customer_returned (name phone email address : option string)
    (w w' : world) (id : positive) :
  add_customer name phone email address w = (Returned id, w') ->
  exists db db' : database,
    disk w = Some db /\
    validate_customer_data name phone email = Returned (name, phone, email) /\
    INSERT_Customers name address phone email db = Returned (id, db') /\
    w' = world_of db' (open_conns w).
Proof.
  unfold add_customer. intros H. apply handle_db_error_returns in H.
  rewrite lift_bind_run in H.
  destruct (validate_customer_data name phone email) as [v|e] eqn:V;
    [|discriminate H].
  pose proof (validate_customer_data_returned _ _ _ _ V) as ->.
  destruct (disk w) as [db|] eqn:D.
  - rewrite (scoped_statement_run _ _ _ w db D) in H by reflexivity.
    destruct (INSERT_Customers _ _ _ _ db) as [[id' db']|e] eqn:I; [|discriminate H].
    injection H as <- <-. now exists db, db'.
  - now rewrite (scoped_statement_bare _ _ _ w D) in H.
Qed.

(** What [validate_product_data] returns: the name as given, the two
    prices as given, and the stock as the integer it is. *)
Lemma validate_product_data_returned (name : option string)
    (buy sell stock : option Q) (n : option string) (pp sp : Q) (st : option Z) :
  validate_product_data name buy sell stock = Returned (n, pp, sp, st) ->
  n = name /\ buy = Some pp /\ (0 <= pp)%Q /\ sell = Some sp /\ (0 <= sp)%Q /\
  match stock with
  | Some q => exists z, st = Some z /\ (q == inject_Z z)%Q /\ (0 <= z)%Z
  | None => st = None
  end.
Proof.
  unfold validate_product_data. intros H.
  apply obind_returned in H as (n0 & _ & H).
  apply obind_returned in H as (pp0 & P & H).
  apply obind_returned in H as (sp0 & S & H).
  apply validate_numeric_min in P as [-> Lp].
  apply validate_numeric_min in S as [-> Ls].
  destruct stock as [q|].
  - apply obind_returned in H as (z & Z & H). injection H as <- <- <- <-.
    repeat split; try assumption.
    exists z. split; [reflexivity|].
    unfold validate_integer, py_float in Z.
    destruct (negb (Qeq_bool q _)) eqn:E; [discriminate|].
    destruct (py_int q <? 0)%Z eqn:L; [discriminate|]. injection Z as <-.
    apply negb_false_iff, Qeq_bool_iff in E. split; [exact E|].
    now apply Z.ltb_ge.
  - injection H as <- <- <- <-. repeat split; assumption.
Qed.

(** [add_product] returns only after the data was validated and the
    row was inserted into an initialised file and committed. *)
Lemma add_product_returned (name description category : option string)
    (buy sell stock : option Q) (w w' : world) (id : positive) :
  add_product name description category buy sell stock w = (Returned id, w') ->
  exists (db db' : database) (pp sp : Q) (st : option Z),
    disk w = Some db /\
    validate_product_data name buy sell stock = Returned (name, pp, sp, st) /\
    INSERT_Products name description category pp sp st db = Returned (id, db') /\
    w' = world_of db' (open_conns w).
Proof.
  unfold add_product. intros H. apply handle_db_error_returns in H.
  rewrite lift_bind_run in H.
  destruct (validate_product_data name buy sell stock) as [[[[n pp] sp] st]|e] eqn:V;
    [|discriminate H].
  pose proof (validate_product_data_returned _ _ _ _ _ _ _ _ V) as (-> & _).
  rewrite lift_bind_run in H.
  destruct (validate_required category _) as [c|e] eqn:C; [|discriminate H].
  destruct (disk w) as [db|] eqn:D.
  - rewrite (scoped_statement_run _ _ _ w db D) in H by reflexivity.
    destruct (INSERT_Products _ _ _ _ _ _ db) as [[id' db']|e] eqn:I; [|discriminate H].
    injection H as <- <-. now exists db, db', pp, sp, st.
  - now rewrite (scoped_statement_bare _ _ _ w D) in H.
Qed.

Lemma INSERT_Customers_key (name address phone email : option string)
    (db db' : database) (id : positive) :
  INSERT_Customers name address phone email db = Returned (id, db') ->
  id = N.succ_pos (seq_Customers db).
Proof.
  unfold INSERT_Customers. destruct name; [|discriminate]. cbv zeta.
  intros H. split_obind H. now injection H as <- _.
Qed.

Lemma INSERT_Products_key (name description category : option string)
    (pp sp : Q) (st : option Z) (db db' : database) (id : positive) :
  INSERT_Products name description category pp sp st db = Returned (id, db') ->
  id = N.succ_pos (seq_Products db).
Proof.
  unfold INSERT_Products. destruct name; [|discriminate].
  destruct st; [|discriminate]. cbv zeta.
  intros H. split_obind H. now injection H as <- _.
Qed.


(* ================================================================== *)
(** * Looking a product up *)
(* ================================================================== *)

Lemma get_product_by_id_run (z : Z) (w : world) (db : database) :
  disk w = Some db -> z <> 0 ->
  get_product_by_id (Some z) w =
  (Returned (find (fun p => key_is z (prod_id p)) (Products db)),
   world_of db (open_conns w)).
Proof.
  intros D N. unfold get_product_by_id, handle_db_error, try_except.
  rewrite lift_bind_run, (validate_required_nonzero z _ N).
  unfold bind, get_db_connection, try_finally, execute, SELECT_Products, conn_close.
  cbn [work disk open_conns]. rewrite D. reflexivity.
Qed.

Lemma get_product_details_for_sale_run (product_id : option Z) (w : world)
    (db : database) :
  disk w = Some db ->
  get_product_details_for_sale product_id w =
  (Returned
     (option_map details_of
        (find (fun p => match product_id with
                        | Some z => key_is z (prod_id p)
                        | None => false
                        end) (Products db))),
   world_of db (open_conns w)).
Proof.
  intros D. unfold get_product_details_for_sale, handle_db_error, try_except.
  unfold bind, get_db_connection, execute, SELECT_Products, conn_close.
  cbn [work disk open_conns]. rewrite D.
  now destruct (find _ (Products db)).
Qed.

Lemma find_none {R} (f : R -> bool) (rows : list R) :
  (forall r, In r rows -> f r = false) -> find f rows = None.
Proof.
  induction rows as [|r rows IH]; cbn [find]; [reflexivity|].
  intros H. rewrite (H r) by now left. apply IH. intros x I. apply H. now right.
Qed.

Lemma find_app_last {R} (f : R -> bool) (rows : list R) (x : R) :
  (forall r, In r rows -> f r = false) -> f x = true ->
  find f (rows ++ [x]) = Some x.
Proof.
  induction rows as [|r rows IH]; cbn [find app]; intros H T.
  - now rewrite T.
  - rewrite (H r) by now left. apply IH; [|exact T].
    intros y I. apply H. now right.
Qed.





(* ================================================================== *)
(** * Refused writes *)
(* ================================================================== *)

Lemma opt_eqb_refl (s : string) : opt_eqb (Some s) (Some s) = true.
Proof. cbn. apply String.eqb_refl. Qed.

Lemma taken_existsb {R} (col : R -> option string) (value : option string)
    (rows : list R) :
  taken col value rows -> existsb (fun r => opt_eqb (col r) value) rows = true.
Proof.
  intros (r & s & I & C & ->). apply existsb_exists. exists r.
  split; [exact I|]. rewrite C. apply opt_eqb_refl.
Qed.

Lemma validate_required_some (name : option string) (field_name : string)
    (v : option string) :
  validate_required name field_name = Returned v -> exists n, name = Some n.
Proof.
  unfold validate_required. destruct name as [n|]; [now exists n | discriminate].
Qed.

Lemma validate_customer_data_name (name phone email : option string)
    (v : option string * option string * option string) :
  validate_customer_data name phone email = Returned v -> exists n, name = Some n.
Proof.
  unfold validate_customer_data. intros H.
  apply obind_returned in H as (n & N & _). now apply validate_required_some in N.
Qed.



(** The trigger of a purchase changes nothing when no product has the
    key. *)
Lemma INSERT_Purchases_unknown (z : Z) (quantity : Q) (purchase_date : string)
    (cost_per_unit : Q) (supplier : option string) (db : database) :
  (1 <= quantity)%Q -> (0 <= cost_per_unit)%Q ->
  no_product db (Some z) ->
  INSERT_Purchases (Some z) quantity purchase_date cost_per_unit supplier db
    = Raised FOREIGN_KEY_failed.
Proof.
  intros Lq Lc N. unfold INSERT_Purchases.
  assert (Pq : (0 < quantity)%Q) by (apply Qlt_le_trans with (y := 1%Q); easy).
  rewrite (proj2 (Qlt_bool_true _ _) Pq), check_true. cbn [obind].
  rewrite (proj2 (Qle_bool_iff _ _) Lc), check_true. cbn [obind].
  destruct (key_of z) as [k|] eqn:K; [|reflexivity].
  apply key_of_some in K. subst z. cbv zeta.
  unfold increase_stock_on_purchase, adjust_stock.
  cbn [pur_product_id pur_quantity Products]. cbv zeta.
  assert (S : forall p, In p (Products db) -> Pos.eqb (prod_id p) k = false).
  { intros p I. exact (N p I). }
  assert (E : set_where (fun p => Pos.eqb (prod_id p) k) (add_stock quantity)
                (Products db) = Products db).
  { unfold set_where. apply map_same. intros p I. now rewrite (S p I). }
  rewrite E.
  assert (C : forallb (fun p => negb (Pos.eqb (prod_id p) k)
                                || Qle_bool 0 (quantity_in_stock p)) (Products db)
              = true).
  { apply forallb_forall. intros p I. now rewrite (S p I). }
  rewrite C, check_true. cbn [obind].
  unfold has_product. cbn [with_Products Products].
  now rewrite (existsb_none _ _ S).
Qed.

Lemma INSERT_Sales_unknown (z : Z) (sale_date : string) (total_amount : Q)
    (db : database) :
  (0 <= total_amount)%Q -> no_customer db (Some z) ->
  INSERT_Sales (Some z) sale_date total_amount db = Raised FOREIGN_KEY_failed.
Proof.
  intros T N. unfold INSERT_Sales.
  rewrite (proj2 (Qle_bool_iff _ _) T), check_true. cbn [obind].
  destruct (key_of z) as [k|] eqn:K; [|reflexivity].
  apply key_of_some in K. subst z.
  unfold has_customer. rewrite existsb_none; [reflexivity|].
  intros c I. exact (N c I).
Qed.



(* ================================================================== *)
(** * What a deletion takes with it *)
(* ================================================================== *)

(** The rows that the deletion of the key [k] reaches through a foreign
    key are those that hold [k], as soon as a row has the key [k]. *)
Lemma gone_spec {R} (key : R -> positive) (rows : list R) (k j : positive) :
  existsb (fun r => key_is (Z.pos k) (key r) && Pos.eqb (key r) j) rows
  = Pos.eqb j k && existsb (fun r => Pos.eqb (key r) k) rows.
Proof.
  induction rows as [|r rows IH]; cbn [existsb]; [now rewrite andb_false_r|].
  rewrite IH, key_is_pos.
  destruct (Pos.eqb_spec (key r) k) as [E | N]; cbn [andb orb].
  - rewrite E. destruct (Pos.eqb_spec j k) as [Ej | Nj].
    + rewrite Ej. now rewrite Pos.eqb_refl.
    + cbn [andb]. rewrite orb_false_r. apply Pos.eqb_neq. congruence.
  - reflexivity.
Qed.

Lemma Forall2_map_right {R S} (rel : R -> S -> Prop) (f : R -> S) (rows : list R) :
  (forall r, rel r (f r)) -> Forall2 rel rows (map f rows).
Proof.
  intros H. induction rows as [|r rows IH]; cbn [map]; constructor; auto.
Qed.

Lemma delete_customer_run (z : Z) (w : world) (db : database) :
  disk w = Some db -> z <> 0 ->
  delete_customer (Some z) w =
  match DELETE_Customers (Some z) db with
  | Returned (count, db') =>
      (Returned (negb (count =? 0)%nat), world_of db' (open_conns w))
  | Raised e => (Raised e, world_of db (open_conns w))
  end.
Proof.
  intros D N. unfold delete_customer, handle_db_error, try_except.
  rewrite lift_bind_run, (validate_required_nonzero z _ N).
  rewrite (scoped_statement_run _ _ _ w db D) by pure_post.
  unfold DELETE_Customers. cbv zeta. now destruct (rowcount _ _).
Qed.

Lemma rowcount_some {R} (sel : R -> bool) (rows : list R) :
  existsb sel rows = true -> (rowcount sel rows =? 0)%nat = false.
Proof.
  unfold rowcount. induction rows as [|r rows IH]; cbn [existsb filter];
    [discriminate|].
  destruct (sel r); [reflexivity | exact IH].
Qed.



Lemma delete_product_run (z : Z) (w : world) (db : database) :
  disk w = Some db -> z <> 0 ->
  delete_product (Some z) w =
  match DELETE_Products (Some z) db with
  | Returned (count, db') =>
      (Returned (negb (count =? 0)%nat), world_of db' (open_conns w))
  | Raised e =>
      (fst (handle_db_error (raise e) w), world_of db (open_conns w))
  end.
Proof.
  intros D N. unfold delete_product, handle_db_error at 1, try_except.
  rewrite lift_bind_run, (validate_required_nonzero z _ N).
  rewrite (scoped_statement_run _ _ _ w db D) by pure_post.
  destruct (DELETE_Products (Some z) db) as [[count db']|e].
  - now destruct count.
  - unfold handle_db_error, try_except, raise. destruct e; try reflexivity.
    repeat (destruct (contains _ msg); [reflexivity|]). reflexivity.
Qed.

(** X17.  Deleting a product takes its purchases with it: on an
    initialised file, [delete_product] with the key of an existing
    product that no sale item names returns [True] and removes the row
    of the product together with every purchase of the product; the
    other products, the other purchases, the customers, the sales and
    the sale items are untouched. *)
Theorem delete_product_takes_purchases (k : positive) (w : world) (db : database) :
  disk w = Some db ->
  has_product db k = true ->
  ~ referenced db k ->
  exists db',
    delete_product (Some (Z.pos k)) w
      = (Returned true, world_of db' (open_conns w)) /\
    Products db' = filter (fun p => negb (Pos.eqb (prod_id p) k)) (Products db) /\
    Purchases db' =
      filter (fun u => negb (Pos.eqb (pur_product_id u) k)) (Purchases db) /\
    Customers db' = Customers db /\ Sales db' = Sales db /\
    SaleItems db' = SaleItems db.
Proof.
  intros D H NR. rewrite (delete_product_run _ w db D) by discriminate.
  unfold DELETE_Products. cbv zeta.
  assert (F : existsb (fun i =>
                existsb (fun p => key_is (Z.pos k) (prod_id p)
                                  && Pos.eqb (prod_id p) (item_product_id i))
                  (Products db)) (SaleItems db) = false).
  { apply existsb_none. intros i I. rewrite (gone_spec prod_id).
    unfold has_product in H. rewrite H, andb_true_r.
    apply Pos.eqb_neq. intros E. apply NR. now exists i. }
  rewrite F, check_true. cbn [obind negb].
  rewrite rowcount_some by exact H. eexists. split; [reflexivity|].
  cbn [Customers Sales Products Purchases SaleItems].
  split; [reflexivity|]. split; [|now repeat split].
  apply filter_ext. intros u. rewrite (gone_spec prod_id).
  unfold has_product in H. now rewrite H, andb_true_r.
Qed.

Lemma delete_product_takes_purchases_witness :
  exists db',
    delete_product (Some 2) (world_of shop_with_gadget 0)
      = (Returned true, world_of db' 0) /\
    Products db' = [widget] /\
    Purchases db' = Purchases shop /\
    Customers db' = Customers shop_with_gadget /\
    Sales db' = Sales shop_with_gadget /\
    SaleItems db' = SaleItems shop_with_gadget.
Proof.
  assert (NR : ~ referenced shop_with_gadget 2).
  { intros (i & [<- | []] & E). discriminate E. }
  exact (delete_product_takes_purchases 2 (world_of shop_with_gadget 0)
           shop_with_gadget eq_refl eq_refl NR).
Defined.

(* ================================================================== *)
(** * What the validators accept *)
(* ================================================================== *)

Lemma py_int_whole (z : Z) (q : Q) : (q == inject_Z z)%Q -> py_int q = z.
Proof.
  unfold Qeq, py_int. cbn [Qnum Qden inject_Z]. intros E.
  rewrite Z.mul_1_r in E. rewrite E. apply Z.quot_mul. discriminate.
Qed.

Lemma validate_numeric_returned (value : option Q) (field_name : string)
    (min_value max_value : option Z) (x : Q) :
  validate_numeric value field_name min_value max_value = Returned x <->
  value = Some x /\ at_least min_value x /\ at_most max_value x.
Proof.
  unfold validate_numeric, py_float, at_least, at_most.
  destruct value as [v|]; [|split; [discriminate | now intros [[=] _]]].
  destruct min_value as [m|], max_value as [M|].
  - destruct (Qlt_bool v (inject_Z m)) eqn:A.
    + apply Qlt_bool_true in A. split; [discriminate|].
      intros ([= ->] & L & _). now apply Qlt_not_le in A.
    + apply Qlt_bool_false in A. destruct (Qlt_bool (inject_Z M) v) eqn:B.
      * apply Qlt_bool_true in B. split; [discriminate|].
        intros ([= ->] & _ & L). now apply Qlt_not_le in B.
      * apply Qlt_bool_false in B. split.
        -- now intros [= <-].
        -- now intros ([= ->] & _).
  - destruct (Qlt_bool v (inject_Z m)) eqn:A.
    + apply Qlt_bool_true in A. split; [discriminate|].
      intros ([= ->] & L & _). now apply Qlt_not_le in A.
    + apply Qlt_bool_false in A. split.
      * now intros [= <-].
      * now intros ([= ->] & _).
  - destruct (Qlt_bool (inject_Z M) v) eqn:B.
    + apply Qlt_bool_true in B. split; [discriminate|].
      intros ([= ->] & _ & L). now apply Qlt_not_le in B.
    + apply Qlt_bool_false in B. split.
      * now intros [= <-].
      * now intros ([= ->] & _).
  - split.
    + now intros [= <-].
    + now intros ([= ->] & _).
Qed.

Lemma validate_integer_returned (value : option Q) (field_name : string)
    (min_value max_value : option Z) (n : Z) :
  validate_integer value field_name min_value max_value = Returned n <->
  exists q : Q,
    value = Some q /\ (q == inject_Z n)%Q /\
    at_least min_value (inject_Z n) /\ at_most max_value (inject_Z n).
Proof.
  unfold validate_integer, py_float, at_least, at_most.
  destruct value as [v|]; [|split; [discriminate | now intros (q & [=] & _)]].
  cbv zeta. destruct (Qeq_bool v (inject_Z (py_int v))) eqn:W; cbn [negb].
  2:{ split; [discriminate|]. intros (q & [= <-] & E & _).
      rewrite (py_int_whole n v E) in W.
      apply Qeq_bool_iff in E. congruence. }
  apply Qeq_bool_iff in W.
  assert (B : forall a b : Z, (inject_Z a <= inject_Z b)%Q <-> (a <= b)%Z).
  { intros a b. now rewrite <- Zle_Qle. }
  destruct min_value as [m|], max_value as [M|].
  - destruct (Z.ltb_spec (py_int v) m) as [A | A].
    + split; [discriminate|]. intros (q & [= <-] & E & L & _).
      rewrite (py_int_whole n v E) in A. apply (proj1 (B _ _)) in L. lia.
    + destruct (Z.ltb_spec M (py_int v)) as [C | C].
      * split; [discriminate|]. intros (q & [= <-] & E & _ & L).
        rewrite (py_int_whole n v E) in C. apply (proj1 (B _ _)) in L. lia.
      * split.
        -- intros [= <-]. exists v. rewrite !B. now repeat split.
        -- intros (q & [= <-] & E & _). now rewrite (py_int_whole n v E).
  - destruct (Z.ltb_spec (py_int v) m) as [A | A].
    + split; [discriminate|]. intros (q & [= <-] & E & L & _).
      rewrite (py_int_whole n v E) in A. apply (proj1 (B _ _)) in L. lia.
    + split.
      * intros [= <-]. exists v. rewrite !B. now repeat split.
      * intros (q & [= <-] & E & _). now rewrite (py_int_whole n v E).
  - destruct (Z.ltb_spec M (py_int v)) as [C | C].
    + split; [discriminate|]. intros (q & [= <-] & E & _ & L).
      rewrite (py_int_whole n v E) in C. apply (proj1 (B _ _)) in L. lia.
    + split.
      * intros [= <-]. exists v. rewrite !B. now repeat split.
      * intros (q & [= <-] & E & _). now rewrite (py_int_whole n v E).
  - split.
    + intros [= <-]. exists v. now repeat split.
    + intros (q & [= <-] & E & _). now rewrite (py_int_whole n v E).
Qed.


(* ------------------------------------------------------------------ *)
(** ** Patterns *)

(** What a repetition matches: a prefix of characters of the class,
    whose number (with the [n] already consumed) lies within the bounds,
    followed by something that the rest of the pattern matches. *)
Lemma rep_spec (a : atom) (k : string -> bool) (s : string) (n : nat) :
  rep a k n s = true <->
  exists pre post : string,
    s = (pre ++ post)%string /\
    str_forall (cls a) pre = true /\
    (lo a <= n + String.length pre)%nat /\
    match hi a with
    | Some h => pre = EmptyString \/ (n + String.length pre <= h)%nat
    | None => True
    end /\
    k post = true.
Proof.
  revert n. induction s as [|c s IH]; intros n; cbn [rep].
  - rewrite orb_false_r, andb_true_iff, Nat.leb_le. split.
    + intros [L K]. exists EmptyString, EmptyString. cbn.
      repeat split; try assumption; try lia. destruct (hi a); auto.
    + intros (pre & post & E & F & L & H & K).
      destruct pre; [|discriminate E]. cbn in E. subst post. cbn in L.
      split; [lia | exact K].
  - rewrite orb_true_iff, !andb_true_iff, Nat.leb_le. split.
    + intros [[L K] | [[B C] R]].
      * exists EmptyString, (String c s). cbn.
        repeat split; try assumption; try lia. destruct (hi a); auto.
      * apply IH in R as (pre & post & E & F & L & H & K).
        exists (String c pre), post. subst s.
        cbn [append str_forall String.length]. rewrite C, F.
        split; [reflexivity|]. split; [reflexivity|]. split; [lia|].
        split; [|exact K]. destruct (hi a) as [h|]; [|exact I]. right.
        cbn [below] in B. apply Nat.ltb_lt in B.
        destruct H as [-> | H]; cbn [String.length]; lia.
    + intros (pre & post & E & F & L & H & K). destruct pre as [|c' pre].
      * left. cbn in E. subst post. cbn in L. split; [lia | exact K].
      * right. cbn [append] in E. injection E as <- ->.
        cbn [str_forall] in F. apply andb_true_iff in F as [C F].
        cbn [String.length] in L, H. split; [split; [|exact C]|].
        -- destruct (hi a) as [h|]; [|reflexivity]. cbn [below].
           apply Nat.ltb_lt. destruct H as [H | H]; [discriminate | lia].
        -- apply IH. exists pre, post. split; [reflexivity|].
           split; [exact F|]. split; [lia|]. split; [|exact K].
           destruct (hi a) as [h|]; [|exact I]. right.
           destruct H as [H | H]; [discriminate | lia].
Qed.

(** A class of one character, once. *)
Lemma single_char (d : ascii) (pre : string) :
  str_forall (is_char d) pre = true -> (1 <= String.length pre)%nat ->
  pre = EmptyString \/ (String.length pre <= 1)%nat ->
  pre = String d EmptyString.
Proof.
  destruct pre as [|c [|c' pre]]; cbn [String.length str_forall]; intros F L H.
  - lia.
  - rewrite andb_true_r in F. unfold is_char in F.
    apply Ascii.eqb_eq in F. now subst c.
  - destruct H as [H | H]; [discriminate | lia].
Qed.

Lemma at_end_spec (s : string) :
  at_end s = true <-> s = EmptyString \/ s = String "010" EmptyString.
Proof.
  destruct s as [|c [|c' s]]; cbn [at_end].
  - split; auto.
  - unfold is_char. rewrite Ascii.eqb_eq. split.
    + intros <-. now right.
    + now intros [H | [= <-]].
  - split; [discriminate | now intros [H | H]].
Qed.

Lemma re_match_email (e : string) :
  re_match email_pattern e = true <-> email_shape e.
Proof.
  unfold email_pattern, email_shape. rewrite re_match_cons, rep_spec. split.
  - intros (local & r1 & -> & F1 & L1 & _ & K).
    rewrite re_match_cons, rep_spec in K.
    destruct K as (at1 & r2 & -> & F2 & L2 & H2 & K).
    rewrite (single_char _ at1 F2 L2 H2).
    rewrite re_match_cons, rep_spec in K.
    destruct K as (domain & r3 & -> & F3 & L3 & _ & K).
    rewrite re_match_cons, rep_spec in K.
    destruct K as (dot & r4 & -> & F4 & L4 & H4 & K).
    rewrite (single_char _ dot F4 L4 H4).
    rewrite re_match_cons, rep_spec in K.
    destruct K as (tld & r5 & -> & F5 & L5 & _ & K).
    cbn [re_match] in K. apply at_end_spec in K.
    exists local, domain, tld, r5. cbn [lo cls] in *. now repeat split.
  - intros (local & domain & tld & ending & -> & E & F1 & L1 & F3 & L3 & F5 & L5).
    exists local, ("@" ++ domain ++ "." ++ tld ++ ending)%string. cbn [lo hi cls].
    split; [reflexivity|]. split; [exact F1|]. split; [lia|]. split; [exact I|].
    rewrite re_match_cons, rep_spec.
    exists "@"%string, (domain ++ "." ++ tld ++ ending)%string. cbn [lo hi cls].
    split; [reflexivity|]. split; [reflexivity|]. split; [cbn; lia|].
    split; [right; cbn; lia|].
    rewrite re_match_cons, rep_spec.
    exists domain, ("." ++ tld ++ ending)%string. cbn [lo hi cls].
    split; [reflexivity|]. split; [exact F3|]. split; [lia|]. split; [exact I|].
    rewrite re_match_cons, rep_spec.
    exists "."%string, (tld ++ ending)%string. cbn [lo hi cls].
    split; [reflexivity|]. split; [reflexivity|]. split; [cbn; lia|].
    split; [right; cbn; lia|].
    rewrite re_match_cons, rep_spec.
    exists tld, ending. cbn [lo hi cls].
    split; [reflexivity|]. split; [exact F5|]. split; [lia|]. split; [exact I|].
    cbn [re_match]. now apply at_end_spec.
Qed.

(** X19.  What [validate_email] accepts: no address, a blank string, and
    the strings made of a local part, [@], a domain, a dot and at least
    two letters, with characters of the three classes of the pattern; a
    newline at the very end is let through, as [$] matches before it.
    What is accepted is returned as it is, everything else raises the
    validation failure of the format. *)
Theorem validate_email_spec (email : option string) :
  (validate_email email = Returned email <->
   match email with
   | None => True
   | Some e => str_forall is_space e = true \/ email_shape e
   end) /\
  (validate_email email = Returned email \/
   validate_email email = Raised (ValidationError "Format d'email invalide.")).
Proof.
  unfold validate_email. destruct email as [e|]; [|now split; [split|left]].
  rewrite py_not_blank. destruct (str_forall is_space e).
  - split; [split; auto | now left].
  - destruct (re_match email_pattern e) eqn:R; cbn [negb].
    + split; [|now left]. split; [|reflexivity].
      intros _. right. now apply re_match_email.
    + split; [|now right]. split; [discriminate|].
      intros [H | H]; [discriminate|].
      apply re_match_email in H. congruence.
Qed.

Lemma validate_required_text (name : option string) (field_name : string)
    (v : option string) :
  validate_required name field_name = Returned v <-> v = name /\ visible name.
Proof.
  unfold validate_required, visible. destruct name as [s|].
  - change (py_not (Some s) || py_blank (Some s))
      with (py_not s || String.eqb (strip s) "").
    rewrite py_not_blank. destruct (str_forall is_space s) eqn:B.
    + split; [discriminate|]. intros [_ (s' & [= <-] & H)]. congruence.
    + split.
      * intros [= <-]. split; [reflexivity|]. now exists s.
      * now intros [-> _].
  - cbn. split; [discriminate|]. now intros [_ (s' & [=] & _)].
Qed.

Lemma validate_phone_returned (phone v : option string) :
  validate_phone phone = Returned v <->
  v = phone /\ absent_or (fun s => phone_shape (clean_phone s)) phone.
Proof.
  unfold validate_phone, absent_or. destruct phone as [s|].
  2:{ split; [now intros [= <-] | now intros [-> _]]. }
  rewrite py_not_blank. destruct (str_forall is_space s).
  - split; [intros [= <-]; auto | now intros [-> _]].
  - pose proof (re_match_phone (clean_phone s)
                  (no_separator_no_newline _ (clean_phone_no_separator s))) as R.
    destruct (re_match phone_pattern (clean_phone s)); cbn [negb].
    + split; [|now intros [-> _]]. intros [= <-]. split; [reflexivity|].
      right. now apply R.
    + split; [discriminate|]. intros [_ [H | H]]; [discriminate|].
      apply R in H. discriminate H.
Qed.

Lemma validate_email_returned (email v : option string) :
  validate_email email = Returned v <-> v = email /\ absent_or email_shape email.
Proof.
  unfold validate_email, absent_or. destruct email as [s|].
  2:{ split; [now intros [= <-] | now intros [-> _]]. }
  rewrite py_not_blank. destruct (str_forall is_space s).
  - split; [intros [= <-]; auto | now intros [-> _]].
  - destruct (re_match email_pattern s) eqn:R; cbn [negb].
    + split; [|now intros [-> _]]. intros [= <-]. split; [reflexivity|].
      right. now apply re_match_email.
    + split; [discriminate|]. intros [_ [H | H]]; [discriminate|].
      apply re_match_email in H. congruence.
Qed.

(** [if phone: phone = validate_phone(phone)] and its like: the test in
    front of the validator lets through what the validator lets through
    anyway. *)
Lemma guarded_validator (check_it : option string -> outcome (option string))
    (shape : string -> Prop) (text v : option string) :
  (forall t u, check_it t = Returned u <-> u = t /\ absent_or shape t) ->
  (if py_not text then Returned text else check_it text) = Returned v <->
  v = text /\ absent_or shape text.
Proof.
  intros H. destruct (py_not text) eqn:N; [|apply H].
  split; [|now intros [-> _]]. intros [= <-]. split; [reflexivity|].
  destruct text as [s|]; [|exact I]. left.
  cbn [py_not PyValue_option PyValue_string] in N.
  apply String.eqb_eq in N. now subst s.
Qed.


(* ================================================================== *)
(** * The UNIQUE columns *)
(* ================================================================== *)

Lemma opt_eqb_sym (a b : option string) : opt_eqb a b = opt_eqb b a.
Proof. destruct a, b; cbn; try reflexivity. apply String.eqb_sym. Qed.

Lemma unique_column_append {R} (key : R -> positive) (col : R -> option string)
    (rows : list R) (new : R) :
  existsb (fun r => opt_eqb (col r) (col new)) rows = false ->
  unique_column key col rows -> unique_column key col (rows ++ [new]).
Proof.
  intros C U o r Io Ir E.
  assert (F : forall x, In x rows -> opt_eqb (col x) (col new) = false).
  { intros x Ix. destruct (opt_eqb (col x) (col new)) eqn:X; [|reflexivity].
    rewrite <- C. symmetry. apply existsb_exists. now exists x. }
  apply in_app_or in Io as [Io | [<- | []]]; apply in_app_or in Ir as [Ir | [<- | []]].
  - now apply U.
  - rewrite (F o Io) in E. discriminate E.
  - rewrite opt_eqb_sym, (F r Ir) in E. discriminate E.
  - reflexivity.
Qed.

Lemma unique_column_filter {R} (key : R -> positive) (col : R -> option string)
    (keep : R -> bool) (rows : list R) :
  unique_column key col rows -> unique_column key col (filter keep rows).
Proof.
  intros U o r Io Ir. apply filter_In in Io as [Io _]. apply filter_In in Ir as [Ir _].
  now apply U.
Qed.

(** A change of the rows that touches neither the key nor the column. *)
Lemma unique_column_map {R} (key : R -> positive) (col : R -> option string)
    (f : R -> R) (rows : list R) :
  (forall r, key (f r) = key r) -> (forall r, col (f r) = col r) ->
  unique_column key col rows -> unique_column key col (map f rows).
Proof.
  intros K C U o' r' Io Ir.
  apply in_map_iff in Io as (o & <- & Io). apply in_map_iff in Ir as (r & <- & Ir).
  rewrite !K, !C. now apply U.
Qed.

(** An UPDATE of the rows with a given key, checked as the statements
    check it: no updated row shares its value with a row of another
    key. *)
Lemma unique_column_update {R} (key : R -> positive) (col : R -> option string)
    (sel : R -> bool) (f : R -> R) (rows : list R) :
  (forall r, key (f r) = key r) ->
  (forall a b, key a = key b -> sel a = sel b) ->
  existsb (fun r => sel r &&
             existsb (fun o => negb (Pos.eqb (key o) (key r))
                               && opt_eqb (col o) (col r))
               (set_where sel f rows)) (set_where sel f rows) = false ->
  unique_column key col rows ->
  unique_column key col (set_where sel f rows).
Proof.
  intros K S C U.
  assert (F : forall r o, In r (set_where sel f rows) -> In o (set_where sel f rows) ->
                sel r = true -> opt_eqb (col o) (col r) = true -> key o = key r).
  { intros r o Ir Io Sr E.
    destruct (Pos.eqb_spec (key o) (key r)) as [Eq | N]; [exact Eq|].
    exfalso. enough (X : false = true) by discriminate X.
    rewrite <- C. apply existsb_exists. exists r. split; [exact Ir|].
    rewrite Sr. cbn [andb]. apply existsb_exists. exists o. split; [exact Io|].
    rewrite E, andb_true_r. apply negb_true_iff. now apply Pos.eqb_neq. }
  intros o' r' Io Ir E.
  destruct (sel r') eqn:Sr; [now apply (F r' o')|].
  destruct (sel o') eqn:So.
  { symmetry. apply (F o' r'); try assumption. now rewrite opt_eqb_sym. }
  unfold set_where in Io, Ir.
  apply in_map_iff in Io as (o & Eo & Io). apply in_map_iff in Ir as (r & Er & Ir).
  assert (So' : sel o = false).
  { rewrite <- So. apply S. subst o'. destruct (sel o); [now rewrite K | reflexivity]. }
  assert (Sr' : sel r = false).
  { rewrite <- Sr. apply S. subst r'. destruct (sel r); [now rewrite K | reflexivity]. }
  rewrite So' in Eo. rewrite Sr' in Er. subst o' r'. now apply U.
Qed.

Ltac unique_split :=
  unfold unique_ok in *; cbn [Customers Products with_Products];
  repeat match goal with H : _ /\ _ |- _ => destruct H end;
  refine (conj _ (conj _ _)); try assumption.

Lemma adjust_stock_unique_ok (k : positive) (delta : Q) (db db' : database) :
  adjust_stock k delta db = Returned db' -> unique_ok db -> unique_ok db'.
Proof.
  intros H I. apply adjust_stock_returned in H as (-> & _). unique_split.
  unfold set_where. apply unique_column_map; [| |assumption].
  - intros p. now destruct (Pos.eqb (prod_id p) k).
  - intros p. now destruct (Pos.eqb (prod_id p) k).
Qed.

Lemma INSERT_Customers_unique_ok (name address phone email : option string)
    (db db' : database) (id : positive) :
  INSERT_Customers name address phone email db = Returned (id, db') ->
  unique_ok db -> unique_ok db'.
Proof.
  unfold INSERT_Customers. destruct name; [|discriminate].
  intros H I. split_obind H. injection H as _ <-.
  apply negb_true_iff in C, C0. unique_split;
    now apply unique_column_append.
Qed.

Lemma key_is_respects (id : option Z) (a b : positive) :
  a = b ->
  match id with Some z => key_is z a | None => false end =
  match id with Some z => key_is z b | None => false end.
Proof. now intros ->. Qed.

Lemma UPDATE_Customers_unique_ok (name address phone email : option string)
    (id : option Z) (db db' : database) (count : nat) :
  UPDATE_Customers name address phone email id db = Returned (count, db') ->
  unique_ok db -> unique_ok db'.
Proof.
  unfold UPDATE_Customers. cbv zeta. destruct (rowcount _ _).
  - now intros [= _ <-].
  - destruct name; [|discriminate]. intros H I. split_obind H.
    injection H as _ <-. apply negb_true_iff in C, C0. unique_split.
    + apply unique_column_update; try assumption; [reflexivity|].
      intros a b. apply key_is_respects.
    + apply unique_column_update; try assumption; [reflexivity|].
      intros a b. apply key_is_respects.
Qed.

Lemma DELETE_Customers_unique_ok (id : option Z) (db db' : database) (count : nat) :
  DELETE_Customers id db = Returned (count, db') -> unique_ok db -> unique_ok db'.
Proof.
  unfold DELETE_Customers. cbv zeta. intros [= _ <-] I. unique_split;
    now apply unique_column_filter.
Qed.

Lemma INSERT_Products_unique_ok (name description category : option string)
    (purchase_price selling_price : Q) (initial_stock : option Z)
    (db db' : database) (id : positive) :
  INSERT_Products name description category purchase_price selling_price
    initial_stock db = Returned (id, db') ->
  unique_ok db -> unique_ok db'.
Proof.
  unfold INSERT_Products.
  destruct name; [|discriminate]. destruct initial_stock; [|discriminate].
  cbv zeta. intros H I. split_obind H. injection H as _ <-.
  apply negb_true_iff in C2. unique_split.
  now apply unique_column_append.
Qed.

Lemma UPDATE_Products_unique_ok (name description category : option string)
    (purchase_price selling_price : Q) (id : option Z) (db db' : database)
    (count : nat) :
  UPDATE_Products name description category purchase_price selling_price id db
    = Returned (count, db') ->
  unique_ok db -> unique_ok db'.
Proof.
  unfold UPDATE_Products. cbv zeta. destruct (rowcount _ _).
  - now intros [= _ <-].
  - destruct name; [|discriminate]. intros H I. split_obind H.
    injection H as _ <-. apply negb_true_iff in C1. unique_split.
    apply unique_column_update; try assumption; [reflexivity|].
    intros a b. apply key_is_respects.
Qed.

Lemma DELETE_Products_unique_ok (id : option Z) (db db' : database) (count : nat) :
  DELETE_Products id db = Returned (count, db') -> unique_ok db -> unique_ok db'.
Proof.
  unfold DELETE_Products. cbv zeta. intros H I. split_obind H.
  injection H as _ <-. unique_split. now apply unique_column_filter.
Qed.

Lemma INSERT_Purchases_unique_ok (product_id : option Z) (quantity : Q)
    (purchase_date : string) (cost_per_unit : Q) (supplier : option string)
    (db db' : database) (id : positive) :
  INSERT_Purchases product_id quantity purchase_date cost_per_unit supplier db
    = Returned (id, db') ->
  unique_ok db -> unique_ok db'.
Proof.
  unfold INSERT_Purchases. destruct product_id as [z|]; [|discriminate].
  intros H I. split_obind H. destruct (key_of z); [|discriminate].
  unfold increase_stock_on_purchase in H. split_obind H. injection H as _ <-.
  eapply adjust_stock_unique_ok; [exact C1|]. exact I.
Qed.

Lemma INSERT_Sales_unique_ok (customer_id : option Z) (sale_date : string)
    (total_amount : Q) (db db' : database) (id : positive) :
  INSERT_Sales customer_id sale_date total_amount db = Returned (id, db') ->
  unique_ok db -> unique_ok db'.
Proof.
  unfold INSERT_Sales. intros H I. split_obind H. injection H as _ <-. exact I.
Qed.

Lemma INSERT_SaleItems_unique_ok (sale : positive) (product_id : option Z)
    (quantity price_at_sale : option Q) (db db' : database) (id : positive) :
  INSERT_SaleItems sale product_id quantity price_at_sale db = Returned (id, db') ->
  unique_ok db -> unique_ok db'.
Proof.
  unfold INSERT_SaleItems.
  destruct product_id as [z|]; [|discriminate].
  destruct quantity as [q|]; [|discriminate].
  destruct price_at_sale as [price|]; [|discriminate].
  intros H I. split_obind H. destruct (key_of z); [|discriminate].
  unfold decrease_stock_on_sale in H. split_obind H. injection H as _ <-.
  eapply adjust_stock_unique_ok; [exact C1|]. exact I.
Qed.

(** X21.  The UNIQUE columns stay unique under every call: if no two
    customers share a phone number or an email address and no two
    products share a name before a call, the same holds after it, so
    that neither an insertion nor an update can bring a duplicate in. *)
Theorem unique_columns_stay_unique :
  preserves unique_ok initialize_database /\
  (forall name phone email address,
     preserves unique_ok (add_customer name phone email address)) /\
  (forall id name phone email address,
     preserves unique_ok (update_customer id name phone email address)) /\
  (forall id, preserves unique_ok (delete_customer id)) /\
  (forall name description category purchase_price selling_price initial_stock,
     preserves unique_ok
       (add_product name description category purchase_price selling_price
          initial_stock)) /\
  (forall id name description category purchase_price selling_price,
     preserves unique_ok
       (update_product id name description category purchase_price selling_price)) /\
  (forall id, preserves unique_ok (delete_product id)) /\
  (forall id quantity cost_per_unit supplier purchase_date_str now,
     preserves unique_ok
       (add_purchase id quantity cost_per_unit supplier purchase_date_str now)) /\
  (forall sale_items customer_id sale_date_str now,
     preserves unique_ok (add_sale sale_items customer_id sale_date_str now)).
Proof.
  refine (conj _ (conj _ (conj _ (conj _ (conj _ (conj _ (conj _ (conj _ _))))))));
    intros.
  - apply preserves_initialize_database.
    unfold unique_ok, unique_column. cbn. repeat split; intros o r [].
  - unfold add_customer. repeat preserves_step.
    intros db x db'. apply INSERT_Customers_unique_ok.
  - unfold update_customer. repeat preserves_step.
    intros db x db'. apply UPDATE_Customers_unique_ok.
  - unfold delete_customer. repeat preserves_step.
    intros db x db'. apply DELETE_Customers_unique_ok.
  - unfold add_product. repeat preserves_step.
    intros db x db'. apply INSERT_Products_unique_ok.
  - unfold update_product. repeat preserves_step.
    intros db x db'. apply UPDATE_Products_unique_ok.
  - unfold delete_product. repeat preserves_step.
    intros db x db'. apply DELETE_Products_unique_ok.
  - unfold add_purchase. repeat preserves_step.
    intros db x db'. apply INSERT_Purchases_unique_ok.
  - apply preserves_add_sale.
    + intros c d t x y i. apply INSERT_Sales_unique_ok.
    + intros s p q r x y i. apply INSERT_SaleItems_unique_ok.
Qed.

Lemma unique_columns_stay_unique_witness :
  file_satisfies unique_ok (world_of shop_with_customer 0) /\
  file_satisfies unique_ok
    (snd (update_customer (Some 1) (Some "Alice B.") (Some "0555123456") None None
            (world_of shop_with_customer 0))).
Proof.
  assert (H : file_satisfies unique_ok (world_of shop_with_customer 0)).
  { intros db [= <-]. unfold unique_ok, unique_column. cbn.
    repeat split; intros o r [<- | []] [<- | []] _; reflexivity. }
  split; [exact H|].
  destruct unique_columns_stay_unique as (_ & _ & U & _).
  exact (U (Some 1) (Some "Alice B."%string) (Some "0555123456"%string) None None _ H).
Defined.

(* ================================================================== *)
(** * Updating a customer *)
(* ================================================================== *)

Lemma rowcount_positive {R} (sel : R -> bool) (rows : list R) (n : nat) :
  rowcount sel rows = S n -> exists r, In r rows /\ sel r = true.
Proof.
  unfold rowcount. destruct (filter sel rows) as [|r l] eqn:F; [discriminate|].
  intros _. exists r. apply filter_In. rewrite F. now left.
Qed.

(** X22.  What a successful [update_customer] has done: it returns
    [True] only for the key of a customer on file, and then the row of
    this customer carries the name, address, phone number and email
    address of the call, an argument left out being stored as NULL;
    the key of the row, the other customers and the other tables are
    as they were. *)
Theorem update_customer_changes_one_row (customer_id : option Z)
    (name phone email address : option string) (w w' : world) (b : bool) :
  update_customer customer_id name phone email address w = (Returned b, w') ->
  b = true /\
  exists (db db' : database) (z : Z) (n : string),
    customer_id = Some z /\ name = Some n /\
    disk w = Some db /\ w' = world_of db' (open_conns w) /\
    (exists c, In c (Customers db) /\ key_is z (cust_id c) = true) /\
    Forall2 (customer_updated z n address phone email) (Customers db) (Customers db') /\
    Products db' = Products db /\ Purchases db' = Purchases db /\
    Sales db' = Sales db /\ SaleItems db' = SaleItems db.
Proof.
  unfold update_customer. intros H. apply handle_db_error_returns in H.
  rewrite lift_bind_run in H.
  destruct (validate_required customer_id _) as [v|e] eqn:V; [|discriminate H].
  apply validate_required_id in V as [_ (z & -> & Nz)].
  rewrite lift_bind_run in H.
  destruct (validate_customer_data name phone email) as [t|e] eqn:T; [|discriminate H].
  pose proof (validate_customer_data_name _ _ _ _ T) as [n ->].
  pose proof (validate_customer_data_returned _ _ _ _ T) as ->.
  destruct (disk w) as [db|] eqn:D.
  2:{ now rewrite (scoped_statement_bare _ _ _ w D) in H. }
  rewrite (scoped_statement_run _ _ _ w db D) in H by pure_post.
  unfold UPDATE_Customers in H. cbv zeta in H.
  destruct (rowcount _ (Customers db)) as [|count] eqn:RC; [discriminate H|].
  apply rowcount_positive in RC as [c [Ic Sc]].
  destruct (check _ (UNIQUE_failed "Customers.phone")); [|discriminate H].
  cbn [obind] in H.
  destruct (check _ (UNIQUE_failed "Customers.email")); [|discriminate H].
  cbn [obind] in H. injection H as <- <-. split; [reflexivity|].
  eexists db, _, z, n. repeat (split; [reflexivity|]).
  split; [now exists c|]. cbn [Customers Products Purchases Sales SaleItems].
  split; [|now repeat split].
  unfold set_where. apply Forall2_map_right. intros r. unfold customer_updated.
  now destruct (key_is z (cust_id r)).
Qed.

Lemma update_customer_changes_one_row_witness :
  exists w' : world,
    update_customer (Some 1) (Some "Alice B.") None None None
      (world_of shop_with_customer 0) = (Returned true, w') /\
    exists (db db' : database) (z : Z) (n : string),
      Some 1 = Some z /\ Some "Alice B."%string = Some n /\
      disk (world_of shop_with_customer 0) = Some db /\
      w' = world_of db' (open_conns (world_of shop_with_customer 0)) /\
      (exists c, In c (Customers db) /\ key_is z (cust_id c) = true) /\
      Forall2 (customer_updated z n None None None) (Customers db) (Customers db') /\
      Products db' = Products db /\ Purchases db' = Purchases db /\
      Sales db' = Sales db /\ SaleItems db' = SaleItems db.
Proof.
  eexists. split; [vm_compute; reflexivity|].
  exact (proj2 (update_customer_changes_one_row (Some 1) (Some "Alice B.") None None
                  None (world_of shop_with_customer 0) _ true eq_refl)).
Defined.

(* ================================================================== *)
(** * Additions that go through *)
(* ================================================================== *)

Lemma existsb_taken {R} (col : R -> option string) (value : option string)
    (rows : list R) :
  existsb (fun r => opt_eqb (col r) value) rows = true -> taken col value rows.
Proof.
  intros H. apply existsb_exists in H as (r & I & E).
  destruct (col r) as [s|] eqn:C, value as [s'|]; try discriminate E.
  cbn in E. apply String.eqb_eq in E. subst s'. now exists r, s.
Qed.

Lemma not_taken {R} (col : R -> option string) (value : option string)
    (rows : list R) :
  ~ taken col value rows -> existsb (fun r => opt_eqb (col r) value) rows = false.
Proof.
  intros N. destruct (existsb _ rows) eqn:E; [|reflexivity].
  now apply existsb_taken in E.
Qed.

(** A purchase goes in when its product exists and the stock is sound. *)
Lemma INSERT_Purchases_succeeds (k : positive) (q : Q) (purchase_date : string)
    (cost : Q) (supplier : option string) (db : database) :
  (1 <= q)%Q -> (0 <= cost)%Q -> has_product db k = true -> stock_ok db ->
  exists db',
    INSERT_Purchases (Some (Z.pos k)) q purchase_date cost supplier db
      = Returned (N.succ_pos (seq_Purchases db), db') /\
    Purchases db' =
      (Purchases db ++
       [{| pur_id := N.succ_pos (seq_Purchases db); pur_product_id := k;
           pur_quantity := q; purchase_date := purchase_date;
           cost_per_unit := cost; supplier := supplier |}])%list.
Proof.
  intros Lq Lc Hk S. unfold INSERT_Purchases. cbn [key_of].
  assert (Pq : (0 < q)%Q) by (apply Qlt_le_trans with (y := 1%Q); easy).
  rewrite (proj2 (Qlt_bool_true _ _) Pq), check_true. cbn [obind].
  rewrite (proj2 (Qle_bool_iff _ _) Lc), check_true. cbn [obind]. cbv zeta.
  unfold increase_stock_on_purchase, adjust_stock.
  cbn [pur_product_id pur_quantity Products]. cbv zeta.
  assert (C : forallb (fun p => negb (Pos.eqb (prod_id p) k)
                                || Qle_bool 0 (quantity_in_stock p))
                (set_where (fun p => Pos.eqb (prod_id p) k) (add_stock q)
                   (Products db)) = true).
  { apply forallb_forall. intros p' I. unfold set_where in I.
    apply in_map_iff in I as (p & <- & I).
    unfold stock_ok in S. rewrite Forall_forall in S. specialize (S p I).
    destruct (Pos.eqb_spec (prod_id p) k) as [E | N].
    - cbn [add_stock prod_id quantity_in_stock].
      apply orb_true_iff. right. apply Qle_bool_iff.
      change 0%Q with (0 + 0)%Q. apply Qplus_le_compat; [exact S|].
      now apply Qlt_le_weak.
    - apply orb_true_iff. left. apply negb_true_iff. now apply Pos.eqb_neq. }
  rewrite C, check_true. cbn [obind].
  unfold has_product in *. cbn [with_Products Products].
  rewrite existsb_set_where by reflexivity. rewrite Hk, check_true. cbn [obind].
  eexists. split; reflexivity.
Qed.



(* ================================================================== *)
(** * Sales and their items *)
(* ================================================================== *)

Lemma items_total_cons (sale : positive) (i : sale_item) (items : list sale_item) :
  items_total sale (i :: items) =
  if Pos.eqb (item_sale_id i) sale
  then (item_quantity i * item_price_at_sale i + items_total sale items)%Q
  else items_total sale items.
Proof. reflexivity. Qed.

Lemma items_total_app (sale : positive) (a b : list sale_item) :
  (items_total sale (a ++ b) == items_total sale a + items_total sale b)%Q.
Proof.
  induction a as [|i a IH]; cbn [app].
  - unfold items_total at 2. cbn. now rewrite Qplus_0_l.
  - rewrite !items_total_cons. destruct (Pos.eqb (item_sale_id i) sale).
    + rewrite IH. now rewrite Qplus_assoc.
    + exact IH.
Qed.

Lemma items_total_none (sale : positive) (items : list sale_item) :
  (forall i, In i items -> item_sale_id i <> sale) -> items_total sale items = 0%Q.
Proof.
  induction items as [|i items IH]; intros H; [reflexivity|].
  rewrite items_total_cons.
  destruct (Pos.eqb_spec (item_sale_id i) sale) as [E | _].
  - now elim (H i (or_introl eq_refl)).
  - apply IH. intros j I. apply H. now right.
Qed.

(** The rows that store the lines of a sale add up to the total of the
    lines. *)
Lemma items_total_rows (sale : positive) (sale_items : list sale_line)
    (rows : list sale_item) :
  Forall2 (stores_line sale) sale_items rows ->
  (items_total sale rows == lines_total sale_items)%Q.
Proof.
  induction 1 as [|item row sale_items rows (S & _ & Eq & Ep) F IH].
  - reflexivity.
  - rewrite items_total_cons, lines_total_cons, S, Pos.eqb_refl, IH.
    unfold line_amount. now rewrite Eq, Ep.
Qed.

(** The totals depend on the keys and totals of the sales and on the
    sale items alone. *)
Lemma totals_ok_frame (db db' : database) :
  SaleItems db' = SaleItems db ->
  map (fun s => (sale_id s, total_amount s)) (Sales db')
    = map (fun s => (sale_id s, total_amount s)) (Sales db) ->
  totals_ok db -> totals_ok db'.
Proof.
  unfold totals_ok. intros -> E T. revert E T.
  generalize (Sales db) as old. induction (Sales db') as [|s' new IH];
    intros [|s old]; cbn [map]; try discriminate; intros E T; constructor.
  - injection E as Ei Et _. apply Forall_inv in T. now rewrite Ei, Et.
  - injection E as _ _ E. apply Forall_inv_tail in T. now apply (IH old).
Qed.

Lemma INSERT_Sales_key (customer_id : option Z) (sale_date : string)
    (total_amount : Q) (db db' : database) (id : positive) :
  INSERT_Sales customer_id sale_date total_amount db = Returned (id, db') ->
  id = N.succ_pos (seq_Sales db).
Proof.
  unfold INSERT_Sales. intros H. split_obind H. now injection H as <- _.
Qed.

(** The sale transaction keeps the totals: the new sale is worth its
    lines, and the new items belong to the new sale alone. *)
Lemma sale_transaction_totals_ok (customer_id : option Z) (sale_date : string)
    (sale_items : list sale_line) (t : Q) (db db' : database) (id : positive) :
  validate_lines sale_items 0 = Returned t ->
  sale_transaction customer_id sale_date t sale_items db = Returned (id, db') ->
  keys_ok db -> refs_ok db -> totals_ok db -> totals_ok db'.
Proof.
  intros V T K R To. unfold sale_transaction in T.
  apply obind_returned in T as ([id1 db1] & I & T). cbn [fst snd] in T.
  apply obind_returned in T as (db2 & L & T). injection T as <- <-.
  pose proof (INSERT_Sales_key _ _ _ _ _ _ I) as Ek.
  pose proof (insert_lines_returned _ _ _ _ L) as (_ & _ & Sb).
  apply insert_lines_rows in L as (_ & _ & _ & rows & S2 & F).
  apply INSERT_Sales_returned in I as (Sa & _ & Si & _).
  apply validate_lines_returned in V as [_ Vt].
  destruct K as (_ & _ & _ & Ks & _). destruct R as (_ & Ri & _).
  assert (Fresh : forall s, In s (Sales db) -> sale_id s <> id1).
  { intros s Is. rewrite Ek. now apply (table_keys_ok_fresh sale_id _ _ s Ks). }
  assert (Rows : forall i, In i rows -> item_sale_id i = id1).
  { clear - F. induction F as [|item row l l' (S & _) F IH]; intros i [].
    - now subst.
    - now apply IH. }
  assert (Old : items_total id1 (SaleItems db) = 0%Q).
  { apply items_total_none. intros i Ii E.
    rewrite Forall_forall in Ri. destruct (Ri i Ii) as [Hs _].
    unfold has_sale in Hs. apply existsb_exists in Hs as (s & Is & Es).
    apply Pos.eqb_eq in Es. apply (Fresh s Is). congruence. }
  unfold totals_ok in *. rewrite Sb, Sa, S2, Si. apply Forall_app. split.
  - apply Forall_forall. intros s Is. rewrite Forall_forall in To.
    rewrite items_total_app, (To s Is).
    rewrite (items_total_none (sale_id s) rows).
    + now rewrite Qplus_0_r.
    + intros i Ii E. apply (Fresh s Is). rewrite <- E. now apply Rows.
  - constructor; [|constructor]. cbn [total_amount sale_id].
    rewrite items_total_app, Old, Qplus_0_l, (items_total_rows _ _ _ F), Vt.
    now rewrite Qplus_0_l.
Qed.

(** The statements outside the sale transaction leave the sale items and
    the keys and totals of the sales alone. *)
Lemma INSERT_Customers_totals_ok (name address phone email : option string)
    (db db' : database) (id : positive) :
  INSERT_Customers name address phone email db = Returned (id, db') ->
  totals_ok db -> totals_ok db'.
Proof.
  unfold INSERT_Customers. destruct name; [|discriminate].
  intros H. split_obind H. injection H as _ <-. now apply totals_ok_frame.
Qed.

Lemma UPDATE_Customers_totals_ok (name address phone email : option string)
    (id : option Z) (db db' : database) (count : nat) :
  UPDATE_Customers name address phone email id db = Returned (count, db') ->
  totals_ok db -> totals_ok db'.
Proof.
  unfold UPDATE_Customers. cbv zeta. destruct (rowcount _ _).
  - now intros [= _ <-].
  - destruct name; [|discriminate]. intros H. split_obind H.
    injection H as _ <-. now apply totals_ok_frame.
Qed.

Lemma DELETE_Customers_totals_ok (id : option Z) (db db' : database) (count : nat) :
  DELETE_Customers id db = Returned (count, db') -> totals_ok db -> totals_ok db'.
Proof.
  unfold DELETE_Customers. cbv zeta. intros [= _ <-].
  apply totals_ok_frame; [reflexivity|]. cbn [Sales].
  rewrite map_map. apply map_ext. intros s.
  destruct (sale_customer_id s); [|reflexivity].
  now destruct (existsb _ (Customers db)).
Qed.

Lemma INSERT_Products_totals_ok (name description category : option string)
    (purchase_price selling_price : Q) (initial_stock : option Z)
    (db db' : database) (id : positive) :
  INSERT_Products name description category purchase_price selling_price
    initial_stock db = Returned (id, db') ->
  totals_ok db -> totals_ok db'.
Proof.
  unfold INSERT_Products.
  destruct name; [|discriminate]. destruct initial_stock; [|discriminate].
  cbv zeta. intros H. split_obind H. injection H as _ <-. now apply totals_ok_frame.
Qed.

Lemma UPDATE_Products_totals_ok (name description category : option string)
    (purchase_price selling_price : Q) (id : option Z) (db db' : database)
    (count : nat) :
  UPDATE_Products name description category purchase_price selling_price id db
    = Returned (count, db') ->
  totals_ok db -> totals_ok db'.
Proof.
  intros H. apply UPDATE_Products_returned in H as [-> | (n & sel & ->)];
    [easy | now apply totals_ok_frame].
Qed.

Lemma DELETE_Products_totals_ok (id : option Z) (db db' : database) (count : nat) :
  DELETE_Products id db = Returned (count, db') -> totals_ok db -> totals_ok db'.
Proof.
  unfold DELETE_Products. cbv zeta. intros H. split_obind H.
  injection H as _ <-. now apply totals_ok_frame.
Qed.

Lemma INSERT_Purchases_totals_ok (product_id : option Z) (quantity : Q)
    (purchase_date : string) (cost_per_unit : Q) (supplier : option string)
    (db db' : database) (id : positive) :
  INSERT_Purchases product_id quantity purchase_date cost_per_unit supplier db
    = Returned (id, db') ->
  totals_ok db -> totals_ok db'.
Proof.
  unfold INSERT_Purchases. destruct product_id as [z|]; [|discriminate].
  intros H. split_obind H. destruct (key_of z); [|discriminate].
  unfold increase_stock_on_purchase in H. split_obind H. injection H as _ <-.
  apply adjust_stock_returned in C1 as (-> & _). now apply totals_ok_frame.
Qed.

Ltac consistent_step keys refs totals :=
  let db := fresh "db" in
  let x := fresh "x" in
  let db' := fresh "db'" in
  let H := fresh "H" in
  intros db x db' H (? & ? & ?);
  refine (conj _ (conj _ _));
  [ eapply keys; eassumption | eapply refs; eassumption
  | eapply totals; eassumption ].


